(** * deployAutomation: the deployment manager of [main.py]

    A shallow embedding of [DeploymentManager] and of the driver [main]:
    the methods are written in a state-and-exception monad over the fields
    of the manager object and a trace of the interactions with the outside
    world (console, remote host, local file system).  What the outside
    world answers is given by a [World]: each answer is a function of the
    interactions so far, so that a statement quantified over every [World]
    speaks about every execution of the program. *)

From Stdlib Require Import String Ascii List ZArith Bool Lia DecimalString.
Import ListNotations.
Open Scope list_scope.
Open Scope string_scope.

Set Implicit Arguments.

(** ** Python strings

    A [str] is modelled by [string]; its characters are the code points
    below 256. *)

Module Py.

Definition dquote : string := String "034"%char EmptyString.
Definition newline : string := String "010"%char EmptyString.

(** [str(n)] for an [int]. *)
Definition str_of_int (z : Z) : string := NilZero.string_of_int (Z.to_int z).

(** [str(x)] for a value that is [None] or a [str]. *)
Definition str_of_opt (o : option string) : string :=
  match o with Some s => s | None => "None" end.

(** [' ' * n] *)
Fixpoint repeat_str (s : string) (n : nat) : string :=
  match n with O => EmptyString | S k => s ++ repeat_str s k end.

(** [needle in hay] *)
Fixpoint contains (needle hay : string) : bool :=
  String.prefix needle hay ||
  match hay with
  | EmptyString => false
  | String _ rest => contains needle rest
  end.

Fixpoint rev_onto (s acc : string) : string :=
  match s with
  | EmptyString => acc
  | String c r => rev_onto r (String c acc)
  end.

Definition reverse (s : string) : string := rev_onto s EmptyString.

Fixpoint lstrip_by (p : ascii -> bool) (s : string) : string :=
  match s with
  | EmptyString => EmptyString
  | String c r => if p c then lstrip_by p r else s
  end.

Definition rstrip_by (p : ascii -> bool) (s : string) : string :=
  reverse (lstrip_by p (reverse s)).

(** [str.isspace] on one code point below 256. *)
Definition isspace (c : ascii) : bool :=
  let n := nat_of_ascii c in
  (((9 <=? n) && (n <=? 13)) || ((28 <=? n) && (n <=? 32))
   || (n =? 133) || (n =? 160))%nat.

(** [s.strip()] *)
Definition strip (s : string) : string := rstrip_by isspace (lstrip_by isspace s).

Fixpoint mem_char (c : ascii) (chars : string) : bool :=
  match chars with
  | EmptyString => false
  | String d r => Ascii.eqb c d || mem_char c r
  end.

(** [s.rstrip(chars)]: removes trailing characters that occur in [chars]. *)
Definition rstrip_chars (chars s : string) : string :=
  rstrip_by (fun c => mem_char c chars) s.

(** [str.lower] on one code point below 256. *)
Definition lower_char (c : ascii) : ascii :=
  let n := nat_of_ascii c in
  if (((65 <=? n) && (n <=? 90))
      || ((192 <=? n) && (n <=? 222) && negb (n =? 215)))%nat
  then ascii_of_nat (n + 32) else c.

Fixpoint lower (s : string) : string :=
  match s with
  | EmptyString => EmptyString
  | String c r => String (lower_char c) (lower r)
  end.

(** [s.replace(old, '')]: the occurrences of [old] are found from the
    left and do not overlap; [skip] counts the characters of the
    occurrence being removed that are still to be dropped. *)
Fixpoint remove_from (old : string) (skip : nat) (s : string) : string :=
  match s with
  | EmptyString => EmptyString
  | String c r =>
      match skip with
      | S k => remove_from old k r
      | O =>
          if negb (String.eqb old EmptyString) && String.prefix old s
          then remove_from old (String.length old - 1) r
          else String c (remove_from old 0 r)
      end
  end.

Definition remove_all (old s : string) : string := remove_from old 0 s.

(** [s.count(c)] for a one-character [c]. *)
Fixpoint count_char (c : ascii) (s : string) : nat :=
  match s with
  | EmptyString => 0
  | String d r => (if Ascii.eqb c d then 1 else 0) + count_char c r
  end.

(** [sep.join(l)] *)
Definition join (sep : string) (l : list string) : string := String.concat sep l.

End Py.

(** ** [os.path] (the POSIX flavour, [posixpath]) *)

Module OsPath.

Definition sep : ascii := "/"%char.

Definition is_sep (c : ascii) : bool := Ascii.eqb c sep.

Definition startswith_sep (s : string) : bool :=
  match s with String c _ => is_sep c | EmptyString => false end.

Definition endswith_sep (s : string) : bool := startswith_sep (Py.reverse s).

(** [os.path.join(a, b)] *)
Definition join (a b : string) : string :=
  if startswith_sep b then b
  else if String.eqb a EmptyString || endswith_sep a then a ++ b
  else a ++ String sep b.

(** [(p[:i], p[i:])] for [i = p.rfind('/') + 1]. *)
Fixpoint rsplit (p : string) : string * string :=
  match p with
  | EmptyString => (EmptyString, EmptyString)
  | String c r =>
      match rsplit r with
      | (EmptyString, t) =>
          if is_sep c then (String c EmptyString, t) else (EmptyString, String c t)
      | (h, t) => (String c h, t)
      end
  end.

Fixpoint all_sep (s : string) : bool :=
  match s with
  | EmptyString => true
  | String c r => is_sep c && all_sep r
  end.

(** [os.path.dirname(p)] *)
Definition dirname (p : string) : string :=
  let head := fst (rsplit p) in
  if negb (String.eqb head EmptyString) && negb (all_sep head)
  then Py.rstrip_by is_sep head else head.

(** [os.path.basename(p)] *)
Definition basename (p : string) : string := snd (rsplit p).

End OsPath.

(** ** Outcomes of the operations of the outside world *)

(** A Python exception: its class and [str(e)]. *)
Inductive exn := PyExc (cls msg : string).

Definition str_exn (e : exn) : string :=
  match e with PyExc _ msg => msg end.

Inductive outcome (A : Type) :=
| Ok (a : A)
| Raise (e : exn).

Arguments Ok {A} a.
Arguments Raise {A} e.

(** The dict returned by [run_remote_command]. *)
Record CommandResult := mkResult {
  returncode : Z;
  stdout : string;
  stderr : string
}.

(** The value of one of the fields [ssh] and [sftp]: [None], a client
    object that is not connected yet, a live handle, a closed one. *)
Inductive handle := HNone | HFresh | HOpen | HClosed.

Definition is_open (h : handle) : bool :=
  match h with HOpen => true | _ => false end.

(** Truth value of the field in [if self.sftp:]. *)
Definition is_set (h : handle) : bool :=
  match h with HNone => false | _ => true end.

(** One interaction with the outside world, with what the world
    answered. *)
Inductive event :=
| EvPrint (msg : string)
| EvInput (prompt : string) (res : outcome string)
| EvGetpass (prompt : string) (res : outcome string)
| EvConnect (host user : option string) (password : string) (res : outcome unit)
| EvOpenSftp (res : outcome unit)
| EvExec (command : string) (res : outcome CommandResult)
| EvPut (local_path remote_path : string) (res : outcome unit)
| EvMkdtemp (res : outcome string)
| EvSubprocess (argv : list string) (res : outcome unit)
| EvMakedirs (path : string) (res : outcome unit)
| EvWrite (path : string) (newline : option string) (content : string) (res : outcome unit)
| EvRead (path : string) (res : outcome string)
| EvCloseSftp
| EvCloseSsh
| EvRmtree (path : string) (failing : list string)
| EvChmod (path : string) (res : outcome unit)
| EvRemoveAgain (path : string) (res : outcome unit)
| EvSleep (seconds : Z).

(** The outside world.  Every answer depends on the interactions so far
    (most recent first); what is raised is an instance of [Exception].
    [ssh_exec_command] stands for [exec_command]
    followed by the reads of the exit status and of both streams;
    [subprocess_run] for [subprocess.run(argv, check=True)];
    [rmtree_errors] lists the paths at which a removal call inside one
    [shutil.rmtree] fails, in order; [remove_again] is the call [func(path)]
    of the error handler.  [os_walk] gives the triples [(root, dirs,
    files)] of [os.walk]. *)
Record World := {
  getpass_getpass : list event -> string -> outcome string;
  ssh_connect : list event -> option string -> option string -> string -> outcome unit;
  ssh_open_sftp : list event -> outcome unit;
  ssh_exec_command : list event -> string -> outcome CommandResult;
  sftp_put : list event -> string -> string -> outcome unit;
  tempfile_mkdtemp : list event -> outcome string;
  subprocess_run : list event -> list string -> outcome unit;
  os_path_exists : list event -> string -> bool;
  os_path_expanduser : string -> string;
  os_path_relpath : string -> string -> string;
  os_walk : list event -> string -> list (string * list string * list string);
  os_makedirs : list event -> string -> outcome unit;
  file_write : list event -> string -> string -> outcome unit;
  file_read : list event -> string -> outcome string;
  rmtree_errors : list event -> string -> list string;
  os_chmod : list event -> string -> outcome unit;
  remove_again : list event -> string -> outcome unit
}.

(** ** The manager object and the state of a run *)

Record Manager := mkManager {
  server_host : option string;
  server_user : option string;
  server_password : string;
  temp_dir : option string;
  ssh : handle;
  sftp : handle;
  env_dir : string
}.

(** The state of a run: [self] is the object the code works on, [stdin]
    holds the lines the operator still has to type, [trace] the
    interactions so far, most recent first.  The methods run on a [State],
    where [self] is the manager; the driver runs on a [MainState], where
    the slot holds its local variable [deployer]. *)
Record Run (X : Type) := mkState {
  self : X;
  stdin : list string;
  trace : list event
}.

Definition State : Type := Run Manager.
Definition MainState : Type := Run (option Manager).

Definition record_event {X : Type} (e : event) (s : Run X) : Run X :=
  mkState (self s) (stdin s) (e :: trace s).

Definition with_self {X Y : Type} (x : Y) (s : Run X) : Run Y :=
  mkState x (stdin s) (trace s).

Definition set_ssh (h : handle) (m : Manager) : Manager :=
  mkManager (server_host m) (server_user m) (server_password m) (temp_dir m)
            h (sftp m) (env_dir m).

Definition set_sftp (h : handle) (m : Manager) : Manager :=
  mkManager (server_host m) (server_user m) (server_password m) (temp_dir m)
            (ssh m) h (env_dir m).

Definition set_temp_dir (d : option string) (m : Manager) : Manager :=
  mkManager (server_host m) (server_user m) (server_password m) d
            (ssh m) (sftp m) (env_dir m).

(** The messages printed so far, oldest first. *)
Definition printed (t : list event) : list string :=
  flat_map (fun e => match e with EvPrint m => [m] | _ => [] end) (rev t).

(** ** The monad: state and exceptions *)

Definition M (St A : Type) : Type := St -> outcome A * St.

Definition ret {St A : Type} (a : A) : M St A := fun s => (Ok a, s).

Definition raise {St A : Type} (e : exn) : M St A := fun s => (Raise e, s).

Definition bind {St A B : Type} (m : M St A) (k : A -> M St B) : M St B :=
  fun s =>
    match m s with
    | (Ok a, s1) => k a s1
    | (Raise e, s1) => (Raise e, s1)
    end.

(** [try: m  except Exception as e: h e] *)
Definition try_except {St A : Type} (m : M St A) (h : exn -> M St A) : M St A :=
  fun s =>
    match m s with
    | (Ok a, s1) => (Ok a, s1)
    | (Raise e, s1) => h e s1
    end.

(** [try: m  finally: fin] *)
Definition try_finally {St A : Type} (m : M St A) (fin : M St unit) : M St A :=
  fun s =>
    match m s with
    | (r, s1) =>
        match fin s1 with
        | (Ok _, s2) => (r, s2)
        | (Raise e, s2) => (Raise e, s2)
        end
    end.

Declare Scope monad_scope.
Delimit Scope monad_scope with monad.
Notation "x <- m ;; k" := (bind m (fun x => k))
  (at level 61, m at next level, right associativity) : monad_scope.
Notation "m ;; k" := (bind m (fun _ => k))
  (at level 61, right associativity) : monad_scope.
Open Scope monad_scope.

(** [if not step: return False], then the rest of the function. *)
Definition and_then {St : Type} (step rest : M St bool) : M St bool :=
  ok <- step ;; if ok then rest else ret false.

Notation "step &&> rest" := (and_then step rest)
  (at level 60, right associativity) : monad_scope.

(** ** The operations shared by the methods and the driver *)

(** [print(msg)] *)
Definition print {X : Type} (msg : string) : M (Run X) unit :=
  fun s => (Ok tt, record_event (EvPrint msg) s).

(** [input(prompt)]: the next line of the operator, [EOFError] when there
    is none. *)
Definition input {X : Type} (prompt : string) : M (Run X) string :=
  fun s =>
    match stdin s with
    | line :: rest =>
        (Ok line, mkState (self s) rest (EvInput prompt (Ok line) :: trace s))
    | [] =>
        let e := PyExc "EOFError" "EOF when reading a line" in
        (Raise e, record_event (EvInput prompt (Raise e)) s)
    end.

Definition get_self {X : Type} : M (Run X) X := fun s => (Ok (self s), s).

Definition put_self {X : Type} (x : X) : M (Run X) unit :=
  fun s => (Ok tt, with_self x s).

(** An operation of the world: its answer is recorded and returned, or
    raised. *)
Definition perform {X A : Type} (answer : list event -> outcome A)
  (ev : outcome A -> event) : M (Run X) A :=
  fun s => let res := answer (trace s) in (res, record_event (ev res) s).

(** A query of the world that leaves no trace, such as
    [os.path.exists]. *)
Definition observe {X A : Type} (answer : list event -> A) : M (Run X) A :=
  fun s => (Ok (answer (trace s)), s).

(** ** The methods of [DeploymentManager] *)

Section Methods.

Variable w : World.

(** [os.path.exists(path)] *)
Definition path_exists {X : Type} (path : string) : M (Run X) bool :=
  observe (fun t => os_path_exists w t path).

Definition none_has_no (attr : string) : exn :=
  PyExc "AttributeError" ("'NoneType' object has no attribute '" ++ attr ++ "'").

(** [__init__] (lines 15-23) *)
Definition init (server_host server_user : option string) (server_password : string)
  (env_dir : option string) : Manager :=
  mkManager server_host server_user server_password None HNone HNone
    (match env_dir with
     | Some d => if String.eqb d EmptyString
                 then os_path_expanduser w "~/.script_envs" else d
     | None => os_path_expanduser w "~/.script_envs"
     end).

(** [connect] (lines 25-34) *)
Definition connect : M State unit :=
  me <- get_self ;;
  put_self (set_ssh HFresh me) ;;
  perform (fun t => ssh_connect w t (server_host me) (server_user me) (server_password me))
          (EvConnect (server_host me) (server_user me) (server_password me)) ;;
  me <- get_self ;;
  put_self (set_ssh HOpen me) ;;
  perform (ssh_open_sftp w) EvOpenSftp ;;
  me <- get_self ;;
  put_self (set_sftp HOpen me).

(** [run_remote_command] (lines 36-44) *)
Definition run_remote_command (command : string) : M State CommandResult :=
  me <- get_self ;;
  match ssh me with
  | HNone => raise (none_has_no "exec_command")
  | _ => perform (fun t => ssh_exec_command w t command) (EvExec command)
  end.

(** [upload_file] (lines 46-58) *)
Definition upload_file (local_path remote_path : string) : M State bool :=
  try_except
    (let remote_dir := OsPath.dirname remote_path in
     run_remote_command ("mkdir -p " ++ remote_dir) ;;
     me <- get_self ;;
     match sftp me with
     | HNone => raise (none_has_no "put")
     | _ => perform (fun t => sftp_put w t local_path remote_path)
                    (EvPut local_path remote_path)
     end ;;
     ret true)
    (fun e =>
       print ("Failed to upload " ++ local_path ++ ": " ++ str_exn e) ;;
       ret false).

(** [clone_repo] (lines 60-65) *)
Definition clone_repo (repo_url branch : string) : M State string :=
  dir <- perform (tempfile_mkdtemp w) EvMkdtemp ;;
  me <- get_self ;;
  put_self (set_temp_dir (Some dir) me) ;;
  let argv := ["git"; "clone"; "-b"; branch; repo_url; dir] in
  perform (fun t => subprocess_run w t argv) (EvSubprocess argv) ;;
  ret dir.

(** The loop of lines 88-92: lines are read until an empty one. *)
Fixpoint read_env_lines (pending : list string) (env_contents : list string)
  (s : State) : outcome (list string) * State :=
  match pending with
  | [] =>
      let e := PyExc "EOFError" "EOF when reading a line" in
      (Raise e, record_event (EvInput EmptyString (Raise e)) s)
  | raw :: rest =>
      let s1 := mkState (self s) rest (EvInput EmptyString (Ok raw) :: trace s) in
      let line := Py.strip raw in
      if String.eqb line EmptyString then (Ok env_contents, s1)
      else read_env_lines rest (env_contents ++ [line])%list s1
  end.

Definition env_file_path_of (env_dir script_name : string) : string :=
  OsPath.join env_dir (script_name ++ ".env").

Definition remote_env_path_of (script_name : string) : string :=
  "/opt/" ++ script_name ++ "/.env".

(** [handle_env_file] (lines 67-102) *)
Definition handle_env_file (script_name remote_script_path : string) : M State bool :=
  me <- get_self ;;
  let env_file_path := env_file_path_of (env_dir me) script_name in
  found <- path_exists env_file_path ;;
  if found then
    print ("Found .env file for " ++ script_name) ;;
    upload_file env_file_path (remote_env_path_of script_name)
  else
    print ("No .env file found for " ++ script_name ++ " at " ++ env_file_path) ;;
    answer <- input "Would you like to create one now? (y/n): " ;;
    let create_env := Py.strip (Py.lower answer) in
    if String.eqb create_env "y" then
      perform (fun t => os_makedirs w t (env_dir me)) (EvMakedirs (env_dir me)) ;;
      print "Enter your environment variables (one per line)" ;;
      print "Format: KEY=VALUE" ;;
      print "Press Enter twice when done" ;;
      env_contents <- (fun s => read_env_lines (stdin s) [] s) ;;
      (let content := Py.join Py.newline env_contents in
       perform (fun t => file_write w t env_file_path content)
               (EvWrite env_file_path None content)) ;;
      print ("Created .env file at " ++ env_file_path) ;;
      upload_file env_file_path (remote_env_path_of script_name)
    else ret true.

(** *** [deploy_script] (lines 104-221) *)

Definition create_dir_cmd (password script_name : string) : string :=
  "echo '" ++ password ++ "' | sudo -S mkdir -p /opt/" ++ script_name.

Definition chown_cmd (password : string) (user : option string) (script_name : string)
  : string :=
  "echo '" ++ password ++ "' | sudo -S chown " ++ Py.str_of_opt user ++ ":"
    ++ Py.str_of_opt user ++ " /opt/" ++ script_name.

Definition nonzero (r : CommandResult) : bool := negb (Z.eqb (returncode r) 0).

(** Lines 108-117. *)
Definition create_directory (script_name : string) : M State bool :=
  me <- get_self ;;
  let create_dir_cmd := create_dir_cmd (server_password me) script_name in
  print ("Creating directory with command: " ++ create_dir_cmd) ;;
  result <- run_remote_command create_dir_cmd ;;
  print ("Create directory result - returncode: " ++ Py.str_of_int (returncode result)) ;;
  print ("stdout: " ++ stdout result) ;;
  print ("stderr: " ++ stderr result) ;;
  if nonzero result then
    print ("Failed to create directory: " ++ stderr result) ;;
    ret false
  else ret true.

(** Lines 119-128. *)
Definition set_permissions (script_name : string) : M State bool :=
  me <- get_self ;;
  let chown_cmd := chown_cmd (server_password me) (server_user me) script_name in
  print ("Setting permissions with command: " ++ chown_cmd) ;;
  result <- run_remote_command chown_cmd ;;
  print ("Set permissions result - returncode: " ++ Py.str_of_int (returncode result)) ;;
  print ("stdout: " ++ stdout result) ;;
  print ("stderr: " ++ stderr result) ;;
  if nonzero result then
    print ("Failed to set permissions: " ++ stderr result) ;;
    ret false
  else ret true.

Definition remote_path_of (script_path script_name local_path : string) : string :=
  "/opt/" ++ script_name ++ "/" ++ os_path_relpath w local_path script_path.

(** Lines 132-138: the files of one directory of the walk. *)
Fixpoint copy_dir_files (script_path script_name root : string) (files : list string)
  : M State bool :=
  match files with
  | [] => ret true
  | file :: more =>
      let local_path := OsPath.join root file in
      upload_file local_path (remote_path_of script_path script_name local_path)
      &&> copy_dir_files script_path script_name root more
  end.

(** Lines 131-138: the directories of the walk. *)
Fixpoint copy_walk (script_path script_name : string)
  (entries : list (string * list string * list string)) : M State bool :=
  match entries with
  | [] => ret true
  | (root, _, files) :: more =>
      copy_dir_files script_path script_name root files
      &&> copy_walk script_path script_name more
  end.

(** The walk is taken when the loop starts: the uploads do not change the
    local tree. *)
Definition copy_files (script_path script_name : string) : M State bool :=
  entries <- observe (fun t => os_walk w t script_path) ;;
  copy_walk script_path script_name entries.

Definition venv_setup_cmd (script_name : string) : string :=
  Py.join " && "
    [ "cd /opt/" ++ script_name;
      "python3.12 -m venv venv";
      "source venv/bin/activate";
      "pip install --upgrade pip";
      "pip install -r requirements.txt" ].

(** The text of lines 159-173. *)
Definition runner_script (script_name : string) : string :=
  Py.join Py.newline
    [ "#!/usr/bin/bash";
      "            # Set the PATH variable to include the default system paths";
      "            export PATH=/usr/local/sbin:/usr/local/bin:/usr/sbin:/usr/bin:/sbin:/bin";
      EmptyString;
      "            # Full path to the Python interpreter and log file";
      "            PYTHON_INTERPRETER=" ++ Py.dquote ++ "/opt/" ++ script_name
        ++ "/venv/bin/python3" ++ Py.dquote;
      EmptyString;
      "            # Create logs directory if it doesn't exist";
      "            mkdir -p /opt/" ++ script_name ++ "/logs";
      EmptyString;
      "            # Run the Python script within the virtual environment and log output";
      "            cd /opt/" ++ script_name;
      "            source venv/bin/activate";
      "            $PYTHON_INTERPRETER /opt/" ++ script_name ++ "/main.py &";
      "            " ].

Definition runner_path_of (script_path : string) : string :=
  OsPath.join script_path "run_script.sh".

Definition remote_runner_path (script_name : string) : string :=
  "/opt/" ++ script_name ++ "/run_script.sh".

Definition chmod_cmd (script_name : string) : string :=
  "chmod +x /opt/" ++ script_name ++ "/run_script.sh".

Definition dos2unix_cmd (script_name : string) : string :=
  "dos2unix /opt/" ++ script_name ++ "/run_script.sh".

Definition install_cmd (password : string) : string :=
  "echo '" ++ password ++ "' | sudo -S apt-get update && echo '" ++ password
    ++ "' | sudo -S apt-get install -y dos2unix".

(** Lines 190-206: the loop over [setup_commands]; [false] is the
    [return False] of lines 204 and 206. *)
Fixpoint run_setup_commands (setup_commands : list string) : M State bool :=
  match setup_commands with
  | [] => ret true
  | cmd :: more =>
      (result <- run_remote_command cmd ;;
       if nonzero result then
         print ("Failed to execute " ++ cmd ++ ": " ++ stderr result) ;;
         if Py.contains "dos2unix" cmd then
           print "Installing dos2unix..." ;;
           me <- get_self ;;
           result <- run_remote_command (install_cmd (server_password me)) ;;
           if Z.eqb (returncode result) 0 then
             result <- run_remote_command cmd ;;
             if nonzero result then
               print ("Failed to convert line endings: " ++ stderr result) ;;
               ret false
             else ret true
           else ret true
         else ret false
       else ret true)
      &&> run_setup_commands more
  end.

(** Lines 144-206: the virtual environment and the runner script. *)
Definition setup_runtime (script_path script_name : string) : M State bool :=
  found <- path_exists (OsPath.join script_path "requirements.txt") ;;
  if found then
    result <- run_remote_command (venv_setup_cmd script_name) ;;
    if nonzero result then
      print ("Failed to set up virtual environment: " ++ stderr result) ;;
      ret false
    else
      let runner_path := runner_path_of script_path in
      (let content := runner_script script_name in
       perform (fun t => file_write w t runner_path content)
               (EvWrite runner_path (Some Py.newline) content)) ;;
      upload_file runner_path (remote_runner_path script_name)
      &&> run_setup_commands [chmod_cmd script_name; dos2unix_cmd script_name]
  else ret true.

Definition cron_path_of (script_path : string) : string :=
  OsPath.join script_path "cron.txt".

Definition cron_cmd (script_name cron_schedule : string) : string :=
  "(crontab -l 2>/dev/null | grep -v " ++ Py.dquote ++ script_name ++ Py.dquote
    ++ " ; echo " ++ Py.dquote ++ cron_schedule ++ " /opt/" ++ script_name
    ++ "/run_script.sh" ++ Py.dquote ++ ") | crontab -".

(** Lines 208-218. *)
Definition update_crontab (script_path script_name : string) : M State bool :=
  let cron_path := cron_path_of script_path in
  found <- path_exists cron_path ;;
  if found then
    text <- perform (fun t => file_read w t cron_path) (EvRead cron_path) ;;
    let cron_schedule := Py.strip text in
    result <- run_remote_command (cron_cmd script_name cron_schedule) ;;
    if nonzero result then
      print ("Failed to update crontab: " ++ stderr result) ;;
      ret false
    else ret true
  else ret true.

Definition deploy_script (script_path script_name : string) : M State bool :=
  print (Py.newline ++ "Deploying " ++ script_name ++ "...") ;;
  create_directory script_name
  &&> set_permissions script_name
  &&> copy_files script_path script_name
  &&> handle_env_file script_name script_path
  &&> setup_runtime script_path script_name
  &&> update_crontab script_path script_name
  &&> (print ("Successfully deployed " ++ script_name) ;; ret true).

(** *** [cleanup] (lines 223-249) *)

(** [force_remove_readonly] (lines 223-227); [stat.S_IWRITE] is the only
    mode it sets. *)
Definition force_remove_readonly (path : string) : M State unit :=
  perform (fun t => os_chmod w t path) (EvChmod path) ;;
  perform (fun t => remove_again w t path) (EvRemoveAgain path).

(** The error handler of [shutil.rmtree] runs at each path where a
    removal call fails; an exception of the handler leaves [rmtree]. *)
Fixpoint handle_rmtree_errors (failing : list string) : M State unit :=
  match failing with
  | [] => ret tt
  | path :: more => force_remove_readonly path ;; handle_rmtree_errors more
  end.

(** [shutil.rmtree(path, onerror=self.force_remove_readonly)] *)
Definition shutil_rmtree (path : string) : M State unit :=
  failing <- observe (fun t => rmtree_errors w t path) ;;
  (fun s => (Ok tt, record_event (EvRmtree path failing) s)) ;;
  handle_rmtree_errors failing.

Definition time_sleep (seconds : Z) : M State unit :=
  fun s => (Ok tt, record_event (EvSleep seconds) s).

(** Lines 238-249: [for i in range(retry_count)], [indices] being the
    values of [i] still to come. *)
Fixpoint remove_attempts (temp_dir : string) (retry_count : Z) (indices : list Z)
  : M State unit :=
  match indices with
  | [] => ret tt
  | i :: more =>
      removed <-
        try_except
          (shutil_rmtree temp_dir ;; ret true)
          (fun e =>
             (if Z.eqb i (retry_count - 1) then
                print ("Warning: Could not remove temporary directory " ++ temp_dir) ;;
                print "You may need to manually delete it later"
              else time_sleep 1) ;;
             ret false) ;;
      if removed then ret tt else remove_attempts temp_dir retry_count more
  end.

(** [range(n)] for the small [n] of this program. *)
Definition range (n : nat) : list Z := map Z.of_nat (seq 0 n).

(** [close] of either handle does not raise. *)
Definition cleanup : M State unit :=
  me <- get_self ;;
  (if is_set (sftp me) then
     (fun s => (Ok tt, record_event EvCloseSftp s)) ;;
     put_self (set_sftp HClosed me)
   else ret tt) ;;
  me <- get_self ;;
  (if is_set (ssh me) then
     (fun s => (Ok tt, record_event EvCloseSsh s)) ;;
     put_self (set_ssh HClosed me)
   else ret tt) ;;
  me <- get_self ;;
  match temp_dir me with
  | Some dir =>
      if negb (String.eqb dir EmptyString) then
        found <- path_exists dir ;;
        if found then remove_attempts dir 3 (range 3) else ret tt
      else ret tt
  | None => ret tt
  end.

(** [verify_python_version] (lines 252-266) *)
Definition verify_python_version : M State bool :=
  result <- run_remote_command "command -v python3.12" ;;
  if nonzero result then
    raise (PyExc "RuntimeError" "Python 3.12 is not installed on the remote server")
  else
    result <- run_remote_command "python3.12 --version" ;;
    if nonzero result then
      raise (PyExc "RuntimeError" "Failed to get Python version")
    else
      let version := Py.strip (stdout result) in
      print ("Remote Python version: " ++ version) ;;
      ret true.

(** ** The driver [main] (lines 269-322) *)

(** The parsed command line. *)
Record Args := mkArgs {
  repo_url : string;
  host : option string;
  user : option string;
  branch : string;
  env_dir_arg : option string
}.

(** [deployer.method(...)]: the method runs on the object bound to
    [deployer]. *)
Definition call {A : Type} (attr : string) (method : M State A) : M MainState A :=
  fun ms =>
    match self ms with
    | None => (Raise (none_has_no attr), ms)
    | Some me =>
        match method (with_self me ms) with
        | (r, s) => (r, with_self (Some (self s)) s)
        end
    end.

(** Lines 309-315: the listing of one directory of the walk. *)
Definition print_walk_entry (repo_path : string)
  (entry : string * list string * list string) : list string :=
  match entry with
  | (root, _, files) =>
      let level := Py.count_char OsPath.sep (Py.remove_all repo_path root) in
      let indent := Py.repeat_str " " (4 * level) in
      let subindent := Py.repeat_str " " (4 * (level + 1)) in
      (indent ++ OsPath.basename root ++ "/") :: map (fun f => subindent ++ f) files
  end.

Fixpoint print_all {X : Type} (lines : list string) : M (Run X) unit :=
  match lines with
  | [] => ret tt
  | l :: more => print l ;; print_all more
  end.

(** The [try] block of lines 284-315. *)
Definition main_body (args : Args) (server_password : string) : M MainState unit :=
  print "Initializing deployment manager..." ;;
  put_self (Some (init (host args) (user args) server_password (env_dir_arg args))) ;;
  print "Establishing SSH connection..." ;;
  call "connect" connect ;;
  print "Verifying Python version..." ;;
  call "verify_python_version" verify_python_version ;;
  print "Cloning repository..." ;;
  repo_path <- call "clone_repo" (clone_repo (repo_url args) (branch args)) ;;
  print ("Repository cloned to: " ++ repo_path) ;;
  print "Checking repository structure..." ;;
  found <- path_exists (OsPath.join repo_path "main.py") ;;
  if found then
    let repo_name := OsPath.basename (Py.rstrip_chars ".git" (repo_url args)) in
    print ("Found main.py in repository root. Using repo name: " ++ repo_name) ;;
    deployed <- call "deploy_script" (deploy_script repo_path repo_name) ;;
    if negb deployed then
      print "Deployment failed!" ;;
      raise (PyExc "Exception" "Deployment failed")
    else ret tt
  else
    print "No main.py found in repository root!" ;;
    print "Repository structure:" ;;
    entries <- observe (fun t => os_walk w t repo_path) ;;
    print_all (flat_map (print_walk_entry repo_path) entries).

Definition main (args : Args) : M MainState unit :=
  server_password <-
    perform (fun t => getpass_getpass w t "Enter server password: ")
            (EvGetpass "Enter server password: ") ;;
  put_self None ;;
  try_finally
    (try_except
       (main_body args server_password)
       (fun e => print ("An error occurred: " ++ str_exn e) ;; raise e))
    (deployer <- get_self ;;
     match deployer with
     | Some _ => call "cleanup" cleanup
     | None => ret tt
     end).

(** The state in which the process starts. *)
Definition initial (operator_lines : list string) : MainState :=
  mkState None operator_lines [].

End Methods.

(** ** Concrete worlds

    A world in which every operation succeeds, parameterised by the local
    files that exist, by the walk of the source tree and by the answers of
    the remote shell. *)

Definition ok_result : CommandResult := mkResult 0 EmptyString EmptyString.

Definition failed (code : Z) (err : string) : CommandResult :=
  mkResult code EmptyString err.

Definition path_in (files : list string) (p : string) : bool :=
  existsb (String.eqb p) files.

(** [relpath] of a path that lies under [start]. *)
Definition relpath_under (path start : string) : string :=
  String.substring (S (String.length start))
    (String.length path - S (String.length start)) path.

Definition world_of (files : list string)
  (walk : list (string * list string * list string))
  (shell : list event -> string -> outcome CommandResult) : World :=
  {| getpass_getpass := fun _ _ => Ok "hunter2";
     ssh_connect := fun _ _ _ _ => Ok tt;
     ssh_open_sftp := fun _ => Ok tt;
     ssh_exec_command := shell;
     sftp_put := fun _ _ _ => Ok tt;
     tempfile_mkdtemp := fun _ => Ok "/tmp/tmpk3";
     subprocess_run := fun _ _ => Ok tt;
     os_path_exists := fun _ p => path_in files p;
     os_path_expanduser := fun _ => "/home/op/.script_envs";
     os_path_relpath := relpath_under;
     os_walk := fun _ _ => walk;
     os_makedirs := fun _ _ => Ok tt;
     file_write := fun _ _ _ => Ok tt;
     file_read := fun _ _ => Ok ("*/5 * * * *" ++ Py.newline);
     rmtree_errors := fun _ _ => [];
     os_chmod := fun _ _ => Ok tt;
     remove_again := fun _ _ => Ok tt |}.

Definition always_ok : list event -> string -> outcome CommandResult :=
  fun _ _ => Ok ok_result.

(** A manager with a live session, as [connect] leaves it. *)
Definition connected_manager : Manager :=
  mkManager (Some "10.20.1.4") (Some "scadaadmin") "hunter2" (Some "/tmp/tmpk3")
            HOpen HOpen "/home/op/.script_envs".

Definition connected (operator_lines : list string) : State :=
  mkState connected_manager operator_lines [].

Open Scope list_scope.

(** * Specification vocabulary *)

(** ** Frames: what a computation may add to the trace

    [frame me io P m]: run on the manager [me], the computation [m] leaves
    the manager as it is, only adds events that satisfy [P] to the trace,
    and reads no line of the operator unless [io] is set. *)
Definition frame {A : Type} (me : Manager) (io : bool) (P : event -> Prop)
  (m : M State A) : Prop :=
  forall s, self s = me ->
    exists evs,
      Forall P evs /\
      self (snd (m s)) = me /\
      trace (snd (m s)) = evs ++ trace s /\
      (io = false -> stdin (snd (m s)) = stdin s).

(** ** The events of each step of the deployment *)

Inductive upload_event (l r : string) : event -> Prop :=
| UpMkdir res :
    upload_event l r (EvExec ("mkdir -p " ++ OsPath.dirname r)%string res)
| UpPut res : upload_event l r (EvPut l r res)
| UpFailed e :
    upload_event l r (EvPrint ("Failed to upload " ++ l ++ ": " ++ str_exn e)%string).

Inductive privileged_event (me : Manager) (n : string) : event -> Prop :=
| PrivPrint msg : privileged_event me n (EvPrint msg)
| PrivCreate res :
    privileged_event me n (EvExec (create_dir_cmd (server_password me) n) res)
| PrivChown res :
    privileged_event me n
      (EvExec (chown_cmd (server_password me) (server_user me) n) res).

Inductive copy_event (w : World) (sp n : string)
  (entries : list (string * list string * list string)) : event -> Prop :=
| CopyUpload root dirs files file e :
    In (root, dirs, files) entries -> In file files ->
    upload_event (OsPath.join root file)
                 (remote_path_of w sp n (OsPath.join root file)) e ->
    copy_event w sp n entries e.

Inductive secrets_event (me : Manager) (n : string) : event -> Prop :=
| SecPrint msg : secrets_event me n (EvPrint msg)
| SecInput prompt res : secrets_event me n (EvInput prompt res)
| SecMakedirs res : secrets_event me n (EvMakedirs (env_dir me) res)
| SecWrite content res :
    secrets_event me n
      (EvWrite (env_file_path_of (env_dir me) n) None content res)
| SecUpload e :
    upload_event (env_file_path_of (env_dir me) n) (remote_env_path_of n) e ->
    secrets_event me n e.

Inductive runtime_event (me : Manager) (sp n : string) : event -> Prop :=
| RtPrint msg : runtime_event me sp n (EvPrint msg)
| RtVenv res : runtime_event me sp n (EvExec (venv_setup_cmd n) res)
| RtWrite res :
    runtime_event me sp n
      (EvWrite (runner_path_of sp) (Some Py.newline) (runner_script n) res)
| RtUpload e :
    upload_event (runner_path_of sp) (remote_runner_path n) e ->
    runtime_event me sp n e
| RtChmod res : runtime_event me sp n (EvExec (chmod_cmd n) res)
| RtDos2unix res : runtime_event me sp n (EvExec (dos2unix_cmd n) res)
| RtInstall res :
    runtime_event me sp n (EvExec (install_cmd (server_password me)) res).

Inductive schedule_event (sp n : string) : event -> Prop :=
| SchPrint msg : schedule_event sp n (EvPrint msg)
| SchRead res : schedule_event sp n (EvRead (cron_path_of sp) res)
| SchCron text res :
    schedule_event sp n (EvExec (cron_cmd n (Py.strip text)) res).

(** The events of a whole deployment. *)
Inductive deploy_event (w : World) (me : Manager) (sp n : string) : event -> Prop :=
| DePrivileged e : privileged_event me n e -> deploy_event w me sp n e
| DeCopy h e : copy_event w sp n (os_walk w h sp) e -> deploy_event w me sp n e
| DeSecrets e : secrets_event me n e -> deploy_event w me sp n e
| DeRuntime e : runtime_event me sp n e -> deploy_event w me sp n e
| DeSchedule e : schedule_event sp n e -> deploy_event w me sp n e.

(** The steps that follow the privileged ones. *)
Definition later_steps (w : World) (sp n : string) : M State bool :=
  copy_files w sp n
  &&> handle_env_file w n sp
  &&> setup_runtime w sp n
  &&> update_crontab w sp n
  &&> (print ("Successfully deployed " ++ n)%string ;; ret true).

(** The last character of a string. *)
Fixpoint last_char (s : string) : option ascii :=
  match s with
  | EmptyString => None
  | String c r => match last_char r with Some d => Some d | None => Some c end
  end.

(** The two privileged commands of a deployment. *)
Definition privileged_cmd (me : Manager) (n c : string) : Prop :=
  c = create_dir_cmd (server_password me) n \/
  c = chown_cmd (server_password me) (server_user me) n.

Definition is_print (e : event) : Prop :=
  match e with EvPrint _ => True | _ => False end.

(** What the steps after the privileged ones may add to the trace. *)
Definition later_event (w : World) (me : Manager) (sp n : string) (e : event) : Prop :=
  (exists h, copy_event w sp n (os_walk w h sp) e) \/ secrets_event me n e
  \/ runtime_event me sp n e \/ schedule_event sp n e.

(** The steps of a deployment that come before the schedule step, and the
    report that follows it. *)
Definition earlier_steps (w : World) (sp n : string) : M State bool :=
  print (Py.newline ++ "Deploying " ++ n ++ "...")%string ;;
  create_directory w n
  &&> set_permissions w n
  &&> copy_files w sp n
  &&> handle_env_file w n sp
  &&> setup_runtime w sp n.

Definition report_success (n : string) : M State bool :=
  print ("Successfully deployed " ++ n)%string ;; ret true.

Definition earlier_event (w : World) (me : Manager) (sp n : string) (e : event) : Prop :=
  privileged_event me n e \/ (exists h, copy_event w sp n (os_walk w h sp) e)
  \/ secrets_event me n e \/ runtime_event me sp n e.

(** ** The schedule step (claim C4) *)

(** What the source tree holds at [cron.txt] during the run: nothing, or
    a file with the given text. *)
Definition cron_file_is (w : World) (sp : string) (cron : option string) : Prop :=
  match cron with
  | Some text =>
      forall h, os_path_exists w h (cron_path_of sp) = true /\
                file_read w h (cron_path_of sp) = Ok text
  | None => forall h, os_path_exists w h (cron_path_of sp) = false
  end.

(** The crontab line of a target: the schedule expression followed by the
    remote runner script path. *)
Definition crontab_entry (schedule n : string) : string :=
  (schedule ++ " " ++ remote_runner_path n)%string.

(** The shell pipeline that lists the current entries, drops the lines
    that mention [n], appends [entry] and installs the result. *)
Definition replace_entry_cmd (n entry : string) : string :=
  ("(crontab -l 2>/dev/null | grep -v " ++ Py.dquote ++ n ++ Py.dquote
   ++ " ; echo " ++ Py.dquote ++ entry ++ Py.dquote ++ ") | crontab -")%string.

(** The commands that read and install a crontab. *)
Definition is_crontab_cmd (c : string) : bool := String.prefix "(crontab " c.

Definition crontab_exec (e : event) : Prop :=
  match e with
  | EvExec c _ => is_crontab_cmd c = true
  | _ => False
  end.

(** The result of a step that is fatal on a non-zero exit. *)
Definition fatal_on_nonzero (res : outcome CommandResult) : outcome bool :=
  match res with
  | Ok r => Ok (Z.eqb (returncode r) 0)
  | Raise e => Raise e
  end.

(** ** Deployment without a dependency manifest (claim C5) *)

(** The deployment as the specification describes it when the dependency
    manifest is absent: states 1 to 4 and 7, without the dependency setup
    and the runner materialization. *)
Definition deploy_without_runtime (w : World) (sp n : string) : M State bool :=
  print (Py.newline ++ "Deploying " ++ n ++ "...")%string ;;
  create_directory w n
  &&> set_permissions w n
  &&> copy_files w sp n
  &&> handle_env_file w n sp
  &&> update_crontab w sp n
  &&> report_success n.

(** The events that only the dependency setup and the runner
    materialization produce: the virtual-environment command, the
    generation of the runner script, and the commands that configure it. *)
Definition runtime_step_event (me : Manager) (sp n : string) (e : event) : Prop :=
  match e with
  | EvExec c _ =>
      c = venv_setup_cmd n \/ c = chmod_cmd n \/ c = dos2unix_cmd n
      \/ c = install_cmd (server_password me)
  | EvWrite p _ _ _ => p = runner_path_of sp
  | _ => False
  end.

(** A transfer of a file that the walk of the source tree lists, or of the
    secrets file. *)
Definition source_or_secrets (w : World) (me : Manager) (sp n : string)
  (l r : string) : Prop :=
  (l = env_file_path_of (env_dir me) n /\ r = remote_env_path_of n)
  \/ exists h root dirs files file,
       In (root, dirs, files) (os_walk w h sp) /\ In file files /\
       l = OsPath.join root file /\ r = remote_path_of w sp n l.

Definition plain_event (w : World) (me : Manager) (sp n : string) (e : event) : Prop :=
  privileged_event me n e \/ (exists h, copy_event w sp n (os_walk w h sp) e)
  \/ secrets_event me n e \/ schedule_event sp n e.

(** ** Declined secrets (claim C6) *)

(** The operator declines unless the answer, lower-cased and stripped, is
    [y]. *)
Definition declines (answer : string) : Prop :=
  Py.strip (Py.lower answer) <> "y".

(** Console events: what is printed and what the operator types. *)
Definition is_console (e : event) : bool :=
  match e with
  | EvPrint _ | EvInput _ _ => true
  | _ => false
  end.

(** A history without its console events. *)
Definition quiet (t : list event) : list event :=
  filter (fun e => negb (is_console e)) t.

(** The remote host and the local file system do not see the console:
    their answers only depend on the history without its console events. *)
Definition console_blind (w : World) : Prop :=
  forall h h', quiet h = quiet h' ->
    (forall c, ssh_exec_command w h c = ssh_exec_command w h' c) /\
    (forall l r, sftp_put w h l r = sftp_put w h' l r) /\
    (forall p, os_path_exists w h p = os_path_exists w h' p) /\
    (forall p c, file_write w h p c = file_write w h' p c) /\
    (forall p, file_read w h p = file_read w h' p).

(** The deployment with the secrets step absent. *)
Definition deploy_without_secrets (w : World) (sp n : string) : M State bool :=
  print (Py.newline ++ "Deploying " ++ n ++ "...")%string ;;
  create_directory w n
  &&> set_permissions w n
  &&> copy_files w sp n
  &&> setup_runtime w sp n
  &&> update_crontab w sp n
  &&> report_success n.

(** The steps before the secrets step, and those after it. *)
Definition before_secrets (w : World) (sp n : string) : M State bool :=
  print (Py.newline ++ "Deploying " ++ n ++ "...")%string ;;
  create_directory w n &&> set_permissions w n &&> copy_files w sp n.

Definition after_secrets (w : World) (sp n : string) : M State bool :=
  setup_runtime w sp n &&> update_crontab w sp n &&> report_success n.

(** Two states that differ in console events and pending input only. *)
Definition same_but_console (s1 s2 : State) : Prop :=
  self s1 = self s2 /\ quiet (trace s1) = quiet (trace s2).

(** [m] cannot tell such states apart. *)
Definition console_independent {A : Type} (m : M State A) : Prop :=
  forall s1 s2, same_but_console s1 s2 ->
    fst (m s1) = fst (m s2) /\ same_but_console (snd (m s1)) (snd (m s2)).

(** ** Uploads (claim C7) *)

(** The state [s] after the events [evs] (most recent first). *)
Definition extend (evs : list event) (s : State) : State :=
  mkState (self s) (stdin s) (evs ++ trace s).

Definition upload_failed (l : string) (e : exn) : event :=
  EvPrint ("Failed to upload " ++ l ++ ": " ++ str_exn e)%string.

Definition mkdir_parent (r : string) : string :=
  ("mkdir -p " ++ OsPath.dirname r)%string.

(** The five ways an upload can go: the result and the events it adds. *)
Inductive upload_run (l r : string) (s : State) : bool -> list event -> Prop :=
| UploadNoSession :
    ssh (self s) = HNone ->
    upload_run l r s false [upload_failed l (none_has_no "exec_command")]
| UploadMkdirRaised e :
    ssh (self s) <> HNone ->
    upload_run l r s false
      [upload_failed l e; EvExec (mkdir_parent r) (Raise e)]
| UploadNoChannel res :
    ssh (self s) <> HNone -> sftp (self s) = HNone ->
    upload_run l r s false
      [upload_failed l (none_has_no "put"); EvExec (mkdir_parent r) (Ok res)]
| UploadPutRaised res e :
    ssh (self s) <> HNone -> sftp (self s) <> HNone ->
    upload_run l r s false
      [upload_failed l e; EvPut l r (Raise e); EvExec (mkdir_parent r) (Ok res)]
| UploadDone res :
    ssh (self s) <> HNone -> sftp (self s) <> HNone ->
    upload_run l r s true
      [EvPut l r (Ok tt); EvExec (mkdir_parent r) (Ok res)].

(** ** The two handles of the session (claim C8) *)

(** The public operations of the manager. *)
Inductive operation :=
| OpConnect
| OpRunRemoteCommand (command : string)
| OpUploadFile (local_path remote_path : string)
| OpCloneRepo (repo_url branch : string)
| OpHandleEnvFile (script_name remote_script_path : string)
| OpDeployScript (script_path script_name : string)
| OpCleanup
| OpVerifyPythonVersion.

(** The state an operation leaves, whether it returns or raises. *)
Definition state_after (w : World) (op : operation) (s : State) : State :=
  match op with
  | OpConnect => snd (connect w s)
  | OpRunRemoteCommand c => snd (run_remote_command w c s)
  | OpUploadFile l r => snd (upload_file w l r s)
  | OpCloneRepo url b => snd (clone_repo w url b s)
  | OpHandleEnvFile n rsp => snd (handle_env_file w n rsp s)
  | OpDeployScript sp n => snd (deploy_script w sp n s)
  | OpCleanup => snd (cleanup w s)
  | OpVerifyPythonVersion => snd (verify_python_version w s)
  end.

(** The states reachable through the public operations from a manager
    that was just constructed. *)
Inductive reachable (w : World) : State -> Prop :=
| ReachInit host user password env_dir lines :
    reachable w (mkState (init w host user password env_dir) lines [])
| ReachStep op s :
    reachable w s -> reachable w (state_after w op s).

(** The same, when no [connect] raised. *)
Inductive reachable_connecting (w : World) : State -> Prop :=
| ReachCInit host user password env_dir lines :
    reachable_connecting w (mkState (init w host user password env_dir) lines [])
| ReachCStep op s :
    reachable_connecting w s ->
    (op = OpConnect -> fst (connect w s) = Ok tt) ->
    reachable_connecting w (state_after w op s).

(** Both handles are open, or neither is. *)
Definition handles_agree (m : Manager) : Prop :=
  is_open (ssh m) = is_open (sftp m).

(** A world in which the file-transfer channel cannot be opened. *)
Definition world_without_sftp : World :=
  {| getpass_getpass := fun _ _ => Ok "hunter2";
     ssh_connect := fun _ _ _ _ => Ok tt;
     ssh_open_sftp := fun _ => Raise (PyExc "SSHException" "Channel closed.");
     ssh_exec_command := fun _ _ => Ok ok_result;
     sftp_put := fun _ _ _ => Ok tt;
     tempfile_mkdtemp := fun _ => Ok "/tmp/tmpk3";
     subprocess_run := fun _ _ => Ok tt;
     os_path_exists := fun _ _ => false;
     os_path_expanduser := fun _ => "/home/op/.script_envs";
     os_path_relpath := relpath_under;
     os_walk := fun _ _ => [];
     os_makedirs := fun _ _ => Ok tt;
     file_write := fun _ _ _ => Ok tt;
     file_read := fun _ _ => Ok EmptyString;
     rmtree_errors := fun _ _ => [];
     os_chmod := fun _ _ => Ok tt;
     remove_again := fun _ _ => Ok tt |}.

(** ** Cleanup (claim C9) *)

(** The events of the error handler of one [shutil.rmtree], most recent
    first, for the paths at which a removal call fails: each path gets the
    writable-permission fix-up and then the removal call again; an
    exception of either ends the [rmtree]. *)
Inductive fixups : list string -> outcome unit -> list event -> Prop :=
| FixDone : fixups [] (Ok tt) []
| FixChmodRaised p ps e :
    fixups (p :: ps) (Raise e) [EvChmod p (Raise e)]
| FixRemoveRaised p ps e :
    fixups (p :: ps) (Raise e) [EvRemoveAgain p (Raise e); EvChmod p (Ok tt)]
| FixNext p ps res evs :
    fixups ps res evs ->
    fixups (p :: ps) res (evs ++ [EvRemoveAgain p (Ok tt); EvChmod p (Ok tt)]).

(** One removal attempt and its outcome. *)
Inductive attempt (dir : string) : outcome unit -> list event -> Prop :=
| Attempt failing res evs :
    fixups failing res evs -> attempt dir res (evs ++ [EvRmtree dir failing]).

Definition removal_warnings (dir : string) : list event :=
  [ EvPrint "You may need to manually delete it later";
    EvPrint ("Warning: Could not remove temporary directory " ++ dir)%string ].

(** The removal of the workspace: up to three attempts, a wait of one
    second after a failed attempt that is not the last, the two warnings
    after the third failure. *)
Inductive removal (dir : string) : list event -> Prop :=
| RemovedAtOnce a1 :
    attempt dir (Ok tt) a1 -> removal dir a1
| RemovedAtSecond e1 a1 a2 :
    attempt dir (Raise e1) a1 -> attempt dir (Ok tt) a2 ->
    removal dir (a2 ++ [EvSleep 1] ++ a1)
| RemovedAtThird e1 e2 a1 a2 a3 :
    attempt dir (Raise e1) a1 -> attempt dir (Raise e2) a2 ->
    attempt dir (Ok tt) a3 ->
    removal dir (a3 ++ [EvSleep 1] ++ a2 ++ [EvSleep 1] ++ a1)
| RemovalGivenUp e1 e2 e3 a1 a2 a3 :
    attempt dir (Raise e1) a1 -> attempt dir (Raise e2) a2 ->
    attempt dir (Raise e3) a3 ->
    removal dir (removal_warnings dir ++ a3 ++ [EvSleep 1] ++ a2 ++ [EvSleep 1] ++ a1).

(** The manager after [cleanup]: the handles that were set are closed. *)
Definition closed (me : Manager) : Manager :=
  let m1 := if is_set (sftp me) then set_sftp HClosed me else me in
  if is_set (ssh m1) then set_ssh HClosed m1 else m1.

Definition close_events (me : Manager) : list event :=
  (if is_set (ssh me) then [EvCloseSsh] else [])
  ++ (if is_set (sftp me) then [EvCloseSftp] else []).

(** The workspace that [cleanup] finds on disk, if any. *)
Definition workspace_present (w : World) (me : Manager) (t : list event)
  : option string :=
  match temp_dir me with
  | Some dir =>
      if negb (String.eqb dir EmptyString) && os_path_exists w t dir
      then Some dir else None
  | None => None
  end.

(** The events of a [cleanup] of the manager [me] that starts after the
    history [t]. *)
Definition cleanup_events (w : World) (me : Manager) (t evs : list event) : Prop :=
  exists rm,
    evs = rm ++ close_events me /\
    match workspace_present w me (close_events me ++ t) with
    | Some dir => removal dir rm
    | None => rm = []
    end.

(** ** The driver (claims C9 and C10) *)

(** The [try] statement of [main] with its [except] clause (lines 283-319),
    and the [finally] clause (lines 320-322). *)
Definition main_try (w : World) (args : Args) (server_password : string)
  : M MainState unit :=
  try_except
    (main_body w args server_password)
    (fun e => print ("An error occurred: " ++ str_exn e)%string ;; raise e).

Definition main_finally (w : World) : M MainState unit :=
  deployer <- get_self ;;
  match deployer with
  | Some _ => call "cleanup" (cleanup w)
  | None => ret tt
  end.

(** A computation of the driver that leaves [deployer] bound once it is. *)
Definition keeps_deployer {A : Type} (m : M MainState A) : Prop :=
  forall ms, self ms <> None -> self (snd (m ms)) <> None.

(** The events that [cleanup] may add to the trace. *)
Definition cleanup_event (e : event) : Prop :=
  match e with
  | EvCloseSftp | EvCloseSsh | EvRmtree _ _ | EvChmod _ _ | EvRemoveAgain _ _
  | EvSleep _ | EvPrint _ => True
  | _ => False
  end.

(** The commands run on the remote host, oldest first. *)
Definition exec_commands (t : list event) : list string :=
  flat_map (fun e => match e with EvExec c _ => [c] | _ => [] end) (rev t).

Definition is_transfer (e : event) : Prop :=
  match e with EvPut _ _ _ => True | _ => False end.

Definition clone_argv (args : Args) (dir : string) : list string :=
  ["git"; "clone"; "-b"; branch args; repo_url args; dir].

(** The lines of the listing for one directory of the walk: the name of
    the directory followed by [/], indented by four spaces for each
    separator left in its path once every occurrence of the path of the
    clone is removed from it, then its files, one per line, indented by four
    more. *)
Definition listing_level (dir root : string) : nat :=
  Py.count_char OsPath.sep (Py.remove_all dir root).

Definition listing_lines (dir : string) (entry : string * list string * list string)
  : list string :=
  match entry with
  | (root, _, files) =>
      (Py.repeat_str " " (4 * listing_level dir root) ++ OsPath.basename root ++ "/")%string
      :: map (fun f => (Py.repeat_str " " (4 * (listing_level dir root + 1)) ++ f)%string)
             files
  end.

(** ** Concrete runs *)

Definition repo_dir : string := "/tmp/tmpk3".

Definition target : string := "lightningStrikes".

(** A remote host without [dos2unix], on which the package manager fails
    as well. *)
Definition shell_without_dos2unix : list event -> string -> outcome CommandResult :=
  fun _ c =>
    if String.prefix "dos2unix " c then Ok (failed 127 "bash: dos2unix: command not found")
    else if Py.contains "apt-get" c then Ok (failed 100 "E: Unable to locate package dos2unix")
    else Ok ok_result.

Definition world_without_dos2unix : World :=
  world_of [ "/tmp/tmpk3/main.py"; "/tmp/tmpk3/requirements.txt" ]
           [ (repo_dir, [], ["main.py"; "requirements.txt"]) ]
           shell_without_dos2unix.

(** A remote host on which [chmod] is refused; the target name contains
    [dos2unix]. *)
Definition shell_chmod_refused : list event -> string -> outcome CommandResult :=
  fun _ c =>
    if String.prefix "chmod " c then Ok (failed 1 "chmod: Operation not permitted")
    else Ok ok_result.

Definition world_chmod_refused : World :=
  world_of [ "/tmp/tmpk3/main.py"; "/tmp/tmpk3/requirements.txt" ]
           [ (repo_dir, [], ["main.py"; "requirements.txt"]) ]
           shell_chmod_refused.

(** A remote host on which [sudo] refuses the password. *)
Definition shell_sudo_refused : list event -> string -> outcome CommandResult :=
  fun _ c =>
    if Py.contains "sudo -S" c then Ok (failed 1 "sudo: 1 incorrect password attempt")
    else Ok ok_result.

Definition world_sudo_refused : World :=
  world_of [ "/tmp/tmpk3/main.py" ] [ (repo_dir, [], ["main.py"]) ] shell_sudo_refused.

(** A source tree with a schedule file and no dependency manifest. *)
Definition world_with_cron : World :=
  world_of [ "/tmp/tmpk3/main.py"; "/tmp/tmpk3/cron.txt" ]
           [ (repo_dir, [], ["main.py"; "cron.txt"]) ]
           always_ok.

(** A clone without [main.py]. *)
Definition world_without_main : World :=
  world_of [ "/tmp/tmpk3" ]
           [ (repo_dir, ["docs"], ["README.md"]); ("/tmp/tmpk3/docs", [], ["index.md"]) ]
           always_ok.

Definition example_args : Args :=
  mkArgs "https://github.com/WB-TFS-SCADA1/lightningStrikes.git"
         (Some "10.20.1.4") (Some "scadaadmin") "master" None.

(** A workspace with a read-only file that cannot be removed even after
    the fix-up. *)
Definition world_stuck_workspace : World :=
  {| getpass_getpass := fun _ _ => Ok "hunter2";
     ssh_connect := fun _ _ _ _ => Ok tt;
     ssh_open_sftp := fun _ => Ok tt;
     ssh_exec_command := always_ok;
     sftp_put := fun _ _ _ => Ok tt;
     tempfile_mkdtemp := fun _ => Ok "/tmp/tmpk3";
     subprocess_run := fun _ _ => Ok tt;
     os_path_exists := fun _ p => path_in ["/tmp/tmpk3"] p;
     os_path_expanduser := fun _ => "/home/op/.script_envs";
     os_path_relpath := relpath_under;
     os_walk := fun _ _ => [];
     os_makedirs := fun _ _ => Ok tt;
     file_write := fun _ _ _ => Ok tt;
     file_read := fun _ _ => Ok EmptyString;
     rmtree_errors := fun _ _ => ["/tmp/tmpk3/.git/objects/pack/pack-1.idx"];
     os_chmod := fun _ _ => Ok tt;
     remove_again := fun _ _ =>
       Raise (PyExc "PermissionError" "[WinError 5] Access is denied") |}.

(** ** The normalization of the runner script (claim C1) *)

(** The ways the loop of lines 190-206 can go on the normalization
    command, with a live command channel: the result ([Ok false] is the
    [return False]) and the events, most recent first. *)
Inductive normalization_run (password n : string)
  : outcome bool -> list event -> Prop :=
| NormDone r :
    returncode r = 0%Z ->
    normalization_run password n (Ok true) [EvExec (dos2unix_cmd n) (Ok r)]
| NormRaised e :
    normalization_run password n (Raise e) [EvExec (dos2unix_cmd n) (Raise e)]
| NormInstallRaised r e :
    returncode r <> 0%Z ->
    normalization_run password n (Raise e)
      [ EvExec (install_cmd password) (Raise e);
        EvPrint "Installing dos2unix...";
        EvPrint ("Failed to execute " ++ dos2unix_cmd n ++ ": " ++ stderr r)%string;
        EvExec (dos2unix_cmd n) (Ok r) ]
| NormInstallFailed r ri :
    returncode r <> 0%Z -> returncode ri <> 0%Z ->
    normalization_run password n (Ok true)
      [ EvExec (install_cmd password) (Ok ri);
        EvPrint "Installing dos2unix...";
        EvPrint ("Failed to execute " ++ dos2unix_cmd n ++ ": " ++ stderr r)%string;
        EvExec (dos2unix_cmd n) (Ok r) ]
| NormRetryRaised r ri e :
    returncode r <> 0%Z -> returncode ri = 0%Z ->
    normalization_run password n (Raise e)
      [ EvExec (dos2unix_cmd n) (Raise e);
        EvExec (install_cmd password) (Ok ri);
        EvPrint "Installing dos2unix...";
        EvPrint ("Failed to execute " ++ dos2unix_cmd n ++ ": " ++ stderr r)%string;
        EvExec (dos2unix_cmd n) (Ok r) ]
| NormRetried r ri rr :
    returncode r <> 0%Z -> returncode ri = 0%Z -> returncode rr = 0%Z ->
    normalization_run password n (Ok true)
      [ EvExec (dos2unix_cmd n) (Ok rr);
        EvExec (install_cmd password) (Ok ri);
        EvPrint "Installing dos2unix...";
        EvPrint ("Failed to execute " ++ dos2unix_cmd n ++ ": " ++ stderr r)%string;
        EvExec (dos2unix_cmd n) (Ok r) ]
| NormRetryFailed r ri rr :
    returncode r <> 0%Z -> returncode ri = 0%Z -> returncode rr <> 0%Z ->
    normalization_run password n (Ok false)
      [ EvPrint ("Failed to convert line endings: " ++ stderr rr)%string;
        EvExec (dos2unix_cmd n) (Ok rr);
        EvExec (install_cmd password) (Ok ri);
        EvPrint "Installing dos2unix...";
        EvPrint ("Failed to execute " ++ dos2unix_cmd n ++ ": " ++ stderr r)%string;
        EvExec (dos2unix_cmd n) (Ok r) ].

(** A remote host on which [dos2unix] is absent until it is installed. *)
Definition installed (t : list event) : bool :=
  existsb (fun e => match e with
                    | EvExec c (Ok r) => Py.contains "apt-get install" c && Z.eqb (returncode r) 0
                    | _ => false
                    end) t.

Definition shell_installing_dos2unix : list event -> string -> outcome CommandResult :=
  fun t c =>
    if String.prefix "dos2unix " c && negb (installed t)
    then Ok (failed 127 "bash: dos2unix: command not found")
    else Ok ok_result.

Definition world_installing_dos2unix : World :=
  world_of [ "/tmp/tmpk3/main.py"; "/tmp/tmpk3/requirements.txt" ]
           [ (repo_dir, [], ["main.py"; "requirements.txt"]) ]
           shell_installing_dos2unix.

(** A remote host on which [dos2unix] fails even when installed. *)
Definition shell_dos2unix_broken : list event -> string -> outcome CommandResult :=
  fun _ c =>
    if String.prefix "dos2unix " c
    then Ok (failed 2 "dos2unix: can not write to output file")
    else Ok ok_result.

Definition world_dos2unix_broken : World :=
  world_of [ "/tmp/tmpk3/main.py"; "/tmp/tmpk3/requirements.txt" ]
           [ (repo_dir, [], ["main.py"; "requirements.txt"]) ]
           shell_dos2unix_broken.

(** * Further properties of the program: vocabulary *)

(** The first character of a string. *)
Definition first_char (s : string) : option ascii :=
  match s with String c _ => Some c | EmptyString => None end.

(** The transfers that completed, oldest first: local and remote path. *)
Definition transferred (t : list event) : list (string * string) :=
  flat_map (fun e => match e with EvPut l r (Ok _) => [(l, r)] | _ => [] end) (rev t).

(** The files of a walk, in the order in which lines 131-138 visit them. *)
Definition walk_files (entries : list (string * list string * list string))
  : list string :=
  flat_map (fun entry => match entry with
                         | (root, _, files) => map (OsPath.join root) files
                         end) entries.

(** The outcome of copying the files [paths], each to its destination:
    either all of them have been transferred, in order, or the files before
    one of them have, and the failure of that one is the last thing that
    happened. *)
Definition copied (dest : string -> string) (paths : list string) (b : bool)
  (evs : list event) : Prop :=
  if b then transferred evs = map (fun l => (l, dest l)) paths
  else exists done l rest e,
      paths = done ++ l :: rest /\
      transferred evs = map (fun l => (l, dest l)) done /\
      hd_error evs = Some (upload_failed l e).

(** The events of a deployment step: console, remote commands, transfers,
    and the local files it reads and writes. *)
Definition provisioning_event (e : event) : Prop :=
  match e with
  | EvPrint _ | EvInput _ _ | EvExec _ _ | EvPut _ _ _ | EvMakedirs _ _
  | EvWrite _ _ _ _ | EvRead _ _ => True
  | _ => False
  end.

Definition is_write (e : event) : Prop :=
  match e with EvWrite _ _ _ _ => True | _ => False end.

(** The operator accepts when the answer, lower-cased and stripped, is
    [y]. *)
Definition accepts (answer : string) : Prop :=
  Py.strip (Py.lower answer) = "y".

Definition nonblank (line : string) : Prop := Py.strip line <> EmptyString.

(** The events of the operator typing the lines [typed], most recent
    first. *)
Definition typed_events (typed : list string) : list event :=
  map (fun l => EvInput EmptyString (Ok l)) (rev typed).

(** A remote host without [python3.12]. *)
Definition shell_without_python : list event -> string -> outcome CommandResult :=
  fun _ c =>
    if String.prefix "command -v" c then Ok (failed 1 EmptyString) else Ok ok_result.

Definition world_without_python : World :=
  world_of [] [] shell_without_python.

(** A world in which [git clone] fails. *)
Definition world_clone_fails : World :=
  {| getpass_getpass := fun _ _ => Ok "hunter2";
     ssh_connect := fun _ _ _ _ => Ok tt;
     ssh_open_sftp := fun _ => Ok tt;
     ssh_exec_command := always_ok;
     sftp_put := fun _ _ _ => Ok tt;
     tempfile_mkdtemp := fun _ => Ok "/tmp/tmpk3";
     subprocess_run := fun _ _ =>
       Raise (PyExc "CalledProcessError" "Command returned non-zero exit status 128.");
     os_path_exists := fun _ p => path_in ["/tmp/tmpk3"] p;
     os_path_expanduser := fun _ => "/home/op/.script_envs";
     os_path_relpath := relpath_under;
     os_walk := fun _ _ => [];
     os_makedirs := fun _ _ => Ok tt;
     file_write := fun _ _ _ => Ok tt;
     file_read := fun _ _ => Ok EmptyString;
     rmtree_errors := fun _ _ => [];
     os_chmod := fun _ _ => Ok tt;
     remove_again := fun _ _ => Ok tt |}.

(** A world in which the host refuses the password. *)
Definition world_auth_fails : World :=
  {| getpass_getpass := fun _ _ => Ok "hunter2";
     ssh_connect := fun _ _ _ _ =>
       Raise (PyExc "AuthenticationException" "Authentication failed.");
     ssh_open_sftp := fun _ => Ok tt;
     ssh_exec_command := always_ok;
     sftp_put := fun _ _ _ => Ok tt;
     tempfile_mkdtemp := fun _ => Ok "/tmp/tmpk3";
     subprocess_run := fun _ _ => Ok tt;
     os_path_exists := fun _ _ => false;
     os_path_expanduser := fun _ => "/home/op/.script_envs";
     os_path_relpath := relpath_under;
     os_walk := fun _ _ => [];
     os_makedirs := fun _ _ => Ok tt;
     file_write := fun _ _ _ => Ok tt;
     file_read := fun _ _ => Ok EmptyString;
     rmtree_errors := fun _ _ => [];
     os_chmod := fun _ _ => Ok tt;
     remove_again := fun _ _ => Ok tt |}.

(** A source tree of three files; the transfer of the second one fails. *)
Definition world_second_upload_fails : World :=
  {| getpass_getpass := fun _ _ => Ok "hunter2";
     ssh_connect := fun _ _ _ _ => Ok tt;
     ssh_open_sftp := fun _ => Ok tt;
     ssh_exec_command := always_ok;
     sftp_put := fun _ l _ =>
       if String.eqb l "/tmp/tmpk3/b.py"
       then Raise (PyExc "OSError" "Failure") else Ok tt;
     tempfile_mkdtemp := fun _ => Ok "/tmp/tmpk3";
     subprocess_run := fun _ _ => Ok tt;
     os_path_exists := fun _ _ => false;
     os_path_expanduser := fun _ => "/home/op/.script_envs";
     os_path_relpath := relpath_under;
     os_walk := fun _ _ => [ (repo_dir, [], ["a.py"; "b.py"; "c.py"]) ];
     os_makedirs := fun _ _ => Ok tt;
     file_write := fun _ _ _ => Ok tt;
     file_read := fun _ _ => Ok EmptyString;
     rmtree_errors := fun _ _ => [];
     os_chmod := fun _ _ => Ok tt;
     remove_again := fun _ _ => Ok tt |}.

(** A world in which the secrets file of the target exists. *)
Definition world_with_secrets : World :=
  world_of [ "/home/op/.script_envs/lightningStrikes.env" ] [] always_ok.

(** Line 301: the name under which the repository is deployed. *)
Definition repo_name_of (url : string) : string :=
  OsPath.basename (Py.rstrip_chars ".git" url).

(** Every character of [s] satisfies [p]. *)
Fixpoint all_chars (p : ascii -> bool) (s : string) : bool :=
  match s with
  | EmptyString => true
  | String c r => p c && all_chars p r
  end.

(** A path component: no separator in it. *)
Definition no_sep (s : string) : bool :=
  all_chars (fun c => negb (OsPath.is_sep c)) s.

(** The events of the loop of lines 190-206 on the two commands that
    configure the runner script. *)
Inductive configure_event (me : Manager) (n : string) : event -> Prop :=
| CfgPrint msg : configure_event me n (EvPrint msg)
| CfgChmod res : configure_event me n (EvExec (chmod_cmd n) res)
| CfgDos2unix res : configure_event me n (EvExec (dos2unix_cmd n) res)
| CfgInstall res :
    configure_event me n (EvExec (install_cmd (server_password me)) res).

(** The commands that configure the runner script on the remote host. *)
Definition configure_cmd (me : Manager) (n c : string) : Prop :=
  c = chmod_cmd n \/ c = dos2unix_cmd n \/ c = install_cmd (server_password me).

(** A source tree with a dependency manifest, on a host on which the
    virtual environment cannot be made. *)
Definition shell_venv_fails : list event -> string -> outcome CommandResult :=
  fun _ c =>
    if String.prefix "cd /opt/" c
    then Ok (failed 1 "Error: Command '[...]' returned non-zero exit status 1.")
    else Ok ok_result.

Definition world_venv_fails : World :=
  world_of [ "/tmp/tmpk3/main.py"; "/tmp/tmpk3/requirements.txt" ]
           [ (repo_dir, [], ["main.py"; "requirements.txt"]) ]
           shell_venv_fails.

(** A source tree with a dependency manifest, on a host on which every
    command succeeds. *)
Definition world_with_manifest : World :=
  world_of [ "/tmp/tmpk3/main.py"; "/tmp/tmpk3/requirements.txt" ]
           [ (repo_dir, [], ["main.py"; "requirements.txt"]) ]
           always_ok.

(** The history of a run of [main] when it creates the workspace: the
    password [pw] was read, the connection was established, and the two
    commands of the runtime check returned [r1] and [r2]. *)
Definition cloning_history (args : Args) (pw : string) (r1 r2 : CommandResult)
  : list event :=
  [ EvPrint "Cloning repository...";
    EvPrint ("Remote Python version: " ++ Py.strip (stdout r2))%string;
    EvExec "python3.12 --version" (Ok r2);
    EvExec "command -v python3.12" (Ok r1);
    EvPrint "Verifying Python version...";
    EvOpenSftp (Ok tt);
    EvConnect (host args) (user args) pw (Ok tt);
    EvPrint "Establishing SSH connection...";
    EvPrint "Initializing deployment manager...";
    EvGetpass "Enter server password: " (Ok pw) ].

(** The manager, the pending input and the history of a run of [main]
    when it looks for [main.py] (line 299): the repository has been cloned
    into [repo_path]. *)
Definition checking_state (w : World) (args : Args) (lines : list string)
  (pw : string) (r1 r2 : CommandResult) (repo_path : string) : State :=
  mkState
    (set_temp_dir (Some repo_path)
       (set_sftp HOpen
          (set_ssh HOpen (init w (host args) (user args) pw (env_dir_arg args)))))
    lines
    (EvPrint "Checking repository structure..."
     :: EvPrint ("Repository cloned to: " ++ repo_path)%string
     :: EvSubprocess (clone_argv args repo_path) (Ok tt)
     :: EvMkdtemp (Ok repo_path)
     :: cloning_history args pw r1 r2).

(** * Proofs *)

Example dirname_nested :
  OsPath.dirname "/opt/lightningStrikes/lib/util.py" = "/opt/lightningStrikes/lib".
Proof. reflexivity. Qed.

Example dirname_root : OsPath.dirname "/run.sh" = "/".
Proof. reflexivity. Qed.

Example basename_url :
  OsPath.basename "https://github.com/WB-TFS-SCADA1/lightningStrikes" = "lightningStrikes".
Proof. reflexivity. Qed.

Example strip_lower_answer :
  Py.strip (Py.lower (" Y" ++ Py.newline)) = "y".
Proof. reflexivity. Qed.

Example remove_all_prefix : Py.remove_all "/tmp/ab" "/tmp/ab/src/x" = "/src/x".
Proof. reflexivity. Qed.

(** * Reasoning about runs *)

Ltac munfold :=
  unfold path_exists in *;
  unfold and_then, try_except, try_finally, bind, ret, raise, print, input,
    perform, observe, get_self, put_self, record_event, with_self in *.

Ltac mred := munfold; cbn [trace self stdin fst snd app] in *.

Ltac case_oracle :=
  match goal with
  | |- context [match ?x with Ok _ => _ | Raise _ => _ end] =>
      lazymatch x with
      | context [match _ with _ => _ end] => fail
      | _ => let E := fresh "E" in destruct x eqn:E
      end
  end.

(** ** Frames: what a computation may add to the trace

[frame me io P m]: run on the manager [me], the computation [m] leaves
    the manager as it is, only adds events that satisfy [P] to the trace,
    and reads no line of the operator unless [io] is set. *)

Section Frames.

Variables (me : Manager) (io : bool) (P : event -> Prop).

Lemma frame_ret {A} (a : A) : frame me io P (ret a).
Proof. intros s Hs. exists []. mred. auto. Qed.

Lemma frame_raise {A} (e : exn) : frame me io P (@raise State A e).
Proof. intros s Hs. exists []. mred. auto. Qed.

Lemma frame_print msg : P (EvPrint msg) -> frame me io P (print msg).
Proof. intros H s Hs. exists [EvPrint msg]. mred. auto. Qed.

Lemma frame_observe {A} (f : list event -> A) : frame me io P (observe f).
Proof. intros s Hs. exists []. mred. auto. Qed.

Lemma frame_perform {A} (ans : list event -> outcome A) ev :
  (forall res, P (ev res)) -> frame me io P (perform ans ev).
Proof. intros H s Hs. exists [ev (ans (trace s))]. mred. auto. Qed.

Lemma frame_bind {A B} (m : M State A) (k : A -> M State B) :
  frame me io P m -> (forall a, frame me io P (k a)) -> frame me io P (bind m k).
Proof.
  intros Hm Hk s Hs. destruct (Hm s Hs) as (evs1 & F1 & S1 & T1 & I1).
  unfold bind. destruct (m s) as [[a|e] s1]; cbn [snd fst] in *.
  - destruct (Hk a s1 S1) as (evs2 & F2 & S2 & T2 & I2).
    exists (evs2 ++ evs1). rewrite T2, T1, app_assoc.
    repeat split; auto using Forall_app.
    + apply Forall_app; auto.
    + intros Hio. rewrite I2, I1; auto.
  - exists evs1. auto.
Qed.

Lemma frame_get_self {B} (k : Manager -> M State B) :
  frame me io P (k me) -> frame me io P (bind get_self k).
Proof.
  intros Hk s Hs. unfold bind, get_self. rewrite Hs. exact (Hk s Hs).
Qed.

Lemma frame_try_except {A} (m : M State A) (h : exn -> M State A) :
  frame me io P m -> (forall e, frame me io P (h e)) -> frame me io P (try_except m h).
Proof.
  intros Hm Hh s Hs. destruct (Hm s Hs) as (evs1 & F1 & S1 & T1 & I1).
  unfold try_except. destruct (m s) as [[a|e] s1]; cbn [snd fst] in *.
  - exists evs1. auto.
  - destruct (Hh e s1 S1) as (evs2 & F2 & S2 & T2 & I2).
    exists (evs2 ++ evs1). rewrite T2, T1, app_assoc.
    repeat split; auto.
    + apply Forall_app; auto.
    + intros Hio. rewrite I2, I1; auto.
Qed.

Lemma frame_and_then (step rest : M State bool) :
  frame me io P step -> frame me io P rest -> frame me io P (step &&> rest).
Proof.
  intros Hs Hr. unfold and_then. apply frame_bind; [exact Hs|].
  intros [|]; [exact Hr | apply frame_ret].
Qed.

End Frames.

Lemma frame_weaken {A} me io (P Q : event -> Prop) (m : M State A) :
  (forall e, P e -> Q e) -> frame me io P m -> frame me io Q m.
Proof.
  intros HPQ Hm s Hs. destruct (Hm s Hs) as (evs & F & R).
  exists evs. split; [|exact R]. eapply Forall_impl; eauto.
Qed.

Lemma frame_input me (P : event -> Prop) prompt :
  (forall res, P (EvInput prompt res)) -> frame me true P (input prompt).
Proof.
  intros H s Hs. unfold input. destruct (stdin s) as [|line rest]; cbn [snd self trace].
  - eexists [_]. mred. repeat split; auto; discriminate.
  - eexists [_]. repeat split; auto; discriminate.
Qed.

Ltac frame_go :=
  repeat first
    [ apply frame_ret
    | apply frame_raise
    | apply frame_get_self
    | apply frame_observe
    | apply frame_and_then
    | apply frame_print
    | apply frame_perform; intros ?
    | apply frame_try_except; [ | intros ? ]
    | apply frame_bind; [ | intros ? ]
    | match goal with
      | |- frame _ _ _ (if ?b then _ else _) => destruct b
      | |- frame _ _ _ (match ?h with HNone => _ | _ => _ end) => destruct h
      end ].

(** ** The frame of each step *)

Section StepFrames.

Variable w : World.
Variables (me : Manager) (io : bool).

Lemma run_remote_command_frame (P : event -> Prop) c :
  (forall res, P (EvExec c res)) -> frame me io P (run_remote_command w c).
Proof. intros H. unfold run_remote_command. frame_go; apply H. Qed.

Lemma upload_file_frame l r : frame me io (upload_event l r) (upload_file w l r).
Proof.
  unfold upload_file. frame_go; constructor.
Qed.

Lemma create_directory_frame n :
  frame me io (privileged_event me n) (create_directory w n).
Proof.
  unfold create_directory. frame_go; constructor.
Qed.

Lemma set_permissions_frame n :
  frame me io (privileged_event me n) (set_permissions w n).
Proof.
  unfold set_permissions. frame_go; constructor.
Qed.

Lemma copy_dir_files_frame sp n entries root dirs files :
  In (root, dirs, files) entries ->
  forall some, incl some files ->
  frame me io (copy_event w sp n entries) (copy_dir_files w sp n root some).
Proof.
  intros Hin. induction some as [|file more IH]; intros Hincl; cbn [copy_dir_files].
  - apply frame_ret.
  - apply frame_and_then.
    + eapply frame_weaken; [ | apply upload_file_frame ].
      intros e He. eapply CopyUpload; eauto. apply Hincl. left. reflexivity.
    + apply IH. intros x Hx. apply Hincl. right. exact Hx.
Qed.

Lemma copy_walk_frame sp n entries :
  forall some, incl some entries ->
  frame me io (copy_event w sp n entries) (copy_walk w sp n some).
Proof.
  induction some as [|[[root dirs] files] more IH]; intros Hincl; cbn [copy_walk].
  - apply frame_ret.
  - apply frame_and_then.
    + eapply copy_dir_files_frame; [ apply Hincl; left; reflexivity | apply incl_refl ].
    + apply IH. intros x Hx. apply Hincl. right. exact Hx.
Qed.

Lemma copy_files_frame sp n :
  frame me io (fun e => exists h, copy_event w sp n (os_walk w h sp) e)
        (copy_files w sp n).
Proof.
  intros s Hs. unfold copy_files, bind, observe.
  destruct (@copy_walk_frame sp n _ _ (incl_refl (os_walk w (trace s) sp)) s Hs)
    as (evs & F & R).
  exists evs. split; [ | exact R ].
  eapply Forall_impl; [ | exact F ]. intros e He. exists (trace s). exact He.
Qed.

End StepFrames.

Section MoreStepFrames.

Variable w : World.
Variable me : Manager.

Lemma read_env_lines_frame (P : event -> Prop) :
  (forall prompt res, P (EvInput prompt res)) ->
  forall pending acc s, self s = me ->
    exists evs,
      Forall P evs /\
      self (snd (read_env_lines pending acc s)) = me /\
      trace (snd (read_env_lines pending acc s)) = evs ++ trace s.
Proof.
  intros HP. induction pending as [|raw rest IH]; intros acc s Hs; cbn [read_env_lines].
  - eexists [_]. mred. auto.
  - destruct (String.eqb (Py.strip raw) EmptyString).
    + eexists [_]. cbn [snd self trace app]. auto.
    + destruct (IH (acc ++ [Py.strip raw])
                  (mkState (self s) rest (EvInput EmptyString (Ok raw) :: trace s)) Hs)
        as (evs & F & S1 & T1).
      exists (evs ++ [EvInput EmptyString (Ok raw)]).
      rewrite T1, <- app_assoc. cbn [trace app]. repeat split; auto.
      apply Forall_app. auto.
Qed.

Lemma handle_env_file_frame n rsp :
  frame me true (secrets_event me n) (handle_env_file w n rsp).
Proof.
  unfold handle_env_file, path_exists.
  apply frame_get_self. apply frame_bind; [ apply frame_observe | intros found ].
  destruct found.
  - apply frame_bind; [ apply frame_print; constructor | intros _ ].
    eapply frame_weaken; [ | apply upload_file_frame ]. apply SecUpload.
  - apply frame_bind; [ apply frame_print; constructor | intros _ ].
    apply frame_bind; [ apply frame_input; constructor | intros answer ].
    destruct (String.eqb _ _); [ | apply frame_ret ].
    apply frame_bind; [ apply frame_perform; constructor | intros _ ].
    do 3 (apply frame_bind; [ apply frame_print; constructor | intros _ ]).
    apply frame_bind.
    { intros s Hs.
      destruct (@read_env_lines_frame (secrets_event me n) (SecInput me n) (stdin s) [] s Hs)
        as (evs & F & S1 & T1).
      exists evs. repeat split; auto. discriminate. }
    intros env_contents.
    apply frame_bind; [ apply frame_perform; constructor | intros _ ].
    apply frame_bind; [ apply frame_print; constructor | intros _ ].
    eapply frame_weaken; [ | apply upload_file_frame ]. apply SecUpload.
Qed.

Variable io : bool.

Lemma run_setup_commands_frame sp n cmds :
  Forall (fun c => forall res, runtime_event me sp n (EvExec c res)) cmds ->
  frame me io (runtime_event me sp n) (run_setup_commands w cmds).
Proof.
  induction 1 as [|cmd more Hc Hmore IH]; cbn [run_setup_commands].
  - apply frame_ret.
  - apply frame_and_then; [ | exact IH ].
    frame_go; first [ apply Hc | apply RtInstall | apply RtPrint ].
Qed.

Lemma setup_runtime_frame sp n :
  frame me io (runtime_event me sp n) (setup_runtime w sp n).
Proof.
  unfold setup_runtime, path_exists.
  apply frame_bind; [ apply frame_observe | intros found ].
  destruct found; [ | apply frame_ret ].
  apply frame_bind; [ apply run_remote_command_frame; constructor | intros result ].
  destruct (nonzero result).
  - frame_go. constructor.
  - apply frame_bind; [ apply frame_perform; constructor | intros _ ].
    apply frame_and_then.
    + eapply frame_weaken; [ | apply upload_file_frame ]. apply RtUpload.
    + apply run_setup_commands_frame.
      constructor; [ intros res; apply RtChmod | ].
      constructor; [ intros res; apply RtDos2unix | constructor ].
Qed.

Lemma update_crontab_frame sp n :
  frame me io (schedule_event sp n) (update_crontab w sp n).
Proof.
  unfold update_crontab, path_exists.
  apply frame_bind; [ apply frame_observe | intros found ].
  destruct found; [ | apply frame_ret ].
  apply frame_bind; [ apply frame_perform; constructor | intros text ].
  apply frame_bind; [ apply run_remote_command_frame; constructor | intros result ].
  destruct (nonzero result); frame_go. constructor.
Qed.

End MoreStepFrames.

Lemma later_steps_frame w me sp n :
  frame me true
    (fun e => (exists h, copy_event w sp n (os_walk w h sp) e) \/ secrets_event me n e
              \/ runtime_event me sp n e \/ schedule_event sp n e)
    (later_steps w sp n).
Proof.
  unfold later_steps. repeat apply frame_and_then.
  - eapply frame_weaken; [ | apply copy_files_frame ]. auto.
  - eapply frame_weaken; [ | apply handle_env_file_frame ]. auto.
  - eapply frame_weaken; [ | apply setup_runtime_frame ]. auto.
  - eapply frame_weaken; [ | apply update_crontab_frame ]. auto.
  - frame_go. right. left. constructor.
Qed.

Lemma deploy_script_frame w me sp n :
  frame me true (deploy_event w me sp n) (deploy_script w sp n).
Proof.
  unfold deploy_script.
  apply frame_bind; [ apply frame_print; apply DePrivileged; constructor | intros _ ].
  apply frame_and_then.
  { eapply frame_weaken; [ | apply create_directory_frame ]. apply DePrivileged. }
  apply frame_and_then.
  { eapply frame_weaken; [ | apply set_permissions_frame ]. apply DePrivileged. }
  eapply frame_weaken; [ | apply later_steps_frame ].
  intros e [[h H]|[H|[H|H]]]; eauto using deploy_event.
Qed.

(** ** Facts about strings *)

Lemma prefix_append (a b : string) : String.prefix a (a ++ b)%string = true.
Proof.
  induction a as [|c a IH]; cbn [String.prefix String.append].
  - destruct b; reflexivity.
  - destruct (ascii_dec c c) as [_|N]; [ exact IH | contradiction ].
Qed.

Lemma contains_prefix (needle hay : string) :
  String.prefix needle hay = true -> Py.contains needle hay = true.
Proof. intros H. destruct hay; cbn [Py.contains]; rewrite H; reflexivity. Qed.

Lemma contains_append_r (needle a hay : string) :
  Py.contains needle hay = true -> Py.contains needle (a ++ hay)%string = true.
Proof.
  intros H. induction a as [|c a IH]; cbn [String.append Py.contains].
  - exact H.
  - rewrite IH. apply orb_true_r.
Qed.

Lemma contains_middle (needle a b : string) :
  Py.contains needle (a ++ needle ++ b)%string = true.
Proof. apply contains_append_r, contains_prefix, prefix_append. Qed.

Lemma append_inv_head (a x y : string) : (a ++ x = a ++ y)%string -> x = y.
Proof.
  induction a as [|c a IH]; cbn [String.append]; intros H.
  - exact H.
  - injection H as H. exact (IH H).
Qed.

Lemma last_char_append (a b : string) :
  b <> EmptyString -> last_char (a ++ b) = last_char b.
Proof.
  intros Hb. induction a as [|c a IH]; cbn [String.append last_char].
  - reflexivity.
  - rewrite IH. destruct b as [|d b]; [ contradiction | ].
    cbn [last_char]. destruct (last_char b); reflexivity.
Qed.

Lemma last_char_join (a b : string) :
  b <> EmptyString -> last_char (OsPath.join a b) = last_char b.
Proof.
  intros Hb. unfold OsPath.join.
  destruct (OsPath.startswith_sep b); [ reflexivity | ].
  destruct (_ || _).
  - apply last_char_append, Hb.
  - rewrite last_char_append; [ | discriminate ].
    destruct b as [|d b]; [ contradiction | ].
    cbn [last_char]. destruct (last_char b); reflexivity.
Qed.

Lemma env_path_is_not_runner_path (env_dir n sp : string) :
  env_file_path_of env_dir n <> runner_path_of sp.
Proof.
  unfold env_file_path_of, runner_path_of. intros H.
  apply (f_equal last_char) in H.
  rewrite !last_char_join in H.
  - rewrite last_char_append in H; discriminate.
  - discriminate.
  - destruct n; discriminate.
Qed.

Lemma printed_In (t : list event) (msg : string) :
  In (EvPrint msg) t <-> In msg (printed t).
Proof.
  unfold printed. rewrite in_flat_map. split.
  - intros H. exists (EvPrint msg). rewrite <- in_rev. split; [ exact H | left; reflexivity ].
  - intros (e & He & Hm). rewrite <- in_rev in He.
    destruct e; try contradiction. destruct Hm as [<-|[]]. exact He.
Qed.

Ltac absurd_cmd H :=
  cbv beta delta [create_dir_cmd chown_cmd install_cmd venv_setup_cmd chmod_cmd
                    dos2unix_cmd cron_cmd Py.join] in H;
  first [ apply append_inv_head in H; apply append_inv_head in H; discriminate H
        | cbn [String.append String.concat] in H; discriminate H ].

Ltac absurd_any :=
  match goal with
  | H : @eq string _ _ |- _ => solve [ absurd_cmd H ]
  end.

Lemma upload_not_privileged me n l r c res :
  upload_event l r (EvExec c res) -> ~ privileged_cmd me n c.
Proof. intros H [Hc|Hc]; inversion H; subst; absurd_any. Qed.

Lemma later_not_privileged w me sp n c res :
  later_event w me sp n (EvExec c res) -> ~ privileged_cmd me n c.
Proof.
  intros [[h H]|[H|[H|H]]].
  - inversion H; subst. eauto using upload_not_privileged.
  - inversion H; subst. eauto using upload_not_privileged.
  - inversion H; subst; try (eauto using upload_not_privileged; fail);
      intros [Hc|Hc]; absurd_any.
  - inversion H; subst. intros [Hc|Hc]; absurd_any.
Qed.

Lemma deploy_script_unfold w sp n :
  deploy_script w sp n =
  (print (Py.newline ++ "Deploying " ++ n ++ "...")%string ;;
   create_directory w n &&> set_permissions w n &&> later_steps w sp n).
Proof. reflexivity. Qed.

Lemma nonzero_true r : nonzero r = true -> returncode r <> 0%Z.
Proof. unfold nonzero. intros H. apply negb_true_iff, Z.eqb_neq in H. exact H. Qed.

Lemma nonzero_false r : nonzero r = false -> returncode r = 0%Z.
Proof. unfold nonzero. intros H. apply negb_false_iff, Z.eqb_eq in H. exact H. Qed.

Ltac prefix_of t base :=
  lazymatch t with
  | base => constr:(@nil event)
  | ?e :: ?t' => let p := prefix_of t' base in constr:(e :: p)
  | ?l ++ base => constr:(l)
  | ?l ++ ?t' => let p := prefix_of t' base in constr:(l ++ p)
  end.

(** From [e1 :: ... :: ek :: t = evs ++ t], the value of [evs]. *)
Ltac name_events H :=
  lazymatch type of H with
  | ?T = ?evs ++ ?base =>
      let p := prefix_of T base in
      let Heq := fresh "Heq" in
      assert (Heq : T = p ++ base)
        by (cbn [app]; rewrite <- ?app_assoc; reflexivity);
      rewrite Heq in H; clear Heq;
      apply app_inv_tail in H; subst evs
  end.

Ltac split_at_event :=
  lazymatch goal with
  | |- exists after before, ?l = after ++ ?e :: before /\ _ =>
      let rec go pre l :=
        lazymatch l with
        | e :: ?rest => exists (rev pre), rest
        | ?x :: ?rest => go (x :: pre) rest
        end in
      go (@nil event) l
  end.

(** The event [EvExec c (Ok res)] of [Hin] is one of the listed ones: the
    goal is left once for each listed execution it can be. *)
Ltac which_event Hin :=
  cbn [In] in Hin;
  repeat (destruct Hin as [Hin|Hin];
          [ try discriminate Hin; injection Hin as <- <- | ]);
  try contradiction.

(** C3: in every deployment in which a privileged command (the creation
    of the install root, or the change of its owner) returns a non-zero
    exit code, [deploy_script] returns [False]; after that command the
    deployment only prints diagnostics, and before it it only printed and
    ran the privileged commands: no file is uploaded and no later step is
    attempted. *)
Theorem C3_privileged_failure_aborts :
  forall (w : World) (sp n : string) (s : State) (evs : list event)
         (c : string) (res : CommandResult),
    trace (snd (deploy_script w sp n s)) = evs ++ trace s ->
    privileged_cmd (self s) n c ->
    In (EvExec c (Ok res)) evs ->
    returncode res <> 0%Z ->
    fst (deploy_script w sp n s) = Ok false /\
    exists after before,
      evs = after ++ EvExec c (Ok res) :: before /\
      Forall is_print after /\
      Forall (privileged_event (self s) n) before.
Proof.
  intros w sp n s evs c res Htrace Hc Hin Hrc.
  rewrite deploy_script_unfold in *.
  unfold create_directory, set_permissions, run_remote_command in *. mred.
  destruct (ssh (self s)) eqn:Hssh; mred;
    try (name_events Htrace; which_event Hin).
  all: case_oracle; mred.
  all: try (name_events Htrace; which_event Hin).
  all: destruct (nonzero a) eqn:Hnz; mred.
  all: try (name_events Htrace; which_event Hin;
            split; [ reflexivity | ];
            split_at_event; cbn [rev app];
            repeat split; repeat constructor).
  all: apply nonzero_false in Hnz.
  all: rewrite ?Hssh in *; mred; case_oracle; mred.
  all: try (name_events Htrace; which_event Hin).
  all: destruct (nonzero a0) eqn:Hnz0; mred.
  all: try (name_events Htrace; which_event Hin;
            split; [ reflexivity | ];
            split_at_event; cbn [rev app];
            repeat split; repeat constructor).
  all: apply nonzero_false in Hnz0.
  all: exfalso.
  all: match type of Htrace with
       | context [later_steps ?w ?sp ?n ?S2] =>
           destruct (@later_steps_frame w (self S2) sp n S2 eq_refl)
             as (later & F & _ & T & _); cbn [self] in F
       end.
  all: rewrite T in Htrace; cbn [trace] in Htrace; name_events Htrace.
  all: apply in_app_or in Hin; destruct Hin as [Hin|Hin];
       [ rewrite Forall_forall in F; apply F in Hin;
         eapply later_not_privileged; [ exact Hin | exact Hc ]
       | which_event Hin ].
Qed.

Lemma frame_keeps {A} me io P (m : M State A) s e :
  frame me io P m -> self s = me -> In e (trace s) -> In e (trace (snd (m s))).
Proof.
  intros Hm Hs Hin. destruct (Hm s Hs) as (evs & _ & _ & T & _).
  rewrite T. apply in_or_app. right. exact Hin.
Qed.

Lemma and_then_keeps me io P (step rest : M State bool) s e :
  self (snd (step s)) = me -> frame me io P rest ->
  In e (trace (snd (step s))) -> In e (trace (snd ((step &&> rest) s))).
Proof.
  intros Hs Hrest Hin. unfold and_then, bind.
  destruct (step s) as [[[|]|x] s1]; cbn [snd] in *; auto.
  eapply frame_keeps; eauto.
Qed.

Lemma create_directory_announces w n s :
  In (EvPrint ("Creating directory with command: "
               ++ create_dir_cmd (server_password (self s)) n)%string)
     (trace (snd (create_directory w n s))).
Proof.
  unfold create_directory, run_remote_command. mred.
  destruct (ssh (self s)); mred; try (left; reflexivity).
  all: case_oracle; mred; try (right; left; reflexivity).
  all: destruct (nonzero a); mred; cbn [In]; auto 8.
Qed.

(** C2 (refuted): the claim says that no printed message contains the
    remote password.  Whatever the world answers, a deployment prints the
    directory-creation command, and that command contains the password. *)
Theorem C2_password_is_printed :
  forall (w : World) (sp n : string) (s : State),
    exists msg,
      In msg (printed (trace (snd (deploy_script w sp n s)))) /\
      Py.contains (server_password (self s)) msg = true.
Proof.
  intros w sp n s.
  exists ("Creating directory with command: "
          ++ create_dir_cmd (server_password (self s)) n)%string.
  split.
  - apply printed_In. rewrite deploy_script_unfold.
    unfold bind at 1. unfold print at 1. cbn iota beta.
    set (s0 := record_event _ s).
    assert (Hself : self (snd (create_directory w n s0)) = self s).
    { destruct (@create_directory_frame w (self s) true n s0 eq_refl)
        as (evs & _ & S1 & _). exact S1. }
    eapply and_then_keeps with (P := fun _ => True);
      [ exact Hself | | exact (create_directory_announces w n s0) ].
    apply frame_and_then.
    + eapply frame_weaken; [ | apply set_permissions_frame ]. intros e He. exact I.
    + eapply frame_weaken; [ | apply later_steps_frame ]. intros e He. exact I.
  - unfold create_dir_cmd. apply contains_append_r, contains_middle.
Qed.

(** ** The schedule step *)

Lemma string_app_assoc (a b c : string) : ((a ++ b) ++ c = a ++ b ++ c)%string.
Proof. induction a as [|x a IH]; cbn [String.append]; [ | rewrite IH ]; reflexivity. Qed.

Lemma cron_cmd_is_replace_entry n schedule :
  cron_cmd n schedule = replace_entry_cmd n (crontab_entry schedule n).
Proof.
  unfold cron_cmd, replace_entry_cmd, crontab_entry, remote_runner_path.
  rewrite !string_app_assoc. reflexivity.
Qed.

Lemma and_then_assoc {St} (a b c : M St bool) s :
  ((a &&> b) &&> c) s = (a &&> b &&> c) s.
Proof.
  unfold and_then, bind, ret. destruct (a s) as [[[|]|e] s1]; try reflexivity.
Qed.

Lemma and_then_ext {St} (a r1 r2 : M St bool) :
  (forall s, r1 s = r2 s) -> forall s, (a &&> r1) s = (a &&> r2) s.
Proof.
  intros H s. unfold and_then, bind. destruct (a s) as [[[|]|e] s1]; auto.
Qed.

Lemma bind_ext {St A B} (m : M St A) (k1 k2 : A -> M St B) :
  (forall a s, k1 a s = k2 a s) -> forall s, bind m k1 s = bind m k2 s.
Proof.
  intros H s. unfold bind. destruct (m s) as [[a|e] s1]; auto.
Qed.

Lemma bind_and_then {St A} (m : M St A) (a c : M St bool) s :
  ((m ;; a) &&> c) s = (m ;; a &&> c) s.
Proof.
  unfold and_then, bind. destruct (m s) as [[x|e] s1]; reflexivity.
Qed.

Lemma deploy_script_split w sp n s :
  deploy_script w sp n s =
  (earlier_steps w sp n &&> update_crontab w sp n &&> report_success n) s.
Proof.
  unfold deploy_script, earlier_steps, report_success.
  rewrite bind_and_then. apply bind_ext. intros _ s1.
  rewrite and_then_assoc. apply and_then_ext. intros s2.
  rewrite and_then_assoc. apply and_then_ext. intros s3.
  rewrite and_then_assoc. apply and_then_ext. intros s4.
  rewrite and_then_assoc. reflexivity.
Qed.

Lemma earlier_steps_frame w me sp n :
  frame me true (earlier_event w me sp n) (earlier_steps w sp n).
Proof.
  unfold earlier_steps, earlier_event.
  apply frame_bind; [ apply frame_print; left; constructor | intros _ ].
  repeat apply frame_and_then.
  - eapply frame_weaken; [ | apply create_directory_frame ]. auto.
  - eapply frame_weaken; [ | apply set_permissions_frame ]. auto.
  - eapply frame_weaken; [ | apply copy_files_frame ]. auto.
  - eapply frame_weaken; [ | apply handle_env_file_frame ]. auto.
  - eapply frame_weaken; [ | apply setup_runtime_frame ]. auto.
Qed.

Lemma upload_not_crontab l r e : upload_event l r e -> ~ crontab_exec e.
Proof. intros H; inversion H; subst; cbn; intuition discriminate. Qed.

Lemma earlier_not_crontab w me sp n e :
  earlier_event w me sp n e -> ~ crontab_exec e.
Proof.
  intros [H|[[h H]|[H|H]]]; inversion H; subst;
    try (eauto using upload_not_crontab; fail); cbn; intuition discriminate.
Qed.

Lemma earlier_steps_need_a_session w sp n s :
  fst (earlier_steps w sp n s) = Ok true -> ssh (self s) <> HNone.
Proof.
  intros H Hssh. unfold earlier_steps, create_directory, run_remote_command in H.
  mred. rewrite Hssh in H. mred. discriminate H.
Qed.

(** C4: when the source root holds [cron.txt] with the text [text], a
    deployment whose earlier steps all succeeded reads the file and then
    runs exactly one crontab command, on the history that the read leaves:
    the pipeline that lists the entries, drops the lines mentioning the
    target name and appends the one line made of the stripped schedule
    expression followed by the remote runner path.  Nothing but a message
    follows that command, and the deployment succeeds exactly when it exits
    with zero.  A deployment in which an earlier step failed or raised ends
    as that step left it and runs no crontab command.  When [cron.txt] is
    absent no crontab command is run. *)
Theorem C4_crontab_entry_replaced :
  forall (w : World) (sp n : string) (s : State) (cron : option string)
         (evs : list event),
    cron_file_is w sp cron ->
    trace (snd (deploy_script w sp n s)) = evs ++ trace s ->
    match cron with
    | None => Forall (fun e => ~ crontab_exec e) evs
    | Some text =>
        let cmd := replace_entry_cmd n (crontab_entry (Py.strip text) n) in
        match fst (earlier_steps w sp n s) with
        | Ok true =>
            exists after res before,
              trace (snd (earlier_steps w sp n s)) = before ++ trace s /\
              res = ssh_exec_command w
                      (EvRead (cron_path_of sp) (Ok text) :: before ++ trace s) cmd /\
              evs = after ++ EvExec cmd res
                          :: EvRead (cron_path_of sp) (Ok text) :: before /\
              Forall is_print after /\
              Forall (fun e => ~ crontab_exec e) before /\
              fst (deploy_script w sp n s) = fatal_on_nonzero res
        | _ =>
            deploy_script w sp n s = earlier_steps w sp n s /\
            Forall (fun e => ~ crontab_exec e) evs
        end
    end.
Proof.
  intros w sp n s cron evs Hcron Htrace.
  remember (deploy_script w sp n s) as run eqn:Hrun.
  rewrite deploy_script_split in Hrun.
  destruct (@earlier_steps_frame w (self s) sp n s eq_refl) as (ev1 & F1 & S1 & T1 & _).
  assert (N1 : Forall (fun e => ~ crontab_exec e) ev1).
  { eapply Forall_impl; [ | exact F1 ]. intros e. apply earlier_not_crontab. }
  clear F1.
  pose proof (@earlier_steps_need_a_session w sp n s) as Hsession.
  unfold and_then at 1 in Hrun. unfold bind at 1 in Hrun.
  destruct (earlier_steps w sp n s) as [[[|]|x] s1]; cbn [snd fst] in *.
  2, 3: subst run; mred; rewrite T1 in Htrace; apply app_inv_tail in Htrace; subst evs;
        (destruct cron; [ split; [ reflexivity | exact N1 ] | exact N1 ]).
  specialize (Hsession eq_refl). rewrite <- S1 in Hsession.
  unfold update_crontab, report_success, run_remote_command in *. mred.
  destruct cron as [text|]; cbn [cron_file_is] in Hcron.
  - destruct (Hcron (trace s1)) as [Hex Hread]. rewrite Hex, Hread in *. clear Hex Hread.
    rewrite <- cron_cmd_is_replace_entry.
    cbn zeta. destruct (ssh (self s1)) eqn:Hssh; mred; [ contradiction | | | ].
    all: match type of Hrun with
         | context [ssh_exec_command ?w ?t ?c] =>
             exists (match ssh_exec_command w t c with
                     | Ok r =>
                         if nonzero r
                         then [EvPrint ("Failed to update crontab: " ++ stderr r)%string]
                         else [EvPrint ("Successfully deployed " ++ n)%string]
                     | Raise _ => []
                     end), (ssh_exec_command w t c), ev1;
             rewrite <- T1;
             destruct (ssh_exec_command w t c) as [r|x] eqn:E
         end.
    all: try (destruct (nonzero r) eqn:Hnz).
    all: subst run; cbn [fst snd trace] in *; rewrite T1 in Htrace; name_events Htrace.
    all: cbn [app fatal_on_nonzero].
    all: repeat split; try exact N1; try (repeat constructor; fail).
    all: unfold nonzero in Hnz; destruct (returncode r =? 0)%Z;
         cbn [negb] in Hnz; congruence.
  - rewrite Hcron in Hrun. subst run. cbn [fst snd trace] in *.
    rewrite T1 in Htrace. name_events Htrace.
    constructor; [ cbn; tauto | exact N1 ].
Qed.

(** ** Deployment without a dependency manifest *)

Lemma deploy_without_runtime_frame w me sp n :
  frame me true (plain_event w me sp n) (deploy_without_runtime w sp n).
Proof.
  unfold deploy_without_runtime, report_success, plain_event.
  apply frame_bind; [ apply frame_print; left; constructor | intros _ ].
  repeat apply frame_and_then.
  - eapply frame_weaken; [ | apply create_directory_frame ]. auto.
  - eapply frame_weaken; [ | apply set_permissions_frame ]. auto.
  - eapply frame_weaken; [ | apply copy_files_frame ]. auto.
  - eapply frame_weaken; [ | apply handle_env_file_frame ]. auto.
  - eapply frame_weaken; [ | apply update_crontab_frame ]. auto.
  - frame_go. left. constructor.
Qed.

Lemma upload_not_runtime_step me sp n l r e :
  upload_event l r e -> ~ runtime_step_event me sp n e.
Proof.
  intros H; inversion H; subst; cbn [runtime_step_event]; try tauto.
  intros [Hc|[Hc|[Hc|Hc]]]; absurd_any.
Qed.

Lemma plain_not_runtime_step w me sp n e :
  plain_event w me sp n e -> ~ runtime_step_event me sp n e.
Proof.
  intros [H|[[h H]|[H|H]]]; inversion H; subst;
    try (eauto using upload_not_runtime_step; fail);
    cbn [runtime_step_event]; try tauto;
    try (intros [Hc|[Hc|[Hc|Hc]]]; absurd_any).
  apply env_path_is_not_runner_path.
Qed.

Lemma plain_put w me sp n l r res :
  plain_event w me sp n (EvPut l r res) -> source_or_secrets w me sp n l r.
Proof.
  intros [H|[[h H]|[H|H]]]; inversion H; subst.
  - match goal with U : upload_event _ _ _ |- _ => inversion U; subst end.
    right. eauto 10.
  - match goal with U : upload_event _ _ _ |- _ => inversion U; subst end.
    left. auto.
Qed.

Lemma skip_runtime w sp n (rest : M State bool) :
  (forall h, os_path_exists w h (OsPath.join sp "requirements.txt") = false) ->
  forall s, (setup_runtime w sp n &&> rest) s = rest s.
Proof.
  intros H s. unfold setup_runtime. mred. rewrite H. reflexivity.
Qed.

(** C5: when [requirements.txt] is absent from the source root, a
    deployment is exactly the deployment without the dependency setup and
    the runner materialization: the virtual-environment command is not
    run, no runner script is written or configured, every file transferred
    is a file of the source tree or the secrets file; the result is the one
    of the other steps (which can be success, see the example below). *)
Theorem C5_no_manifest_no_runtime :
  forall (w : World) (sp n : string) (s : State) (evs : list event),
    (forall h, os_path_exists w h (OsPath.join sp "requirements.txt") = false) ->
    trace (snd (deploy_script w sp n s)) = evs ++ trace s ->
    deploy_script w sp n s = deploy_without_runtime w sp n s /\
    Forall (fun e => ~ runtime_step_event (self s) sp n e) evs /\
    (forall l r res, In (EvPut l r res) evs ->
                     source_or_secrets w (self s) sp n l r).
Proof.
  intros w sp n s evs Habsent Htrace.
  assert (Heq : deploy_script w sp n s = deploy_without_runtime w sp n s).
  { unfold deploy_script, deploy_without_runtime, report_success.
    apply bind_ext. intros _ s0.
    do 4 (apply and_then_ext; intros ?).
    apply skip_runtime, Habsent. }
  split; [ exact Heq | ].
  rewrite Heq in Htrace.
  destruct (@deploy_without_runtime_frame w (self s) sp n s eq_refl)
    as (evs' & F & _ & T & _).
  rewrite T in Htrace. apply app_inv_tail in Htrace. subst evs'.
  rewrite Forall_forall in F. split.
  - apply Forall_forall. intros e He. eapply plain_not_runtime_step; eauto.
  - intros l r res Hin. eapply plain_put; eauto.
Qed.

(** ** Declined secrets *)

Lemma quiet_cons_eq e t1 t2 : quiet t1 = quiet t2 -> quiet (e :: t1) = quiet (e :: t2).
Proof. intros H. cbn [quiet filter]. fold (quiet t1). fold (quiet t2). rewrite H. reflexivity. Qed.

Section ConsoleIndependence.

Variable w : World.
Hypothesis blind : console_blind w.

Lemma ci_ret {A} (a : A) : console_independent (ret a).
Proof. intros s1 s2 R. mred. auto. Qed.

Lemma ci_raise {A} e : console_independent (@raise State A e).
Proof. intros s1 s2 R. mred. auto. Qed.

Lemma ci_get_self : console_independent (@get_self Manager).
Proof.
  intros s1 s2 R. mred. destruct R as [R1 R2]. rewrite R1.
  split; [ reflexivity | split; assumption ].
Qed.

Lemma ci_print msg : console_independent (print msg).
Proof.
  intros s1 s2 [R1 R2]. mred. split; [ reflexivity | ].
  split; [ exact R1 | apply quiet_cons_eq, R2 ].
Qed.

Lemma ci_observe {A} (f : list event -> A) :
  (forall h h', quiet h = quiet h' -> f h = f h') -> console_independent (observe f).
Proof.
  intros Hf s1 s2 [R1 R2]. mred. rewrite (Hf _ _ R2). split; [ reflexivity | split; assumption ].
Qed.

Lemma ci_perform {A} (ans : list event -> outcome A) ev :
  (forall h h', quiet h = quiet h' -> ans h = ans h') ->
  console_independent (perform ans ev).
Proof.
  intros Hf s1 s2 [R1 R2]. mred. rewrite (Hf _ _ R2). split; [ reflexivity | ].
  split; [ exact R1 | apply quiet_cons_eq, R2 ].
Qed.

Lemma ci_bind {A B} (m : M State A) (k : A -> M State B) :
  console_independent m -> (forall a, console_independent (k a)) ->
  console_independent (bind m k).
Proof.
  intros Hm Hk s1 s2 R. destruct (Hm s1 s2 R) as [E R']. unfold bind.
  destruct (m s1) as [[a1|e1] s1'], (m s2) as [[a2|e2] s2']; cbn [fst snd] in *;
    try discriminate.
  - injection E as <-. apply Hk, R'.
  - injection E as <-. auto.
Qed.

Lemma ci_try_except {A} (m : M State A) (h : exn -> M State A) :
  console_independent m -> (forall e, console_independent (h e)) ->
  console_independent (try_except m h).
Proof.
  intros Hm Hh s1 s2 R. destruct (Hm s1 s2 R) as [E R']. unfold try_except.
  destruct (m s1) as [[a1|e1] s1'], (m s2) as [[a2|e2] s2']; cbn [fst snd] in *;
    try discriminate.
  - injection E as <-. auto.
  - injection E as <-. apply Hh, R'.
Qed.

Lemma ci_and_then (step rest : M State bool) :
  console_independent step -> console_independent rest ->
  console_independent (step &&> rest).
Proof.
  intros Hs Hr. unfold and_then. apply ci_bind; [ exact Hs | ].
  intros [|]; [ exact Hr | apply ci_ret ].
Qed.

Ltac ci_go :=
  repeat first
    [ apply ci_ret
    | apply ci_raise
    | apply ci_print
    | apply ci_and_then
    | apply ci_try_except; [ | intros ? ]
    | apply ci_bind; [ apply ci_get_self | intros ? ]
    | apply ci_bind; [ | intros ? ]
    | match goal with
      | |- console_independent (if ?b then _ else _) => destruct b
      | |- console_independent (match ?h with HNone => _ | _ => _ end) => destruct h
      end ].

Lemma ci_run_remote_command c : console_independent (run_remote_command w c).
Proof.
  unfold run_remote_command. ci_go;
    apply ci_perform; intros h h' Hq; apply (blind _ _ Hq).
Qed.

Lemma ci_upload_file l r : console_independent (upload_file w l r).
Proof.
  unfold upload_file. apply ci_try_except; [ | intros e; ci_go ].
  apply ci_bind; [ apply ci_run_remote_command | intros _ ].
  ci_go; apply ci_perform; intros h h' Hq; apply (blind _ _ Hq).
Qed.

Lemma ci_run_setup_commands cmds : console_independent (run_setup_commands w cmds).
Proof.
  induction cmds as [|cmd more IH]; cbn [run_setup_commands].
  - apply ci_ret.
  - apply ci_and_then; [ | exact IH ].
    apply ci_bind; [ apply ci_run_remote_command | intros result ].
    destruct (nonzero result); [ | apply ci_ret ].
    apply ci_bind; [ apply ci_print | intros _ ].
    destruct (Py.contains _ _); [ | apply ci_ret ].
    apply ci_bind; [ apply ci_print | intros _ ].
    apply ci_bind; [ apply ci_get_self | intros me ].
    apply ci_bind; [ apply ci_run_remote_command | intros result2 ].
    destruct (Z.eqb _ _); [ | apply ci_ret ].
    apply ci_bind; [ apply ci_run_remote_command | intros result3 ].
    destruct (nonzero result3); ci_go.
Qed.

Lemma ci_path_exists p : console_independent (path_exists w p).
Proof. unfold path_exists. apply ci_observe. intros h h' Hq. apply (blind _ _ Hq). Qed.

Lemma ci_setup_runtime sp n : console_independent (setup_runtime w sp n).
Proof.
  unfold setup_runtime.
  apply ci_bind; [ apply ci_path_exists | intros found ].
  destruct found; [ | apply ci_ret ].
  apply ci_bind; [ apply ci_run_remote_command | intros result ].
  destruct (nonzero result); [ ci_go | ].
  apply ci_bind; [ apply ci_perform; intros h h' Hq; apply (blind _ _ Hq) | intros _ ].
  apply ci_and_then; [ apply ci_upload_file | apply ci_run_setup_commands ].
Qed.

Lemma ci_update_crontab sp n : console_independent (update_crontab w sp n).
Proof.
  unfold update_crontab.
  apply ci_bind; [ apply ci_path_exists | intros found ].
  destruct found; [ | apply ci_ret ].
  apply ci_bind; [ apply ci_perform; intros h h' Hq; apply (blind _ _ Hq) | intros text ].
  apply ci_bind; [ apply ci_run_remote_command | intros result ].
  destruct (nonzero result); ci_go.
Qed.

Lemma ci_after_secrets sp n : console_independent (after_secrets w sp n).
Proof.
  unfold after_secrets, report_success.
  repeat apply ci_and_then;
    [ apply ci_setup_runtime | apply ci_update_crontab | ci_go ].
Qed.

End ConsoleIndependence.

Lemma before_secrets_frame w me sp n :
  frame me false (fun _ => True) (before_secrets w sp n).
Proof.
  unfold before_secrets.
  apply frame_bind; [ apply frame_print; exact I | intros _ ].
  repeat apply frame_and_then.
  - eapply frame_weaken; [ | apply create_directory_frame ]. auto.
  - eapply frame_weaken; [ | apply set_permissions_frame ]. auto.
  - eapply frame_weaken; [ | apply copy_files_frame ]. auto.
Qed.

Lemma deploy_script_around_secrets w sp n s :
  deploy_script w sp n s =
  (before_secrets w sp n &&> handle_env_file w n sp &&> after_secrets w sp n) s.
Proof.
  unfold deploy_script, before_secrets, after_secrets, report_success.
  rewrite bind_and_then. apply bind_ext. intros _ s1.
  rewrite and_then_assoc. apply and_then_ext. intros s2.
  rewrite and_then_assoc. reflexivity.
Qed.

Lemma deploy_without_secrets_split w sp n s :
  deploy_without_secrets w sp n s =
  (before_secrets w sp n &&> after_secrets w sp n) s.
Proof.
  unfold deploy_without_secrets, before_secrets, after_secrets, report_success.
  rewrite bind_and_then. apply bind_ext. intros _ s1.
  rewrite and_then_assoc. apply and_then_ext. intros s2.
  rewrite and_then_assoc. reflexivity.
Qed.

(** What [handle_env_file] does when the file is absent and the operator
    declines: it announces the absence, asks, and returns [True]. *)
Lemma handle_env_file_declined w n rsp s answer rest :
  os_path_exists w (trace s) (env_file_path_of (env_dir (self s)) n) = false ->
  stdin s = answer :: rest -> declines answer ->
  handle_env_file w n rsp s =
  (Ok true,
   mkState (self s) rest
     (EvInput "Would you like to create one now? (y/n): " (Ok answer)
      :: EvPrint ("No .env file found for " ++ n ++ " at "
                  ++ env_file_path_of (env_dir (self s)) n)%string
      :: trace s)).
Proof.
  intros Habsent Hin Hno. unfold handle_env_file. mred.
  rewrite Habsent, Hin. cbn [trace self stdin].
  destruct (String.eqb_spec (Py.strip (Py.lower answer)) "y") as [Hy|_];
    [ contradiction | reflexivity ].
Qed.

(** C6: when the secrets file of the target is absent and the operator
    declines to create one, [handle_env_file] returns [True]; and, in a
    world whose remote host and file system do not see the console, the
    deployment has the result it has with the secrets step absent. *)
Theorem C6_declined_secrets_are_not_an_error :
  forall (w : World) (sp n : string) (s : State) (answer : string)
         (rest : list string),
    console_blind w ->
    (forall h, os_path_exists w h (env_file_path_of (env_dir (self s)) n) = false) ->
    stdin s = answer :: rest ->
    declines answer ->
    (forall s0, self s0 = self s -> stdin s0 = stdin s ->
                fst (handle_env_file w n sp s0) = Ok true) /\
    fst (deploy_script w sp n s) = fst (deploy_without_secrets w sp n s).
Proof.
  intros w sp n s answer rest Hblind Habsent Hin Hno. split.
  - intros s0 Hself Hstdin.
    rewrite (@handle_env_file_declined w n sp s0 answer rest); try reflexivity; auto.
    + rewrite Hself. apply Habsent.
    + congruence.
  - rewrite deploy_script_around_secrets, deploy_without_secrets_split.
    destruct (@before_secrets_frame w (self s) sp n s eq_refl)
      as (evs & _ & S1 & _ & I1).
    specialize (I1 eq_refl).
    unfold and_then, bind.
    destruct (before_secrets w sp n s) as [[[|]|e] s1]; cbn [fst snd] in *;
      try reflexivity.
    rewrite (@handle_env_file_declined w n sp s1 answer rest).
    + apply (ci_after_secrets Hblind). split; reflexivity.
    + rewrite S1. apply Habsent.
    + congruence.
    + exact Hno.
Qed.

(** ** Uploads *)

(** Closes a goal [exists b evs, P b evs /\ run = (Ok b, extend evs s)] once
    the run is evaluated. *)
Ltac give_run s :=
  lazymatch goal with
  | |- exists b evs, _ /\ (Ok ?r, {| self := _; stdin := _; trace := ?T |}) = _ =>
      let p := prefix_of T (trace s) in
      exists r, p; split; [ | reflexivity ]
  end.

Lemma upload_file_run w l r s :
  exists b evs,
    upload_run l r s b evs /\
    upload_file w l r s = (Ok b, extend evs s).
Proof.
  unfold upload_file, run_remote_command. mred.
  destruct (ssh (self s)) eqn:Hssh; mred;
    try (give_run s; apply UploadNoSession; assumption);
    (case_oracle; mred;
     try (give_run s; apply UploadMkdirRaised; congruence);
     destruct (sftp (self s)) eqn:Hsftp; mred;
     try (give_run s; apply UploadNoChannel; congruence);
     case_oracle; mred; give_run s;
     first [ apply UploadPutRaised; congruence
           | destruct a0; apply UploadDone; congruence ]).
Qed.

Lemma upload_file_live w l r s :
  ssh (self s) <> HNone -> sftp (self s) <> HNone ->
  upload_file w l r s =
    match ssh_exec_command w (trace s) (mkdir_parent r) with
    | Raise e =>
        (Ok false, extend [upload_failed l e; EvExec (mkdir_parent r) (Raise e)] s)
    | Ok done =>
        match sftp_put w (EvExec (mkdir_parent r) (Ok done) :: trace s) l r with
        | Ok _ =>
            (Ok true, extend [EvPut l r (Ok tt); EvExec (mkdir_parent r) (Ok done)] s)
        | Raise e =>
            (Ok false,
             extend [ upload_failed l e; EvPut l r (Raise e);
                      EvExec (mkdir_parent r) (Ok done) ] s)
        end
    end.
Proof.
  intros Hssh Hsftp. unfold upload_file, run_remote_command, mkdir_parent, upload_failed,
    extend. mred.
  destruct (ssh (self s)) eqn:E1; [ contradiction | | | ]; mred.
  all: case_oracle; mred; [ | reflexivity ].
  all: destruct (sftp (self s)) eqn:E2; [ contradiction | | | ]; mred.
  all: case_oracle; mred; [ destruct a0 | ]; reflexivity.
Qed.

(** C7: [upload_file] never raises and leaves the manager as it is; with
    a session, the first thing it does is to run [mkdir -p] on the remote
    parent directory through the command channel, and a transfer is only
    attempted after that command has returned; it returns [True] exactly
    when the transfer completed, and [False] exactly when it printed the
    message of an exception.  With a live session and channel the run is
    the one the answers of the host determine: when [mkdir -p] raises, the
    message is printed and nothing is transferred; when it returns, whatever
    its exit code, the file is transferred, and the result is [True] when
    the transfer returns and [False], after the message, when it raises. *)
Theorem C7_upload_file :
  forall (w : World) (l r : string) (s : State),
    exists b evs,
      upload_file w l r s = (Ok b, extend evs s) /\
      (b = true <-> In (EvPut l r (Ok tt)) evs) /\
      (b = false <-> exists e, In (upload_failed l e) evs) /\
      (forall res, In (EvPut l r res) evs ->
         exists after done, evs = after ++ [EvExec (mkdir_parent r) (Ok done)]) /\
      (ssh (self s) <> HNone ->
         exists after res, evs = after ++ [EvExec (mkdir_parent r) res]) /\
      (ssh (self s) <> HNone -> sftp (self s) <> HNone ->
       match ssh_exec_command w (trace s) (mkdir_parent r) with
       | Raise e =>
           b = false /\
           evs = [upload_failed l e; EvExec (mkdir_parent r) (Raise e)]
       | Ok done =>
           match sftp_put w (EvExec (mkdir_parent r) (Ok done) :: trace s) l r with
           | Ok _ =>
               b = true /\
               evs = [EvPut l r (Ok tt); EvExec (mkdir_parent r) (Ok done)]
           | Raise e =>
               b = false /\
               evs = [ upload_failed l e; EvPut l r (Raise e);
                       EvExec (mkdir_parent r) (Ok done) ]
           end
       end).
Proof.
  intros w l r s. destruct (upload_file_run w l r s) as (b & evs & Hrun & Heq).
  exists b, evs. split; [ exact Heq | ].
  assert (Hlive : ssh (self s) <> HNone -> sftp (self s) <> HNone ->
            match ssh_exec_command w (trace s) (mkdir_parent r) with
            | Raise e =>
                b = false /\
                evs = [upload_failed l e; EvExec (mkdir_parent r) (Raise e)]
            | Ok done =>
                match sftp_put w (EvExec (mkdir_parent r) (Ok done) :: trace s) l r with
                | Ok _ =>
                    b = true /\
                    evs = [EvPut l r (Ok tt); EvExec (mkdir_parent r) (Ok done)]
                | Raise e =>
                    b = false /\
                    evs = [ upload_failed l e; EvPut l r (Raise e);
                            EvExec (mkdir_parent r) (Ok done) ]
                end
            end).
  { intros Hssh Hsftp. rewrite (@upload_file_live w l r s Hssh Hsftp) in Heq.
    destruct (ssh_exec_command w (trace s) (mkdir_parent r)) as [done|e].
    - destruct (sftp_put w (EvExec (mkdir_parent r) (Ok done) :: trace s) l r) as [u|e];
        injection Heq as <- Heq; name_events Heq; split; reflexivity.
    - injection Heq as <- Heq. name_events Heq. split; reflexivity. }
  destruct Hrun as [H0|e H0|res H0 H1|res e H0 H1|res H0 H1]; cbn [In].
  - repeat split; try discriminate; try contradiction; try exact Hlive.
    + intros [H|[]]; discriminate.
    + eauto.
    + intros res [H|[]]; discriminate.
  - repeat split; try discriminate; try exact Hlive.
    + intros [H|[H|[]]]; discriminate.
    + eauto.
    + intros res [H|[H|[]]]; discriminate.
    + intros _. exists [upload_failed l e], (Raise e). reflexivity.
  - repeat split; try discriminate; try exact Hlive.
    + intros [H|[H|[]]]; discriminate.
    + eauto.
    + intros res' [H|[H|[]]]; discriminate.
    + intros _. eexists [_], _. reflexivity.
  - repeat split; try discriminate; try exact Hlive.
    + intros [H|[H|[H|[]]]]; discriminate.
    + eauto.
    + intros res' _. eexists [_; _], _. reflexivity.
    + intros _. eexists [_; _], _. reflexivity.
  - repeat split; try discriminate; auto; try exact Hlive.
    + intros [e [H|[H|[]]]]; discriminate.
    + intros res' _. eexists [_], _. reflexivity.
    + intros _. eexists [_], _. reflexivity.
Qed.

(** ** Cleanup *)

Lemma extend_extend evs2 evs1 s : extend evs2 (extend evs1 s) = extend (evs2 ++ evs1) s.
Proof. unfold extend. cbn [self stdin trace]. rewrite app_assoc. reflexivity. Qed.

Lemma handle_rmtree_errors_run w failing :
  forall s, exists res evs,
    handle_rmtree_errors w failing s = (res, extend evs s) /\ fixups failing res evs.
Proof.
  induction failing as [|p ps IH]; intros s; cbn [handle_rmtree_errors].
  - destruct s. exists (Ok tt), []. split; [ reflexivity | constructor ].
  - unfold force_remove_readonly. mred.
    destruct (os_chmod w (trace s) p) as [[]|e] eqn:Hchmod.
    + destruct (remove_again w (EvChmod p (Ok tt) :: trace s) p) as [[]|e] eqn:Hrm.
      * match goal with
        | |- context [handle_rmtree_errors w ps ?S1] =>
            destruct (IH S1) as (res & evs & Hrun & Hfix); rewrite Hrun
        end.
        exists res, (evs ++ [EvRemoveAgain p (Ok tt); EvChmod p (Ok tt)]).
        split; [ | constructor; exact Hfix ].
        unfold extend. cbn [self stdin trace]. rewrite <- app_assoc. reflexivity.
      * eexists _, [_; _]. split; [ reflexivity | constructor ].
    + eexists _, [_]. split; [ reflexivity | constructor ].
Qed.

Lemma shutil_rmtree_run w dir s :
  exists res evs,
    shutil_rmtree w dir s = (res, extend evs s) /\ attempt dir res evs.
Proof.
  unfold shutil_rmtree. mred.
  match goal with
  | |- context [handle_rmtree_errors w ?f ?S1] =>
      destruct (handle_rmtree_errors_run w f S1) as (res & evs & Hrun & Hfix);
      rewrite Hrun
  end.
  exists res, (evs ++ [EvRmtree dir (rmtree_errors w (trace s) dir)]).
  split; [ | constructor; exact Hfix ].
  destruct res; unfold extend; cbn [self stdin trace]; rewrite <- app_assoc; reflexivity.
Qed.

Lemma remove_attempt_run w dir (i : Z) more s :
  exists res evs,
    attempt dir res evs /\
    remove_attempts w dir 3 (i :: more) s =
    match res with
    | Ok _ => (Ok tt, extend evs s)
    | Raise _ =>
        remove_attempts w dir 3 more
          (extend ((if Z.eqb i 2 then removal_warnings dir else [EvSleep 1]) ++ evs) s)
    end.
Proof.
  destruct (shutil_rmtree_run w dir s) as (res & evs & Hrun & Hatt).
  exists res, evs. split; [ exact Hatt | ].
  cbn [remove_attempts]. unfold try_except, bind at 1 2. rewrite Hrun.
  destruct res as [[]|e].
  - reflexivity.
  - change (3 - 1)%Z with 2%Z. unfold time_sleep. destruct (Z.eqb i 2); mred; reflexivity.
Qed.

Lemma remove_attempts_run w dir s :
  exists evs,
    remove_attempts w dir 3 (range 3) s = (Ok tt, extend evs s) /\ removal dir evs.
Proof.
  change (range 3) with [0%Z; 1%Z; 2%Z].
  destruct (remove_attempt_run w dir 0 [1%Z; 2%Z] s) as (r1 & a1 & H1 & E1).
  rewrite E1. clear E1. destruct r1 as [[]|e1].
  { exists a1. split; [ reflexivity | apply RemovedAtOnce; exact H1 ]. }
  cbn [Z.eqb].
  match goal with
  | |- context [remove_attempts w dir 3 _ ?S1] =>
      destruct (remove_attempt_run w dir 1 [2%Z] S1) as (r2 & a2 & H2 & E2)
  end.
  rewrite E2. clear E2. destruct r2 as [[]|e2].
  { eexists. rewrite extend_extend. split; [ reflexivity | ].
    eapply RemovedAtSecond; eauto. }
  cbn [Z.eqb Pos.eqb].
  match goal with
  | |- context [remove_attempts w dir 3 _ ?S1] =>
      destruct (remove_attempt_run w dir 2 [] S1) as (r3 & a3 & H3 & E3)
  end.
  rewrite E3. clear E3. destruct r3 as [[]|e3].
  { eexists. rewrite !extend_extend. split; [ reflexivity | ].
    rewrite <- !app_assoc. eapply RemovedAtThird; eauto. }
  cbn [Z.eqb Pos.eqb remove_attempts]. unfold ret.
  eexists. rewrite !extend_extend. split; [ reflexivity | ].
  rewrite <- !app_assoc. eapply RemovalGivenUp; eauto.
Qed.

Ltac give_events t :=
  lazymatch goal with
  | |- exists evs, (_, {| self := _; stdin := _; trace := ?T |}) = _ /\ _ =>
      let p := prefix_of T t in exists p
  end.

Lemma cleanup_run w s :
  exists evs,
    cleanup w s = (Ok tt, mkState (closed (self s)) (stdin s) (evs ++ trace s)) /\
    cleanup_events w (self s) (trace s) evs.
Proof.
  destruct s as [me lines t]. unfold cleanup, cleanup_events, closed, close_events,
    workspace_present. mred.
  destruct me as [h u p td hssh hsftp ed].
  destruct hsftp, hssh; cbn [sftp ssh temp_dir set_sftp set_ssh is_set self stdin trace app].
  all: destruct td as [dir|]; cbn [app];
       [ | give_events t; split; [ reflexivity | exists []; auto ] ].
  all: destruct (negb (String.eqb dir EmptyString)); cbv beta iota;
       cbn [andb app trace self stdin];
       [ | give_events t; split; [ reflexivity | exists []; auto ] ].
  all: match goal with
       | |- context [os_path_exists ?w ?T ?dir] =>
           destruct (os_path_exists w T dir); cbv beta iota;
           [ | give_events t; split; [ reflexivity | exists []; auto ] ]
       end.
  all: match goal with
       | |- context [remove_attempts ?w ?dir 3 (range 3) ?S1] =>
           destruct (remove_attempts_run w dir S1) as (rm & Hrun & Hrm); rewrite Hrun
       end.
  all: unfold extend; cbn [self stdin trace].
  all: give_events t.
  all: split; [ cbn [app]; rewrite <- ?app_assoc; reflexivity | exists rm ].
  all: split; [ rewrite ?app_nil_r; reflexivity | exact Hrm ].
Qed.

(** ** The two handles of the session *)

Lemma connect_opens_both w s :
  fst (connect w s) = Ok tt ->
  ssh (self (snd (connect w s))) = HOpen /\ sftp (self (snd (connect w s))) = HOpen.
Proof.
  unfold connect. mred. case_oracle; mred; [ | discriminate ].
  case_oracle; mred; [ | discriminate ].
  intros _. split; reflexivity.
Qed.

Lemma closed_not_open me :
  is_open (ssh (closed me)) = false /\ is_open (sftp (closed me)) = false.
Proof. destruct me as [h u p td hssh hsftp ed]. destruct hssh, hsftp; split; reflexivity. Qed.

Lemma cleanup_closes_both w s :
  is_open (ssh (self (snd (cleanup w s)))) = false /\
  is_open (sftp (self (snd (cleanup w s)))) = false.
Proof.
  destruct (cleanup_run w s) as (evs & Hrun & _). rewrite Hrun. cbn [snd self].
  apply closed_not_open.
Qed.

Lemma verify_python_version_frame w me :
  frame me false (fun _ => True) (verify_python_version w).
Proof. unfold verify_python_version. frame_go; exact I. Qed.

Lemma clone_repo_keeps_handles w url b s :
  ssh (self (snd (clone_repo w url b s))) = ssh (self s) /\
  sftp (self (snd (clone_repo w url b s))) = sftp (self s).
Proof.
  unfold clone_repo. mred. case_oracle; mred; [ | auto ].
  case_oracle; mred; auto.
Qed.

Lemma state_after_keeps_handles w op s :
  op <> OpConnect -> op <> OpCleanup ->
  ssh (self (state_after w op s)) = ssh (self s) /\
  sftp (self (state_after w op s)) = sftp (self s).
Proof.
  intros Hc Hd. destruct op; try contradiction; cbn [state_after].
  - destruct (@run_remote_command_frame w (self s) false (fun _ => True) command
                (fun _ => I) s eq_refl) as (evs & _ & S1 & _).
    rewrite S1. auto.
  - destruct (@upload_file_frame w (self s) false local_path remote_path s eq_refl)
      as (evs & _ & S1 & _).
    rewrite S1. auto.
  - apply clone_repo_keeps_handles.
  - destruct (@handle_env_file_frame w (self s) script_name remote_script_path s eq_refl)
      as (evs & _ & S1 & _).
    rewrite S1. auto.
  - destruct (@deploy_script_frame w (self s) script_path script_name s eq_refl)
      as (evs & _ & S1 & _).
    rewrite S1. auto.
  - destruct (@verify_python_version_frame w (self s) s eq_refl) as (evs & _ & S1 & _).
    rewrite S1. auto.
Qed.

Lemma operation_cases op :
  op = OpConnect \/ op = OpCleanup \/ (op <> OpConnect /\ op <> OpCleanup).
Proof. destruct op; auto; right; right; split; discriminate. Qed.

Lemma handles_agree_when_connecting w s :
  reachable_connecting w s -> handles_agree (self s).
Proof.
  induction 1 as [host user password env_dir lines | op s Hreach IH Hok].
  - reflexivity.
  - unfold handles_agree in *.
    destruct (operation_cases op) as [->|[->|[Hc Hd]]].
    + cbn [state_after].
      destruct (connect_opens_both w s (Hok eq_refl)) as [-> ->]. reflexivity.
    + cbn [state_after].
      destruct (cleanup_closes_both w s) as [-> ->]. reflexivity.
    + destruct (state_after_keeps_handles w s Hc Hd) as [-> ->]. exact IH.
Qed.

Lemma connect_without_sftp w s e :
  ssh_connect w (trace s) (server_host (self s)) (server_user (self s))
              (server_password (self s)) = Ok tt ->
  ssh_open_sftp w
    (EvConnect (server_host (self s)) (server_user (self s))
               (server_password (self s)) (Ok tt) :: trace s) = Raise e ->
  fst (connect w s) = Raise e /\
  ssh (self (snd (connect w s))) = HOpen /\
  sftp (self (snd (connect w s))) = sftp (self s).
Proof.
  intros H1 H2. unfold connect. mred. rewrite H1. mred.
  cbn [server_host server_user server_password set_ssh]. rewrite H2. mred.
  auto.
Qed.

(** C8 (refuted as stated): a [connect] in which the file-transfer
    channel cannot be opened leaves the command channel open and the
    file-transfer handle unset. *)
Lemma C8_one_handle_open :
  ~ (forall (w : World) (s : State), reachable w s -> handles_agree (self s)).
Proof.
  intros H.
  specialize (H world_without_sftp _
                (ReachStep OpConnect
                   (ReachInit world_without_sftp (Some "10.20.1.4") (Some "scadaadmin")
                              "hunter2" None []))).
  vm_compute in H. discriminate H.
Qed.

(** C8 (amended): [connect], when it returns, has opened both handles;
    [cleanup] leaves neither handle open; in every state reachable through
    the public operations without a [connect] that raised, the handles are
    both open or both not open; a [connect] that cannot open the
    file-transfer channel raises with the command channel open and the
    file-transfer handle as it was. *)
Theorem C8_handles_agree_unless_connect_raised :
  (forall (w : World) (s : State),
     fst (connect w s) = Ok tt ->
     ssh (self (snd (connect w s))) = HOpen /\
     sftp (self (snd (connect w s))) = HOpen) /\
  (forall (w : World) (s : State),
     is_open (ssh (self (snd (cleanup w s)))) = false /\
     is_open (sftp (self (snd (cleanup w s)))) = false) /\
  (forall (w : World) (s : State),
     reachable_connecting w s -> handles_agree (self s)) /\
  (forall (w : World) (s : State) (e : exn),
     ssh_connect w (trace s) (server_host (self s)) (server_user (self s))
                 (server_password (self s)) = Ok tt ->
     ssh_open_sftp w
       (EvConnect (server_host (self s)) (server_user (self s))
                  (server_password (self s)) (Ok tt) :: trace s) = Raise e ->
     fst (connect w s) = Raise e /\
     ssh (self (snd (connect w s))) = HOpen /\
     sftp (self (snd (connect w s))) = sftp (self s)).
Proof.
  repeat split.
  - apply connect_opens_both; assumption.
  - apply connect_opens_both; assumption.
  - apply cleanup_closes_both.
  - apply cleanup_closes_both.
  - apply handles_agree_when_connecting; assumption.
  - eapply connect_without_sftp; eassumption.
  - eapply connect_without_sftp; eassumption.
  - eapply connect_without_sftp; eassumption.
Qed.

(** ** The driver *)

Lemma main_unfold w args :
  main w args =
  (server_password <-
     perform (fun t => getpass_getpass w t "Enter server password: ")
             (EvGetpass "Enter server password: ") ;;
   put_self None ;;
   try_finally (main_try w args server_password) (main_finally w)).
Proof. reflexivity. Qed.

Section KeepsDeployer.

Lemma kd_ret {A} (a : A) : keeps_deployer (ret a).
Proof. intros ms H. exact H. Qed.

Lemma kd_raise {A} e : keeps_deployer (@raise MainState A e).
Proof. intros ms H. exact H. Qed.

Lemma kd_print msg : keeps_deployer (print msg).
Proof. intros ms H. exact H. Qed.

Lemma kd_observe {A} (f : list event -> A) : keeps_deployer (observe f).
Proof. intros ms H. exact H. Qed.

Lemma kd_call {A} attr (m : M State A) : keeps_deployer (call attr m).
Proof.
  intros ms H. unfold call. destruct (self ms) as [me|]; [ | contradiction ].
  destruct (m (with_self me ms)) as [r s]. cbn [snd self with_self]. discriminate.
Qed.

Lemma kd_bind {A B} (m : M MainState A) (k : A -> M MainState B) :
  keeps_deployer m -> (forall a, keeps_deployer (k a)) -> keeps_deployer (bind m k).
Proof.
  intros Hm Hk ms H. specialize (Hm ms H). unfold bind.
  destruct (m ms) as [[a|e] ms1]; cbn [snd] in *; [ apply Hk, Hm | exact Hm ].
Qed.

Lemma kd_print_all lines : keeps_deployer (@print_all (option Manager) lines).
Proof.
  induction lines as [|l more IH]; cbn [print_all].
  - apply kd_ret.
  - apply kd_bind; [ apply kd_print | intros _; exact IH ].
Qed.

End KeepsDeployer.

Ltac kd_go :=
  repeat first
    [ apply kd_ret | apply kd_raise | apply kd_print | apply kd_observe
    | apply kd_call | apply kd_print_all
    | apply kd_bind; [ | intros ? ]
    | match goal with
      | |- keeps_deployer (if ?b then _ else _) => destruct b
      end ].

Lemma main_try_constructs w args pw ms :
  exists me, self (snd (main_try w args pw ms)) = Some me.
Proof.
  assert (H : self (snd (main_try w args pw ms)) <> None).
  { unfold main_try, try_except, main_body.
    unfold bind at 1. unfold print at 1. cbv beta iota.
    unfold bind at 1. unfold put_self at 1. cbv beta iota.
    match goal with
    | |- context [bind ?m ?k ?ms1] =>
        assert (K : keeps_deployer (bind m k)) by (unfold path_exists; kd_go);
        specialize (K ms1 ltac:(discriminate));
        destruct (bind m k ms1) as [[a|e] ms2]
    end; cbn [snd] in *.
    - exact K.
    - mred. exact K. }
  destruct (self (snd (main_try w args pw ms))) as [me|]; [ eauto | contradiction ].
Qed.

Lemma main_finally_run w (ms : MainState) me :
  self ms = Some me ->
  exists evs,
    main_finally w ms =
      (Ok tt, mkState (Some (closed me)) (stdin ms) (evs ++ trace ms)) /\
    cleanup_events w me (trace ms) evs.
Proof.
  intros Hme. unfold main_finally, call. mred.
  rewrite Hme. cbv beta iota. rewrite Hme.
  destruct (cleanup_run w (mkState me (stdin ms) (trace ms))) as (evs & Hrun & Hev).
  rewrite Hrun. exists evs. split; [ reflexivity | exact Hev ].
Qed.

Lemma main_run w args lines :
  main w args (initial lines) =
  match getpass_getpass w [] "Enter server password: " with
  | Ok pw =>
      try_finally (main_try w args pw) (main_finally w)
        (mkState None lines [EvGetpass "Enter server password: " (Ok pw)])
  | Raise e =>
      (Raise e, mkState None lines [EvGetpass "Enter server password: " (Raise e)])
  end.
Proof.
  rewrite main_unfold. unfold initial.
  unfold bind at 1. unfold perform at 1. cbn [trace].
  destruct (getpass_getpass w [] "Enter server password: ") as [pw|e]; reflexivity.
Qed.

(** C9: the password prompt is the only statement of [main] outside the
    [try] statement.  Once it has returned, however the [try] statement
    ends (normally, or with any exception, which is printed and raised
    again), the manager has been constructed and [cleanup] runs on it: the
    driver ends with the outcome of the [try] statement, [cleanup] itself
    never raises, the handles that were set are closed (none is left open),
    and, when the workspace exists, its removal is attempted up to three
    times, each attempt fixing up and removing again what it could not
    remove, with a wait of one second after a failed attempt that is not
    the last, and two warnings after the third failure. *)
Theorem C9_cleanup_always_runs :
  forall (w : World) (args : Args) (lines : list string),
    match getpass_getpass w [] "Enter server password: " with
    | Raise e =>
        fst (main w args (initial lines)) = Raise e /\
        self (snd (main w args (initial lines))) = None
    | Ok pw =>
        let tried :=
          main_try w args pw
            (mkState None lines [EvGetpass "Enter server password: " (Ok pw)]) in
        exists me evs,
          self (snd tried) = Some me /\
          main w args (initial lines) =
            (fst tried,
             mkState (Some (closed me)) (stdin (snd tried))
                     (evs ++ trace (snd tried))) /\
          cleanup_events w me (trace (snd tried)) evs /\
          is_open (ssh (closed me)) = false /\
          is_open (sftp (closed me)) = false
    end.
Proof.
  intros w args lines. rewrite main_run.
  destruct (getpass_getpass w [] "Enter server password: ") as [pw|e].
  - cbv zeta. unfold try_finally.
    destruct (main_try_constructs w args pw
                (mkState None lines [EvGetpass "Enter server password: " (Ok pw)]))
      as (me & Hme).
    destruct (main_try w args pw _) as [r ms1]. cbn [fst snd] in *.
    destruct (main_finally_run w ms1 Hme) as (evs & Hrun & Hev).
    rewrite Hrun. exists me, evs.
    repeat split; auto; apply closed_not_open.
  - split; reflexivity.
Qed.

Lemma fixups_cleanup_events failing res evs :
  fixups failing res evs -> Forall cleanup_event evs.
Proof.
  induction 1; repeat constructor.
  apply Forall_app. split; [ assumption | repeat constructor ].
Qed.

Lemma attempt_cleanup_events dir res evs :
  attempt dir res evs -> Forall cleanup_event evs.
Proof.
  intros [failing res' evs' H]. apply Forall_app. split.
  - eapply fixups_cleanup_events; eauto.
  - repeat constructor.
Qed.

Lemma removal_cleanup_events dir evs : removal dir evs -> Forall cleanup_event evs.
Proof.
  intros H. destruct H;
    repeat (apply Forall_app; split);
    eauto using attempt_cleanup_events; repeat constructor.
Qed.

Lemma cleanup_events_are_cleanup w me t evs :
  cleanup_events w me t evs -> Forall cleanup_event evs.
Proof.
  intros (rm & -> & H). apply Forall_app. split.
  - destruct (workspace_present w me _); [ | subst; constructor ].
    eapply removal_cleanup_events; eauto.
  - unfold close_events. destruct (is_set (ssh me)), (is_set (sftp me)); repeat constructor.
Qed.

Lemma exec_commands_app t1 t2 :
  exec_commands (t1 ++ t2) = exec_commands t2 ++ exec_commands t1.
Proof. unfold exec_commands. rewrite rev_app_distr, flat_map_app. reflexivity. Qed.

Lemma exec_commands_cleanup evs :
  Forall cleanup_event evs -> exec_commands evs = [].
Proof.
  unfold exec_commands. intros H. apply Forall_rev in H.
  induction H as [|e l He Hl IH]; [ reflexivity | ].
  cbn [flat_map]. rewrite IH. destruct e; try contradiction; reflexivity.
Qed.

Lemma print_all_run lines (ms : MainState) :
  @print_all (option Manager) lines ms =
  (Ok tt, mkState (self ms) (stdin ms) (rev (map EvPrint lines) ++ trace ms)).
Proof.
  revert ms. induction lines as [|l more IH]; intros ms; cbn [print_all].
  - destruct ms; reflexivity.
  - unfold bind, print. cbv beta iota. rewrite IH. unfold record_event.
    cbn [self stdin trace map rev]. rewrite <- app_assoc. reflexivity.
Qed.

Lemma not_cleanup_subprocess evs argv res :
  Forall cleanup_event evs -> ~ In (EvSubprocess argv res) evs.
Proof.
  intros F Hin. rewrite Forall_forall in F. apply F in Hin. exact Hin.
Qed.

Ltac reduce_in H :=
  cbv beta iota zeta in H;
  cbn [self stdin trace fst snd ssh sftp set_ssh set_sftp set_temp_dir init temp_dir
       server_host server_user server_password env_dir negb] in H;
  cbv beta iota zeta in H.

Ltac step_in H :=
  match type of H with
  | context [match ?x with Ok _ => _ | Raise _ => _ end] =>
      lazymatch x with
      | context [match _ with _ => _ end] => fail
      | _ => let E := fresh "E" in destruct x eqn:E
      end
  end; reduce_in H.

Ltac finally_in H :=
  match type of H with
  | context [main_finally ?w ?ms] =>
      let evs := fresh "evs" in
      let Hfin := fresh "Hfin" in
      let Hev := fresh "Hev" in
      destruct (@main_finally_run w ms _ eq_refl) as (evs & Hfin & Hev);
      rewrite Hfin in H; clear Hfin;
      apply cleanup_events_are_cleanup in Hev;
      reduce_in H
  end.

Lemma upload_event_not_subprocess l r argv res :
  ~ upload_event l r (EvSubprocess argv res).
Proof. intros H. inversion H. Qed.

Lemma deploy_event_not_subprocess w me sp n argv res :
  ~ deploy_event w me sp n (EvSubprocess argv res).
Proof.
  intros H. inversion H as [e H1|h e H1|e H1|e H1|e H1]; subst; inversion H1; subst;
    eapply upload_event_not_subprocess; eassumption.
Qed.

Lemma not_print_subprocess lines argv res :
  ~ In (EvSubprocess argv res) (rev (map EvPrint lines)).
Proof.
  intros H. apply in_rev in H. apply in_map_iff in H.
  destruct H as (x & Hx & _). discriminate.
Qed.

Lemma exec_commands_prints_only lines : exec_commands (rev (map EvPrint lines)) = [].
Proof.
  unfold exec_commands. rewrite rev_involutive.
  induction lines as [|l more IH]; [ reflexivity | exact IH ].
Qed.

Lemma not_deploy_subprocess w me sp n evs argv res :
  Forall (deploy_event w me sp n) evs -> ~ In (EvSubprocess argv res) evs.
Proof.
  intros F Hin. rewrite Forall_forall in F. apply F in Hin.
  eapply deploy_event_not_subprocess; eassumption.
Qed.

(** Where in the trace the event of [Hin] is: not among the events of
    [cleanup], of a deployment, or among printed lines. *)
Ltac locate Hin :=
  lazymatch type of Hin with
  | In _ (_ ++ _) =>
      apply in_app_or in Hin; destruct Hin as [Hin|Hin];
      [ first [ exfalso; eapply not_cleanup_subprocess; eassumption
              | exfalso; eapply not_deploy_subprocess; eassumption
              | exfalso; eapply not_print_subprocess; eassumption
              | locate Hin ]
      | locate Hin ]
  | In _ (_ :: _) =>
      destruct Hin as [Hin|Hin]; [ try discriminate Hin | locate Hin ]
  | In _ [] => contradiction
  | _ => idtac
  end.

Ltac refute_clone Hrun Hin Hev :=
  exfalso; subst; cbn [snd trace] in Hin; apply in_app_or in Hin;
  destruct Hin as [Hin|Hin];
  [ eapply not_cleanup_subprocess; eassumption
  | cbn [In] in Hin; repeat (destruct Hin as [Hin|Hin]; [ discriminate Hin | ]);
    contradiction ].

Lemma print_walk_entry_lines dir entries :
  flat_map (print_walk_entry dir) entries = flat_map (listing_lines dir) entries.
Proof.
  apply flat_map_ext. intros [[root dirs] files]. reflexivity.
Qed.

(** C10: when the repository was cloned into a directory whose root
    holds no [main.py], the driver returns normally; the only commands it
    ran on the remote host are the two of the runtime-version check and it
    transferred no file (no provisioning step was invoked).  After the
    clone it printed that no [main.py] was found, then the heading, then
    the listing of the walk taken at that point: for each directory its
    name followed by [/], indented by four spaces per level, and its files,
    indented by four more, in the order of the walk; only [cleanup]
    follows. *)
Theorem C10_no_main_py_no_deployment :
  forall (w : World) (args : Args) (lines : list string) (dir : string),
    In (EvSubprocess (clone_argv args dir) (Ok tt))
       (trace (snd (main w args (initial lines)))) ->
    (forall h, os_path_exists w h (OsPath.join dir "main.py") = false) ->
    fst (main w args (initial lines)) = Ok tt /\
    exec_commands (trace (snd (main w args (initial lines))))
      = ["command -v python3.12"; "python3.12 --version"] /\
    Forall (fun e => ~ is_transfer e) (trace (snd (main w args (initial lines)))) /\
    exists after before,
      let announced :=
        EvPrint "Repository structure:"
        :: EvPrint "No main.py found in repository root!" :: before in
      trace (snd (main w args (initial lines))) =
        after
        ++ rev (map EvPrint (flat_map (listing_lines dir) (os_walk w announced dir)))
        ++ announced /\
      Forall cleanup_event after /\
      In (EvSubprocess (clone_argv args dir) (Ok tt)) before.
Proof.
  intros w args lines dir Hin Hno.
  remember (main w args (initial lines)) as run eqn:Hrun.
  rewrite main_run in Hrun.
  destruct (getpass_getpass w [] "Enter server password: ") as [pw|e].
  2: { subst run. cbn [snd trace In] in Hin. destruct Hin as [Hin|[]]. discriminate. }
  unfold try_finally, main_try, try_except, main_body in Hrun.
  unfold call, connect, verify_python_version, clone_repo, run_remote_command in Hrun.
  mred. reduce_in Hrun.
  step_in Hrun; [ | finally_in Hrun; refute_clone Hrun Hin Hev ].
  step_in Hrun; [ | finally_in Hrun; refute_clone Hrun Hin Hev ].
  step_in Hrun; [ | finally_in Hrun; refute_clone Hrun Hin Hev ].
  destruct (nonzero a1) eqn:Hnz1; reduce_in Hrun;
    [ finally_in Hrun; refute_clone Hrun Hin Hev | ].
  step_in Hrun; [ | finally_in Hrun; refute_clone Hrun Hin Hev ].
  destruct (nonzero a2) eqn:Hnz2; reduce_in Hrun;
    [ finally_in Hrun; refute_clone Hrun Hin Hev | ].
  step_in Hrun; [ | finally_in Hrun; refute_clone Hrun Hin Hev ].
  step_in Hrun; [ | finally_in Hrun; refute_clone Hrun Hin Hev ].
  match type of Hrun with
  | context [os_path_exists ?w ?T ?p] => destruct (os_path_exists w T p) eqn:Hex
  end; reduce_in Hrun.
  - exfalso.
    match type of Hrun with
    | context [deploy_script ?w ?sp ?n ?S] =>
        destruct (@deploy_script_frame w (self S) sp n S eq_refl)
          as (dev & F & S1 & T1 & _);
        destruct (deploy_script w sp n S) as [r [me2 in2 t2]]
    end.
    cbn [snd self trace] in S1, T1. subst me2 t2. reduce_in Hrun.
    destruct r as [[|]|x]; reduce_in Hrun; finally_in Hrun; subst run;
      cbn [snd trace] in Hin; locate Hin;
      injection Hin as Hdir; subst; rewrite Hno in Hex; discriminate Hex.
  - rewrite print_all_run in Hrun. reduce_in Hrun. finally_in Hrun. subst run.
    cbn [fst snd trace] in *.
    assert (Hdir : a3 = dir) by (locate Hin; injection Hin as Hdir; exact Hdir).
    subst a3. clear Hin.
    rewrite print_walk_entry_lines.
    split; [ reflexivity | ]. split; [ | split ].
    + rewrite !exec_commands_app, (exec_commands_cleanup Hev),
        exec_commands_prints_only. reflexivity.
    + apply Forall_app. split.
      { eapply Forall_impl; [ | exact Hev ]. intros e He Ht.
        destruct e; contradiction. }
      apply Forall_app. split.
      { apply Forall_forall. intros e He Ht. apply in_rev, in_map_iff in He.
        destruct He as (x & <- & _). exact Ht. }
      repeat constructor; intros Ht; exact Ht.
    + destruct a4. eexists evs, _. cbv zeta. split; [ reflexivity | ].
      split; [ exact Hev | ]. right. right. left. reflexivity.
Qed.

(** ** The normalization of the runner script *)

Lemma dos2unix_cmd_mentions_dos2unix n :
  Py.contains "dos2unix" (dos2unix_cmd n) = true.
Proof. reflexivity. Qed.

Lemma normalization_runs w n s :
  ssh (self s) <> HNone ->
  exists r evs,
    normalization_run (server_password (self s)) n r evs /\
    run_setup_commands w [dos2unix_cmd n] s = (r, extend evs s).
Proof.
  intros Hssh. cbn [run_setup_commands]. rewrite dos2unix_cmd_mentions_dos2unix.
  unfold run_remote_command. mred.
  destruct (ssh (self s)) eqn:E; [ contradiction | | | ].
  all: mred; case_oracle; mred;
       [ | eexists _, [_]; split; [ | reflexivity ]; apply NormRaised ].
  all: destruct (nonzero a) eqn:Hnz; mred;
       [ apply nonzero_true in Hnz
       | apply nonzero_false in Hnz;
         eexists _, [_]; split; [ | reflexivity ]; apply NormDone; exact Hnz ].
  all: rewrite ?E; mred; case_oracle; mred;
       [ | eexists _, [_; _; _; _]; split; [ | reflexivity ];
           apply NormInstallRaised; exact Hnz ].
  all: destruct (Z.eqb_spec (returncode a0) 0) as [Hi|Hi]; mred;
       [ | eexists _, [_; _; _; _]; split; [ | reflexivity ];
           apply NormInstallFailed; assumption ].
  all: rewrite ?E; mred; case_oracle; mred;
       [ | eexists _, [_; _; _; _; _]; split; [ | reflexivity ];
           apply NormRetryRaised; assumption ].
  all: destruct (nonzero a1) eqn:Hnz1; mred;
       [ apply nonzero_true in Hnz1;
         eexists _, [_; _; _; _; _; _]; split; [ | reflexivity ];
         apply NormRetryFailed; assumption
       | apply nonzero_false in Hnz1;
         eexists _, [_; _; _; _; _]; split; [ | reflexivity ];
         apply NormRetried; assumption ].
Qed.

(** ** Concrete runs *)

Ltac find_in := repeat first [ left; reflexivity | right ].

(** C1 (the code does not do what the claim says): on a host without
    [dos2unix] on which the installation fails too, the deployment runs the
    normalization once, the installation once, no retry, and reports
    success. *)
Theorem C1_failed_install_is_not_fatal :
  let run := deploy_script world_without_dos2unix repo_dir target (connected ["n"]) in
  fst run = Ok true /\
  exec_commands (trace (snd run)) =
    [ create_dir_cmd "hunter2" target;
      chown_cmd "hunter2" (Some "scadaadmin") target;
      "mkdir -p /opt/lightningStrikes";
      "mkdir -p /opt/lightningStrikes";
      venv_setup_cmd target;
      "mkdir -p /opt/lightningStrikes";
      chmod_cmd target;
      dos2unix_cmd target;
      install_cmd "hunter2" ] /\
  In (EvExec (install_cmd "hunter2")
             (Ok (failed 100 "E: Unable to locate package dos2unix")))
     (trace (snd run)) /\
  In "Successfully deployed lightningStrikes" (printed (trace (snd run))).
Proof. vm_compute. repeat split; find_in. Qed.

(** The other way in which the loop of lines 190-206 departs from claim
    C1: the test of line 195 looks for [dos2unix] in the whole command, so
    that a failing [chmod] is not fatal when the target name contains it. *)
Example chmod_failure_with_dos2unix_in_the_name :
  fst (deploy_script world_chmod_refused repo_dir "dos2unix-tools" (connected ["n"]))
  = Ok false /\
  exec_commands
    (trace (snd (deploy_script world_chmod_refused repo_dir "dos2unix-tools"
                   (connected ["n"]))))
  = [ create_dir_cmd "hunter2" "dos2unix-tools";
      chown_cmd "hunter2" (Some "scadaadmin") "dos2unix-tools";
      "mkdir -p /opt/dos2unix-tools";
      "mkdir -p /opt/dos2unix-tools";
      venv_setup_cmd "dos2unix-tools";
      "mkdir -p /opt/dos2unix-tools";
      chmod_cmd "dos2unix-tools";
      install_cmd "hunter2";
      chmod_cmd "dos2unix-tools" ].
Proof. vm_compute. split; reflexivity. Qed.

(** C3 at a host on which [sudo] refuses the password. *)
Lemma C3_witness :
  fst (deploy_script world_sudo_refused repo_dir target (connected [])) = Ok false.
Proof.
  refine (proj1 (@C3_privileged_failure_aborts world_sudo_refused repo_dir target
                   (connected [])
                   (trace (snd (deploy_script world_sudo_refused repo_dir target
                                  (connected []))))
                   (create_dir_cmd "hunter2" target)
                   (failed 1 "sudo: 1 incorrect password attempt") _ _ _ _)).
  - symmetry. apply app_nil_r.
  - left. reflexivity.
  - vm_compute. find_in.
  - vm_compute. discriminate.
Defined.

(** C4 at a source tree whose [cron.txt] holds [*/5 * * * *]: the
    entry is installed and the deployment succeeds. *)
Lemma C4_witness :
  let run := deploy_script world_with_cron repo_dir target (connected ["n"]) in
  let cmd := replace_entry_cmd target "*/5 * * * * /opt/lightningStrikes/run_script.sh" in
  fst run = Ok true /\
  exists after before,
    trace (snd run) = after ++ EvExec cmd (Ok ok_result) :: before /\
    Forall is_print after /\
    Forall (fun e => ~ crontab_exec e) before.
Proof.
  pose proof (@C4_crontab_entry_replaced world_with_cron repo_dir target
                (connected ["n"]) (Some ("*/5 * * * *" ++ Py.newline)%string)
                (trace (snd (deploy_script world_with_cron repo_dir target
                               (connected ["n"]))))
                (fun h => conj eq_refl eq_refl)
                (eq_sym (app_nil_r _))) as H.
  change (fst (earlier_steps world_with_cron repo_dir target (connected ["n"])))
    with (@Ok bool true) in H.
  cbv beta iota zeta in H.
  destruct H as (after & res & before & _ & Hres & Hevs & Hafter & Hbefore & Hfst).
  change (res = Ok ok_result) in Hres. subst res.
  split; [ exact Hfst | ].
  exists after, (EvRead (cron_path_of repo_dir) (Ok ("*/5 * * * *" ++ Py.newline)%string)
                 :: before).
  split; [ exact Hevs | ]. split; [ exact Hafter | ].
  constructor; [ intros F; exact F | exact Hbefore ].
Defined.

(** C5 at the same source tree, which has no [requirements.txt]: the
    deployment succeeds. *)
Lemma C5_witness :
  let run := deploy_script world_with_cron repo_dir target (connected ["n"]) in
  fst run = Ok true /\
  Forall (fun e => ~ runtime_step_event connected_manager repo_dir target e)
         (trace (snd run)).
Proof.
  split; [ vm_compute; reflexivity | ].
  refine (proj1 (proj2 (@C5_no_manifest_no_runtime world_with_cron repo_dir target
                          (connected ["n"])
                          (trace (snd (deploy_script world_with_cron repo_dir target
                                         (connected ["n"]))))
                          _ _))).
  - intros h. reflexivity.
  - symmetry. apply app_nil_r.
Defined.

Lemma world_of_console_blind files walk :
  console_blind (world_of files walk always_ok).
Proof. intros h h' _. repeat split. Qed.

(** C6 for an operator who answers [n]. *)
Lemma C6_witness :
  fst (deploy_script world_with_cron repo_dir target (connected ["n"]))
  = fst (deploy_without_secrets world_with_cron repo_dir target (connected ["n"])).
Proof.
  refine (proj2 (@C6_declined_secrets_are_not_an_error world_with_cron repo_dir target
                   (connected ["n"]) "n" [] _ _ _ _)).
  - apply world_of_console_blind.
  - intros h. reflexivity.
  - reflexivity.
  - vm_compute. discriminate.
Defined.

(** C8 after a [connect] that returned. *)
Lemma C8_witness :
  handles_agree
    (self (state_after world_with_cron OpConnect
             (mkState (init world_with_cron (Some "10.20.1.4") (Some "scadaadmin")
                            "hunter2" None) [] []))).
Proof.
  refine (proj1 (proj2 (proj2 C8_handles_agree_unless_connect_raised)) _ _ _).
  apply ReachCStep.
  - apply ReachCInit.
  - intros _. reflexivity.
Defined.

(** C10 at a clone that holds [README.md] and [docs/index.md] only. *)
Lemma C10_witness :
  fst (main world_without_main example_args (initial [])) = Ok tt /\
  exec_commands (trace (snd (main world_without_main example_args (initial []))))
    = ["command -v python3.12"; "python3.12 --version"] /\
  exists after before,
    trace (snd (main world_without_main example_args (initial []))) =
      after
      ++ rev (map EvPrint [ "tmpk3/"; "    README.md"; "    docs/"; "        index.md" ])
      ++ EvPrint "Repository structure:"
      :: EvPrint "No main.py found in repository root!" :: before.
Proof.
  destruct (@C10_no_main_py_no_deployment world_without_main example_args [] repo_dir)
    as (H1 & H2 & _ & after & before & H3 & _).
  - vm_compute. find_in.
  - intros h. reflexivity.
  - split; [ exact H1 | ]. split; [ exact H2 | ]. exists after, before. exact H3.
Defined.

(** C7 at a live session: the directory is made, the file transferred,
    the result is [True]. *)
Lemma C7_witness :
  upload_file world_with_cron "/tmp/tmpk3/lib/util.py"
              "/opt/lightningStrikes/lib/util.py" (connected [])
  = (Ok true,
     extend [ EvPut "/tmp/tmpk3/lib/util.py" "/opt/lightningStrikes/lib/util.py" (Ok tt);
              EvExec "mkdir -p /opt/lightningStrikes/lib" (Ok ok_result) ]
            (connected [])).
Proof.
  destruct (C7_upload_file world_with_cron "/tmp/tmpk3/lib/util.py"
              "/opt/lightningStrikes/lib/util.py" (connected []))
    as (b & evs & Hrun & _ & _ & _ & _ & Hlive).
  destruct (Hlive ltac:(discriminate) ltac:(discriminate)) as [-> ->].
  exact Hrun.
Defined.

(** C9 at a clone without [main.py]. *)
Lemma C9_witness :
  let tried :=
    main_try world_without_main example_args "hunter2"
      (mkState None [] [EvGetpass "Enter server password: " (Ok "hunter2")]) in
  exists me evs,
    self (snd tried) = Some me /\
    main world_without_main example_args (initial []) =
      (fst tried,
       mkState (Some (closed me)) (stdin (snd tried)) (evs ++ trace (snd tried))) /\
    cleanup_events world_without_main me (trace (snd tried)) evs /\
    is_open (ssh (closed me)) = false /\
    is_open (sftp (closed me)) = false.
Proof. exact (C9_cleanup_always_runs world_without_main example_args []). Defined.

(** A cleanup that gives up: three attempts, each with the fix-up and the
    second removal of the read-only file, a wait after the first two, the
    warnings after the third; the driver still ends normally. *)
Example cleanup_gives_up_after_three_attempts :
  let run := main world_stuck_workspace example_args (initial []) in
  let stuck := "/tmp/tmpk3/.git/objects/pack/pack-1.idx" in
  let denied := PyExc "PermissionError" "[WinError 5] Access is denied" in
  let failed_attempt :=
    [ EvRemoveAgain stuck (Raise denied); EvChmod stuck (Ok tt);
      EvRmtree "/tmp/tmpk3" [stuck] ] in
  fst run = Ok tt /\
  firstn 15 (trace (snd run)) =
    removal_warnings "/tmp/tmpk3"
    ++ failed_attempt ++ [EvSleep 1] ++ failed_attempt ++ [EvSleep 1] ++ failed_attempt
    ++ [EvCloseSsh; EvCloseSftp].
Proof. vm_compute. split; reflexivity. Qed.

(** The two scenarios of the specification for the normalization: the
    tool is absent, the installation succeeds and the one retry succeeds;
    and the retry fails. *)
Example dos2unix_installed_then_retried_once :
  let run := deploy_script world_installing_dos2unix repo_dir target (connected ["n"]) in
  fst run = Ok true /\
  skipn 6 (exec_commands (trace (snd run))) =
    [ chmod_cmd target; dos2unix_cmd target; install_cmd "hunter2"; dos2unix_cmd target ].
Proof. vm_compute. split; reflexivity. Qed.

Example failing_retry_is_fatal :
  let run := deploy_script world_dos2unix_broken repo_dir target (connected ["n"]) in
  fst run = Ok false /\
  skipn 6 (exec_commands (trace (snd run))) =
    [ chmod_cmd target; dos2unix_cmd target; install_cmd "hunter2"; dos2unix_cmd target ].
Proof. vm_compute. split; reflexivity. Qed.

(** * Further properties of the program *)

Ltac pick_event Hin :=
  cbn [In] in Hin;
  repeat (destruct Hin as [Hin|Hin];
          [ try discriminate Hin; try (injection Hin as <-) | ]);
  try contradiction.

(** From [T = evs ++ t], with [T] built from conses and appends over [t],
    the value of [evs]. *)
Ltac name_events_deep H :=
  lazymatch type of H with
  | ?T = ?evs ++ ?base =>
      let p := prefix_of T base in
      let Heq := fresh "Heq" in
      assert (Heq : T = p ++ base)
        by (repeat first [ progress cbn [app] | rewrite <- app_assoc ]; reflexivity);
      rewrite Heq in H; clear Heq;
      apply app_inv_tail in H; subst evs
  end.

Ltac case_oracle_in H :=
  match type of H with
  | context [match ?x with Ok _ => _ | Raise _ => _ end] =>
      lazymatch x with
      | context [match _ with _ => _ end] => fail
      | _ => let E := fresh "E" in destruct x eqn:E
      end
  end.

(** ** [verify_python_version] *)

(** X1: when [command -v python3.12] returns a non-zero exit code,
    [verify_python_version] raises [RuntimeError] with the message that
    Python 3.12 is not installed, and that command is all it has done:
    the version is not asked for and nothing is printed. *)
Theorem verify_python_version_missing_runtime :
  forall (w : World) (s : State) (evs : list event) (r1 : CommandResult),
    trace (snd (verify_python_version w s)) = evs ++ trace s ->
    In (EvExec "command -v python3.12" (Ok r1)) evs ->
    returncode r1 <> 0%Z ->
    fst (verify_python_version w s)
      = Raise (PyExc "RuntimeError" "Python 3.12 is not installed on the remote server") /\
    evs = [EvExec "command -v python3.12" (Ok r1)].
Proof.
  intros w s evs r1 Htrace Hin Hrc.
  unfold verify_python_version, run_remote_command in *. mred.
  destruct (ssh (self s)) eqn:Hssh; mred.
  1: { destruct s as [me inp tr]. cbn [trace] in Htrace.
       change tr with ([] ++ tr) in Htrace at 1.
       apply app_inv_tail in Htrace. subst evs. contradiction. }
  all: case_oracle; mred; try (name_events Htrace; pick_event Hin).
  all: destruct (nonzero a) eqn:Hnz; mred;
       [ name_events Htrace; pick_event Hin; split; reflexivity | ].
  all: apply nonzero_false in Hnz.
  all: rewrite ?Hssh in *; mred; case_oracle; mred;
       try (name_events Htrace; pick_event Hin; congruence).
  all: destruct (nonzero a0) eqn:Hnz0; mred; name_events Htrace; pick_event Hin;
       congruence.
Qed.

Lemma verify_python_version_missing_runtime_witness :
  fst (verify_python_version world_without_python (connected []))
  = Raise (PyExc "RuntimeError" "Python 3.12 is not installed on the remote server").
Proof.
  refine (proj1 (@verify_python_version_missing_runtime world_without_python
                   (connected [])
                   [EvExec "command -v python3.12" (Ok (failed 1 EmptyString))]
                   (failed 1 EmptyString) _ _ _)).
  - reflexivity.
  - left. reflexivity.
  - vm_compute. discriminate.
Defined.

(** X2: [verify_python_version] only returns when both commands have
    returned exit code zero; it then returns [True], having run the two
    commands in order and printed the stripped output of the second. *)
Theorem verify_python_version_returns :
  forall (w : World) (s : State) (b : bool),
    fst (verify_python_version w s) = Ok b ->
    b = true /\
    exists r1 r2,
      returncode r1 = 0%Z /\ returncode r2 = 0%Z /\
      snd (verify_python_version w s) =
        extend [ EvPrint ("Remote Python version: " ++ Py.strip (stdout r2))%string;
                 EvExec "python3.12 --version" (Ok r2);
                 EvExec "command -v python3.12" (Ok r1) ] s.
Proof.
  intros w s b Hret.
  unfold verify_python_version, run_remote_command in *. mred.
  destruct (ssh (self s)) eqn:Hssh; mred; try discriminate.
  all: case_oracle; mred; try discriminate.
  all: destruct (nonzero a) eqn:Hnz; mred; try discriminate.
  all: rewrite ?Hssh in *; mred; case_oracle; mred; try discriminate.
  all: destruct (nonzero a0) eqn:Hnz0; mred; try discriminate.
  all: injection Hret as <-; split; [ reflexivity | ].
  all: exists a, a0; auto using nonzero_false.
Qed.

Lemma verify_python_version_returns_witness :
  exists r1 r2,
    returncode r1 = 0%Z /\ returncode r2 = 0%Z /\
    snd (verify_python_version world_with_cron (connected [])) =
      extend [ EvPrint ("Remote Python version: " ++ Py.strip (stdout r2))%string;
               EvExec "python3.12 --version" (Ok r2);
               EvExec "command -v python3.12" (Ok r1) ] (connected []).
Proof.
  exact (proj2 (@verify_python_version_returns world_with_cron (connected []) true
                  eq_refl)).
Defined.

(** ** [clone_repo] and the workspace *)

Lemma attempt_calls_rmtree dir res evs :
  attempt dir res evs -> exists failing, In (EvRmtree dir failing) evs.
Proof.
  intros [failing res' evs' _]. exists failing.
  apply in_or_app. right. left. reflexivity.
Qed.

Lemma removal_calls_rmtree dir rm :
  removal dir rm -> exists failing, In (EvRmtree dir failing) rm.
Proof.
  intros H. destruct H as [a1 H1|e1 a1 a2 H1 _|e1 e2 a1 a2 a3 H1 _ _|e1 e2 e3 a1 a2 a3 H1 _ _];
    destruct (attempt_calls_rmtree H1) as (failing & Hin); exists failing;
    repeat (apply in_or_app; first [ left; exact Hin | right ]); exact Hin.
Qed.

(** X3: [clone_repo] stores the directory that [mkdtemp] returned in
    [temp_dir] before it runs [git], so the field is set whether the clone
    succeeds or raises.  Its only other effect is the one [git clone -b
    <branch> <url> <dir>] call, whose exception, if any, is the one that
    [clone_repo] raises; otherwise the directory is returned. *)
Theorem clone_repo_records_workspace :
  forall (w : World) (url b : string) (s : State) (dir : string),
    tempfile_mkdtemp w (trace s) = Ok dir ->
    exists res,
      snd (clone_repo w url b s) =
        mkState (set_temp_dir (Some dir) (self s)) (stdin s)
          ([ EvSubprocess ["git"; "clone"; "-b"; b; url; dir]%string res;
             EvMkdtemp (Ok dir) ] ++ trace s) /\
      fst (clone_repo w url b s) =
        match res with Ok _ => Ok dir | Raise e => Raise e end.
Proof.
  intros w url b s dir Hdir. unfold clone_repo. mred. rewrite Hdir. mred.
  case_oracle; mred.
  - exists (Ok a). split; reflexivity.
  - exists (Raise e). split; reflexivity.
Qed.

Lemma clone_repo_records_workspace_witness :
  exists res,
    snd (clone_repo world_clone_fails "https://example.org/team/lightningStrikes.git"
           "master" (connected [])) =
      mkState (set_temp_dir (Some "/tmp/tmpk3") (self (connected []))) []
        ([ EvSubprocess ["git"; "clone"; "-b"; "master";
                         "https://example.org/team/lightningStrikes.git";
                         "/tmp/tmpk3"]%string res;
           EvMkdtemp (Ok "/tmp/tmpk3") ] ++ []) /\
    fst (clone_repo world_clone_fails "https://example.org/team/lightningStrikes.git"
           "master" (connected [])) =
      match res with Ok _ => Ok "/tmp/tmpk3"%string | Raise e => Raise e end.
Proof.
  exact (@clone_repo_records_workspace world_clone_fails
           "https://example.org/team/lightningStrikes.git" "master" (connected [])
           "/tmp/tmpk3" eq_refl).
Defined.

(** X4: a clone that fails does not leak its directory.  Once [mkdtemp]
    has returned a directory, a [cleanup] that follows [clone_repo], however
    [clone_repo] ended, calls [shutil.rmtree] on that directory, provided
    the directory is still there. *)
Theorem cleanup_removes_the_workspace_of_any_clone :
  forall (w : World) (url b : string) (s : State) (dir : string),
    tempfile_mkdtemp w (trace s) = Ok dir ->
    dir <> EmptyString ->
    (forall t, os_path_exists w t dir = true) ->
    exists failing,
      In (EvRmtree dir failing)
         (trace (snd (cleanup w (snd (clone_repo w url b s))))).
Proof.
  intros w url b s dir Hdir Hne Hex.
  assert (Hs : exists res,
             snd (clone_repo w url b s) =
               mkState (set_temp_dir (Some dir) (self s)) (stdin s)
                 ([ EvSubprocess ["git"; "clone"; "-b"; b; url; dir]%string res;
                    EvMkdtemp (Ok dir) ] ++ trace s)).
  { unfold clone_repo. mred. rewrite Hdir. mred. case_oracle; mred; eauto. }
  destruct Hs as (res & Hs). rewrite Hs.
  match goal with
  | |- context [cleanup w ?s1] =>
      destruct (cleanup_run w s1) as (evs & Hrun & rm & -> & Hrm); rewrite Hrun
  end.
  unfold workspace_present in Hrm. cbn [self set_temp_dir temp_dir] in Hrm.
  rewrite Hex in Hrm.
  destruct (String.eqb dir EmptyString) eqn:Heq;
    [ apply String.eqb_eq in Heq; contradiction | ].
  cbn [negb andb] in Hrm.
  destruct (removal_calls_rmtree Hrm) as (failing & Hin).
  exists failing. cbn [snd trace].
  apply in_or_app. left. apply in_or_app. left. exact Hin.
Qed.

Lemma cleanup_removes_the_workspace_of_any_clone_witness :
  exists failing,
    In (EvRmtree "/tmp/tmpk3" failing)
       (trace (snd (cleanup world_clone_fails
                      (snd (clone_repo world_clone_fails
                              "https://example.org/team/lightningStrikes.git"
                              "master" (connected [])))))).
Proof.
  refine (@cleanup_removes_the_workspace_of_any_clone world_clone_fails
            "https://example.org/team/lightningStrikes.git" "master" (connected [])
            "/tmp/tmpk3" eq_refl _ _).
  - discriminate.
  - intros t. reflexivity.
Defined.

(** ** [cleanup], called again *)

Lemma closed_idempotent me : closed (closed me) = closed me.
Proof.
  destruct me as [h u p td hssh hsftp ed]. unfold closed.
  destruct hssh, hsftp; reflexivity.
Qed.

(** X5: [cleanup] can be called again.  Neither call raises, the second
    call leaves the manager as the first one left it (the handles that were
    set stay closed, [temp_dir] is not reset), and both calls together add
    nothing to the trace but closes, removal events and the warnings: no
    remote command and no transfer. *)
Theorem cleanup_twice :
  forall (w : World) (s : State),
    fst (cleanup w s) = Ok tt /\
    fst (cleanup w (snd (cleanup w s))) = Ok tt /\
    self (snd (cleanup w (snd (cleanup w s)))) = self (snd (cleanup w s)) /\
    temp_dir (self (snd (cleanup w s))) = temp_dir (self s) /\
    exists evs,
      trace (snd (cleanup w (snd (cleanup w s)))) = evs ++ trace s /\
      Forall cleanup_event evs.
Proof.
  intros w s.
  destruct (cleanup_run w s) as (evs1 & Hrun1 & Hev1). rewrite Hrun1. cbn [fst snd].
  match goal with
  | |- context [cleanup w ?s1] =>
      destruct (cleanup_run w s1) as (evs2 & Hrun2 & Hev2); rewrite Hrun2
  end.
  cbn [fst snd self trace] in *.
  repeat split.
  - apply closed_idempotent.
  - destruct (self s) as [h u p td hssh hsftp ed]. unfold closed.
    destruct hssh, hsftp; reflexivity.
  - exists (evs2 ++ evs1). split; [ apply app_assoc | ].
    apply Forall_app. split; eapply cleanup_events_are_cleanup; eassumption.
Qed.

(** ** [handle_env_file] *)

Lemma upload_run_same_manager l r s1 s b evs :
  self s1 = self s -> upload_run l r s1 b evs -> upload_run l r s b evs.
Proof.
  intros Hme H. destruct H; rewrite Hme in *;
    [ apply UploadNoSession | apply UploadMkdirRaised | apply UploadNoChannel
    | apply UploadPutRaised | apply UploadDone ]; assumption.
Qed.

Lemma typed_events_cons x xs t :
  typed_events (x :: xs) ++ t = typed_events xs ++ EvInput EmptyString (Ok x) :: t.
Proof.
  unfold typed_events. cbn [rev]. rewrite map_app, <- app_assoc. reflexivity.
Qed.

Lemma read_env_lines_until_blank typed :
  forall acc s blank rest,
    Forall nonblank typed -> Py.strip blank = EmptyString ->
    read_env_lines (typed ++ blank :: rest) acc s =
      (Ok (acc ++ map Py.strip typed),
       mkState (self s) rest
         (EvInput EmptyString (Ok blank) :: typed_events typed ++ trace s)).
Proof.
  induction typed as [|x xs IH]; intros acc s blank rest Hnb Hblank.
  - cbn [app read_env_lines map]. rewrite Hblank. cbn [String.eqb].
    rewrite app_nil_r. reflexivity.
  - inversion Hnb as [|? ? Hx Hxs]; subst.
    cbn [app read_env_lines map].
    destruct (String.eqb (Py.strip x) EmptyString) eqn:Heq.
    + apply String.eqb_eq in Heq. contradiction.
    + rewrite IH by assumption. cbn [self trace].
      rewrite typed_events_cons, <- app_assoc. reflexivity.
Qed.

Lemma read_env_lines_eof typed :
  forall acc s,
    Forall nonblank typed ->
    read_env_lines typed acc s =
      (Raise (PyExc "EOFError" "EOF when reading a line"),
       mkState (self s) (match typed with [] => stdin s | _ => [] end)
         (EvInput EmptyString (Raise (PyExc "EOFError" "EOF when reading a line"))
          :: typed_events typed ++ trace s)).
Proof.
  induction typed as [|x xs IH]; intros acc s Hnb.
  - reflexivity.
  - inversion Hnb as [|? ? Hx Hxs]; subst.
    cbn [read_env_lines].
    destruct (String.eqb (Py.strip x) EmptyString) eqn:Heq.
    + apply String.eqb_eq in Heq. contradiction.
    + rewrite IH by assumption. cbn [self trace stdin].
      rewrite typed_events_cons. destruct xs; reflexivity.
Qed.

Lemma typed_events_are_inputs typed e :
  In e (typed_events typed) -> exists l, e = EvInput EmptyString (Ok l).
Proof.
  unfold typed_events. intros H. apply in_map_iff in H.
  destruct H as (l & <- & _). eauto.
Qed.

Lemma upload_run_events l r s b evs e :
  upload_run l r s b evs -> In e evs ->
  (exists msg, e = EvPrint msg) \/ (exists c res, e = EvExec c res) \/
  (exists res, e = EvPut l r res).
Proof.
  intros H Hin. destruct H; cbn [In] in Hin; unfold upload_failed in Hin;
    repeat (destruct Hin as [<-|Hin]; [ eauto | ]); contradiction.
Qed.

(** X6: when the secrets file of the script exists in [env_dir],
    [handle_env_file] announces it and uploads it to [/opt/<name>/.env];
    its result is the result of that upload.  The operator is not asked
    anything (the pending input is left as it is) and nothing is written
    locally. *)
Theorem handle_env_file_uploads_the_existing_file :
  forall (w : World) (n rsp : string) (s : State),
    os_path_exists w (trace s) (env_file_path_of (env_dir (self s)) n) = true ->
    exists b evs,
      upload_run (env_file_path_of (env_dir (self s)) n) (remote_env_path_of n) s b evs /\
      handle_env_file w n rsp s =
        (Ok b, extend (evs ++ [EvPrint ("Found .env file for " ++ n)%string]) s).
Proof.
  intros w n rsp s Hex. unfold handle_env_file. mred. rewrite Hex. cbv beta iota.
  match goal with
  | |- context [upload_file w ?l ?r ?s1] =>
      destruct (upload_file_run w l r s1) as (b & evs & Hrun & Heq); rewrite Heq
  end.
  exists b, evs. split.
  - eapply upload_run_same_manager; [ | exact Hrun ]. reflexivity.
  - unfold extend. cbn [self stdin trace]. rewrite <- app_assoc. reflexivity.
Qed.

Lemma handle_env_file_uploads_the_existing_file_witness :
  exists b evs,
    upload_run "/home/op/.script_envs/lightningStrikes.env"
      (remote_env_path_of "lightningStrikes") (connected []) b evs /\
    handle_env_file world_with_secrets "lightningStrikes" repo_dir (connected []) =
      (Ok b, extend (evs ++ [EvPrint "Found .env file for lightningStrikes"])
               (connected [])).
Proof.
  exact (@handle_env_file_uploads_the_existing_file world_with_secrets
           "lightningStrikes" repo_dir (connected []) eq_refl).
Defined.

Ltac split_in H :=
  repeat match type of H with
         | In _ (_ ++ _) => apply in_app_or in H; destruct H as [H|H]
         | In _ (_ :: _) => destruct H as [H|H]
         | In _ [] => contradiction
         end.

(** X7: when the secrets file is missing and the operator accepts to
    create it, the lines typed up to the first blank one are stripped and
    joined by newlines, and that text is what is written to the file in
    [env_dir]: nothing else is written.  Once the directory has been made,
    the input has been read up to and including the blank line and the write
    has been attempted; the only transfer is that of the written file to
    [/opt/<name>/.env], and it is attempted only after the write succeeded. *)
Theorem handle_env_file_writes_the_typed_lines :
  forall (w : World) (n rsp : string) (s : State)
         (answer blank : string) (typed rest : list string) (evs : list event),
    os_path_exists w (trace s) (env_file_path_of (env_dir (self s)) n) = false ->
    stdin s = answer :: typed ++ blank :: rest ->
    accepts answer ->
    Forall nonblank typed ->
    Py.strip blank = EmptyString ->
    trace (snd (handle_env_file w n rsp s)) = evs ++ trace s ->
    let path := env_file_path_of (env_dir (self s)) n in
    let content := Py.join Py.newline (map Py.strip typed) in
    (forall p m c res, In (EvWrite p m c res) evs ->
                       p = path /\ m = None /\ c = content) /\
    (In (EvMakedirs (env_dir (self s)) (Ok tt)) evs ->
     stdin (snd (handle_env_file w n rsp s)) = rest /\
     exists res, In (EvWrite path None content res) evs) /\
    (forall l r res, In (EvPut l r res) evs ->
                     l = path /\ r = remote_env_path_of n /\
                     In (EvWrite path None content (Ok tt)) evs).
Proof.
  intros w n rsp s answer blank typed rest evs Hex Hin Hacc Hnb Hblank Htrace path content.
  subst path content.
  unfold handle_env_file in *. mred. rewrite Hex in *. cbv beta iota in *.
  rewrite Hin in *. cbv beta iota in *. cbn [trace self stdin fst snd] in *.
  unfold accepts in Hacc. rewrite Hacc in *.
  change (String.eqb "y" "y") with true in *. cbv beta iota in *.
  case_oracle; mred.
  2: { name_events Htrace. split; [ | split ].
       - intros p m c res H. pick_event H.
       - intros H. pick_event H.
       - intros l r res H. pick_event H. }
  destruct a. rewrite (@read_env_lines_until_blank typed [] _ blank rest Hnb Hblank) in *.
  cbn [app trace self stdin fst snd] in *.
  case_oracle; mred.
  2: { name_events_deep Htrace. split; [ | split ].
       - intros p m c res H. split_in H; try discriminate.
         + injection H as <- <- <- <-. auto.
         + apply typed_events_are_inputs in H. destruct H as (x & H). discriminate.
       - intros _. split; [ reflexivity | ]. eexists. left. reflexivity.
       - intros l r res H. split_in H; try discriminate.
         apply typed_events_are_inputs in H. destruct H as (x & H). discriminate. }
  match type of Htrace with
  | context [upload_file w ?l ?r ?s1] =>
      destruct (upload_file_run w l r s1) as (b & up & Hup & Heq); rewrite Heq in *
  end.
  unfold extend in *. cbn [trace self stdin fst snd] in *.
  name_events_deep Htrace. split; [ | split ].
  - intros p m c res H. split_in H; try discriminate.
    + destruct (@upload_run_events _ _ _ _ _ _ Hup H) as [(x & Hx)|[(x & y & Hx)|(x & Hx)]];
        discriminate.
    + injection H as <- <- <- <-. auto.
    + apply typed_events_are_inputs in H. destruct H as (x & H). discriminate.
  - intros _. split; [ reflexivity | ]. eexists.
    apply in_or_app. right. right. left. reflexivity.
  - intros l r res H. split_in H; try discriminate.
    + destruct (@upload_run_events _ _ _ _ _ _ Hup H) as [(x & Hx)|[(x & y & Hx)|(x & Hx)]];
        try discriminate.
      injection Hx as <- <- _. split; [ reflexivity | split; [ reflexivity | ] ].
      apply in_or_app. right. right. left. destruct a. reflexivity.
    + apply typed_events_are_inputs in H. destruct H as (x & H). discriminate.
Qed.

Lemma handle_env_file_writes_the_typed_lines_witness :
  stdin (snd (handle_env_file (world_of [] [] always_ok) target repo_dir
                (connected ["Y "; " API_KEY=abc "; "DEBUG=1"; EmptyString; "left"]%string)))
  = ["left"%string].
Proof.
  refine (proj1 (proj1 (proj2
    (@handle_env_file_writes_the_typed_lines (world_of [] [] always_ok) target repo_dir
       (connected ["Y "; " API_KEY=abc "; "DEBUG=1"; EmptyString; "left"]%string)
       "Y " EmptyString [" API_KEY=abc "; "DEBUG=1"]%string ["left"%string]
       (trace (snd (handle_env_file (world_of [] [] always_ok) target repo_dir
                      (connected ["Y "; " API_KEY=abc "; "DEBUG=1"; EmptyString;
                                  "left"]%string))))
       eq_refl eq_refl _ _ eq_refl _)) _)).
  - reflexivity.
  - repeat constructor; vm_compute; discriminate.
  - symmetry. apply app_nil_r.
  - vm_compute. repeat (first [ left; reflexivity | right ]).
Defined.

(** X8: when the operator accepts to create the secrets file and the
    input ends before a blank line, [handle_env_file] raises: [EOFError],
    unless [os.makedirs] had raised before.  No file is written and nothing
    is transferred. *)
Theorem handle_env_file_unfinished_input :
  forall (w : World) (n rsp : string) (s : State)
         (answer : string) (typed : list string) (evs : list event),
    os_path_exists w (trace s) (env_file_path_of (env_dir (self s)) n) = false ->
    stdin s = answer :: typed ->
    accepts answer ->
    Forall nonblank typed ->
    trace (snd (handle_env_file w n rsp s)) = evs ++ trace s ->
    (exists e,
        fst (handle_env_file w n rsp s) = Raise e /\
        (e = PyExc "EOFError" "EOF when reading a line" \/
         In (EvMakedirs (env_dir (self s)) (Raise e)) evs)) /\
    Forall (fun e => ~ is_write e /\ ~ is_transfer e) evs.
Proof.
  intros w n rsp s answer typed evs Hex Hin Hacc Hnb Htrace.
  unfold handle_env_file in *. mred. rewrite Hex in *. cbv beta iota in *.
  rewrite Hin in *. cbv beta iota in *. cbn [trace self stdin fst snd] in *.
  unfold accepts in Hacc. rewrite Hacc in *.
  change (String.eqb "y" "y") with true in *. cbv beta iota in *.
  case_oracle; mred.
  2: { name_events Htrace. split.
       - exists e. split; [ reflexivity | right; left; reflexivity ].
       - repeat constructor; cbn; tauto. }
  rewrite (@read_env_lines_eof typed [] _ Hnb) in *.
  cbn [app trace self stdin fst snd] in *.
  name_events_deep Htrace. split.
  - eexists. split; [ reflexivity | left; reflexivity ].
  - apply Forall_forall. intros e H. split_in H; subst; cbn; try tauto.
    apply typed_events_are_inputs in H. destruct H as (x & ->). cbn. tauto.
Qed.

Lemma handle_env_file_unfinished_input_witness :
  exists e,
    fst (handle_env_file (world_of [] [] always_ok) target repo_dir
           (connected ["y"; "API_KEY=abc"]%string)) = Raise e.
Proof.
  destruct (proj1
    (@handle_env_file_unfinished_input (world_of [] [] always_ok) target repo_dir
       (connected ["y"; "API_KEY=abc"]%string) "y" ["API_KEY=abc"%string]
       (trace (snd (handle_env_file (world_of [] [] always_ok) target repo_dir
                      (connected ["y"; "API_KEY=abc"]%string))))
       eq_refl eq_refl eq_refl
       ltac:(repeat constructor; vm_compute; discriminate)
       ltac:(symmetry; apply app_nil_r))) as (e & He & _).
  exists e. exact He.
Defined.

(** ** The copy of the source tree (lines 131-138) *)

Lemma transferred_app t1 t2 : transferred (t1 ++ t2) = transferred t2 ++ transferred t1.
Proof. unfold transferred. rewrite rev_app_distr, flat_map_app. reflexivity. Qed.

Lemma upload_run_copied dest l s b evs :
  upload_run l (dest l) s b evs -> copied dest [l] b evs.
Proof.
  intros H. destruct H; unfold copied.
  5: reflexivity.
  all: exists [], l, []; eexists; repeat split; reflexivity.
Qed.

Lemma copied_nil dest : copied dest [] true [].
Proof. reflexivity. Qed.

Lemma copied_app dest p1 p2 b e1 e2 :
  copied dest p1 true e1 -> copied dest p2 b e2 -> copied dest (p1 ++ p2) b (e2 ++ e1).
Proof.
  unfold copied. intros H1 H2. destruct b.
  - rewrite transferred_app, H1, H2, map_app. reflexivity.
  - destruct H2 as (done & l & rest & e & -> & Ht & Hhd).
    exists (p1 ++ done), l, rest, e. repeat split.
    + rewrite app_assoc. reflexivity.
    + rewrite transferred_app, H1, Ht, map_app. reflexivity.
    + destruct e2; [ discriminate | exact Hhd ].
Qed.

Lemma copied_stops dest p1 p2 e1 :
  copied dest p1 false e1 -> copied dest (p1 ++ p2) false e1.
Proof.
  unfold copied. intros (done & l & rest & e & -> & Ht & Hhd).
  exists done, l, (rest ++ p2), e. repeat split; auto.
  rewrite <- app_assoc. reflexivity.
Qed.

Lemma copy_dir_files_run w sp n root files :
  forall s, exists b evs,
    copy_dir_files w sp n root files s = (Ok b, extend evs s) /\
    copied (remote_path_of w sp n) (map (OsPath.join root) files) b evs.
Proof.
  induction files as [|file more IH]; intros s.
  - exists true, []. destruct s. split; [ reflexivity | apply copied_nil ].
  - cbn [copy_dir_files map]. unfold and_then, bind, ret.
    destruct (upload_file_run w (OsPath.join root file)
                (remote_path_of w sp n (OsPath.join root file)) s)
      as (b & evs & Hup & ->).
    apply (@upload_run_copied (remote_path_of w sp n)) in Hup.
    destruct b.
    + destruct (IH (extend evs s)) as (b2 & evs2 & -> & Hc).
      exists b2, (evs2 ++ evs). rewrite extend_extend. split; [ reflexivity | ].
      apply (@copied_app _ [_] _ _ _ _ Hup Hc).
    + exists false, evs. split; [ reflexivity | ].
      apply (@copied_stops _ [_] _ _ Hup).
Qed.

Lemma copy_walk_run w sp n entries :
  forall s, exists b evs,
    copy_walk w sp n entries s = (Ok b, extend evs s) /\
    copied (remote_path_of w sp n) (walk_files entries) b evs.
Proof.
  induction entries as [|[[root dirs] files] more IH]; intros s.
  - exists true, []. destruct s. split; [ reflexivity | apply copied_nil ].
  - cbn [copy_walk walk_files flat_map]. unfold and_then, bind, ret.
    destruct (copy_dir_files_run w sp n root files s) as (b & evs & -> & Hc).
    destruct b.
    + destruct (IH (extend evs s)) as (b2 & evs2 & -> & Hc2).
      exists b2, (evs2 ++ evs). rewrite extend_extend. split; [ reflexivity | ].
      apply (@copied_app _ _ _ _ _ _ Hc Hc2).
    + exists false, evs. split; [ reflexivity | ].
      apply (@copied_stops _ _ _ _ Hc).
Qed.

Lemma copy_files_all_or_prefix_run w sp n s :
  exists b evs,
    copy_files w sp n s = (Ok b, extend evs s) /\
    copied (remote_path_of w sp n) (walk_files (os_walk w (trace s) sp)) b evs.
Proof.
  unfold copy_files. mred.
  destruct (copy_walk_run w sp n (os_walk w (trace s) sp) s) as (b & evs & Hrun & Hc).
  exists b, evs. split; [ | exact Hc ].
  destruct s; exact Hrun.
Qed.

(** X9: the copy of the source tree never raises and leaves the manager
    and the pending input as they are.  It returns [True] exactly when every
    file of the walk has been transferred, in the order of the walk, each to
    [/opt/<name>/<path relative to the source tree>]; it returns [False] at
    the first file whose upload fails: the files before it have been
    transferred, the failure message of that file is the last thing that
    happened, and no later file is attempted. *)
Theorem copy_files_all_or_prefix :
  forall (w : World) (sp n : string) (s : State),
  exists b evs,
    copy_files w sp n s = (Ok b, extend evs s) /\
    copied (remote_path_of w sp n) (walk_files (os_walk w (trace s) sp)) b evs.
Proof. intros w sp n s. apply copy_files_all_or_prefix_run. Qed.

(** In the source tree of three files whose second transfer fails, the
    first file is the only one transferred. *)
Example copy_stops_at_the_second_file :
  exists evs,
    copy_files world_second_upload_fails repo_dir target (connected [])
    = (Ok false, extend evs (connected [])) /\
    transferred evs = [("/tmp/tmpk3/a.py", "/opt/lightningStrikes/a.py")]%string.
Proof.
  exists (trace (snd (copy_files world_second_upload_fails repo_dir target
                        (connected [])))).
  split; vm_compute; reflexivity.
Qed.

(** ** [deploy_script] as a whole *)

Lemma upload_event_provisioning l r e : upload_event l r e -> provisioning_event e.
Proof. intros H. destruct H; exact I. Qed.

Lemma deploy_event_provisioning w me sp n e :
  deploy_event w me sp n e -> provisioning_event e.
Proof.
  intros H. destruct H as [e H|h e H|e H|e H|e H]; destruct H;
    try exact I; eapply upload_event_provisioning; eassumption.
Qed.

(** X10: [deploy_script] leaves the manager as it found it (the
    credentials, the two handles, [temp_dir] and [env_dir] are not
    assigned), and whatever its outcome it does nothing but print, read the
    operator's input, run remote commands, transfer files, and make, write
    and read local files: it never opens or closes a connection, never runs
    a local process and never removes anything locally. *)
Theorem deploy_script_keeps_the_manager :
  forall (w : World) (sp n : string) (s : State),
    self (snd (deploy_script w sp n s)) = self s /\
    exists evs,
      trace (snd (deploy_script w sp n s)) = evs ++ trace s /\
      Forall provisioning_event evs.
Proof.
  intros w sp n s.
  destruct (@deploy_script_frame w (self s) sp n s eq_refl) as (evs & F & S & T & _).
  split; [ exact S | ]. exists evs. split; [ exact T | ].
  eapply Forall_impl; [ | exact F ]. intros e. apply deploy_event_provisioning.
Qed.

Lemma and_then_true {St} (step rest : M St bool) s s' :
  (step &&> rest) s = (Ok true, s') ->
  exists s1, step s = (Ok true, s1) /\ rest s1 = (Ok true, s').
Proof.
  unfold and_then, bind, ret. destruct (step s) as [[[|]|e] s1]; intros H;
    try discriminate. eauto.
Qed.

Lemma transferred_In l r evs :
  In (l, r) (transferred evs) -> In (EvPut l r (Ok tt)) evs.
Proof.
  unfold transferred. intros H. apply in_flat_map in H.
  destruct H as (e & He & Hin). apply in_rev in He.
  destruct e; try contradiction.
  destruct res as [[]|]; [ | contradiction ].
  destruct Hin as [Hin|[]]. injection Hin as <- <-. exact He.
Qed.

Lemma copied_all_In dest paths evs l :
  copied dest paths true evs -> In l paths -> In (EvPut l (dest l) (Ok tt)) evs.
Proof.
  unfold copied. intros H Hin. apply transferred_In. rewrite H.
  apply in_map_iff. exists l. split; [ reflexivity | exact Hin ].
Qed.

Lemma later_steps_success w sp n s s' :
  later_steps w sp n s = (Ok true, s') ->
  exists evs,
    trace s' = (EvPrint ("Successfully deployed " ++ n)%string :: evs) ++ trace s /\
    forall l, In l (walk_files (os_walk w (trace s) sp)) ->
              In (EvPut l (remote_path_of w sp n l) (Ok tt)) evs.
Proof.
  unfold later_steps. intros H.
  apply and_then_true in H. destruct H as (s1 & H1 & H).
  apply and_then_true in H. destruct H as (s2 & H2 & H).
  apply and_then_true in H. destruct H as (s3 & H3 & H).
  apply and_then_true in H. destruct H as (s4 & H4 & H).
  destruct (copy_files_all_or_prefix_run w sp n s) as (b & e1 & Hc & Hcopied).
  rewrite Hc in H1. injection H1 as -> <-.
  destruct (@handle_env_file_frame w (self s) n sp (extend e1 s) eq_refl)
    as (e2 & _ & S2 & T2 & _).
  rewrite H2 in S2, T2. cbn [snd] in S2, T2.
  destruct (@setup_runtime_frame w (self s) true sp n s2 S2) as (e3 & _ & S3 & T3 & _).
  rewrite H3 in S3, T3. cbn [snd] in S3, T3.
  destruct (@update_crontab_frame w (self s) true sp n s3 S3) as (e4 & _ & S4 & T4 & _).
  rewrite H4 in S4, T4. cbn [snd] in S4, T4.
  unfold bind, print, ret in H. injection H as <-.
  exists (e4 ++ e3 ++ e2 ++ e1). split.
  - cbn [record_event trace app]. rewrite T4, T3, T2. cbn [extend trace].
    rewrite <- !app_assoc. reflexivity.
  - intros l Hl. apply in_or_app. right. apply in_or_app. right.
    apply in_or_app. right. eapply copied_all_In; eassumption.
Qed.

(** X11: [deploy_script] returns [True] only after a complete
    deployment: both privileged commands have returned exit code zero,
    every file of the walk of the source tree has been transferred to
    [/opt/<name>/<relative path>], and the success message is the last
    thing printed. *)
Theorem deploy_script_success_means :
  forall (w : World) (sp n : string) (s : State)
         (entries : list (string * list string * list string)) (evs : list event),
    (forall h, os_walk w h sp = entries) ->
    fst (deploy_script w sp n s) = Ok true ->
    trace (snd (deploy_script w sp n s)) = evs ++ trace s ->
    hd_error evs = Some (EvPrint ("Successfully deployed " ++ n)%string) /\
    (exists r, In (EvExec (create_dir_cmd (server_password (self s)) n) (Ok r)) evs /\
               returncode r = 0%Z) /\
    (exists r, In (EvExec (chown_cmd (server_password (self s)) (server_user (self s)) n)
                      (Ok r)) evs /\
               returncode r = 0%Z) /\
    (forall l, In l (walk_files entries) ->
               In (EvPut l (remote_path_of w sp n l) (Ok tt)) evs).
Proof.
  intros w sp n s entries evs Hwalk Hret Htrace.
  rewrite deploy_script_unfold in *.
  unfold create_directory, set_permissions, run_remote_command in *. mred.
  destruct (ssh (self s)) eqn:Hssh; mred; try discriminate.
  all: case_oracle_in Htrace; mred; try discriminate.
  all: destruct (nonzero a) eqn:Hnz; mred; try discriminate.
  all: apply nonzero_false in Hnz.
  all: rewrite ?Hssh in *; mred; case_oracle_in Htrace; mred; try discriminate.
  all: destruct (nonzero a0) eqn:Hnz0; mred; try discriminate.
  all: apply nonzero_false in Hnz0.
  all: match type of Htrace with
       | context [later_steps ?w ?sp ?n ?S2] =>
           destruct (later_steps w sp n S2) as [r s'] eqn:Hlater
       end; cbn [fst snd] in *; subst r.
  all: apply later_steps_success in Hlater; destruct Hlater as (later & T & Hput).
  all: rewrite T in Htrace; cbn [trace] in Htrace; name_events_deep Htrace.
  all: rewrite Hwalk in Hput.
  all: split; [ reflexivity | ].
  all: split; [ exists a; split; [ | exact Hnz ] | ].
  all: try split; try (exists a0; split; [ | exact Hnz0 ]).
  all: try (intros l Hl; right; apply in_or_app; left; apply Hput; exact Hl).
  all: right; apply in_or_app; right; cbn [In]; auto 20.
Qed.

Lemma deploy_script_success_means_witness :
  In (EvPut "/tmp/tmpk3/main.py" "/opt/lightningStrikes/main.py" (Ok tt))
     (trace (snd (deploy_script world_with_cron repo_dir target (connected ["n"%string])))).
Proof.
  refine (proj2 (proj2 (proj2
    (@deploy_script_success_means world_with_cron repo_dir target (connected ["n"%string])
       [ (repo_dir, [], ["main.py"; "cron.txt"]%string) ]
       (trace (snd (deploy_script world_with_cron repo_dir target
                      (connected ["n"%string]))))
       _ _ _))) "/tmp/tmpk3/main.py"%string _).
  - intros h. reflexivity.
  - vm_compute. reflexivity.
  - symmetry. apply app_nil_r.
  - left. reflexivity.
Defined.

(** ** The driver, end to end *)

(** X12: when the host refuses the connection, [main] reports the
    exception and raises it again after [cleanup]; it has not opened the
    file-transfer channel, run a remote command, cloned anything or asked
    the operator anything, and [cleanup] closes the one handle that was
    assigned. *)
Theorem main_connection_refused :
  forall (w : World) (args : Args) (lines : list string) (pw : string) (e : exn),
    getpass_getpass w [] "Enter server password: " = Ok pw ->
    (forall t, ssh_connect w t (host args) (user args) pw = Raise e) ->
    main w args (initial lines) =
      (Raise e,
       mkState
         (Some (set_ssh HClosed (init w (host args) (user args) pw (env_dir_arg args))))
         lines
         [ EvCloseSsh;
           EvPrint ("An error occurred: " ++ str_exn e)%string;
           EvConnect (host args) (user args) pw (Raise e);
           EvPrint "Establishing SSH connection...";
           EvPrint "Initializing deployment manager...";
           EvGetpass "Enter server password: " (Ok pw) ]).
Proof.
  intros w args lines pw e Hpw Hconn.
  rewrite main_run, Hpw.
  unfold try_finally, main_try, try_except, main_body, main_finally, call, connect, cleanup.
  mred. cbn [init server_host server_user server_password set_ssh].
  rewrite Hconn. mred. reflexivity.
Qed.

Lemma main_connection_refused_witness :
  fst (main world_auth_fails example_args (initial []))
  = Raise (PyExc "AuthenticationException" "Authentication failed.").
Proof.
  rewrite (@main_connection_refused world_auth_fails example_args [] "hunter2"
             (PyExc "AuthenticationException" "Authentication failed.") eq_refl
             (fun _ => eq_refl)).
  reflexivity.
Defined.

(** X13: when the remote host has no [python3.12], [main] stops at the
    check: it raises [RuntimeError], reported as an error, having created
    no workspace and cloned nothing, and [cleanup] closes both channels. *)
Theorem main_without_remote_python :
  forall (w : World) (args : Args) (lines : list string) (pw : string)
         (r : CommandResult),
    getpass_getpass w [] "Enter server password: " = Ok pw ->
    (forall t, ssh_connect w t (host args) (user args) pw = Ok tt) ->
    (forall t, ssh_open_sftp w t = Ok tt) ->
    (forall t, ssh_exec_command w t "command -v python3.12" = Ok r) ->
    returncode r <> 0%Z ->
    main w args (initial lines) =
      (Raise (PyExc "RuntimeError" "Python 3.12 is not installed on the remote server"),
       mkState
         (Some (set_ssh HClosed (set_sftp HClosed
                  (init w (host args) (user args) pw (env_dir_arg args)))))
         lines
         [ EvCloseSsh;
           EvCloseSftp;
           EvPrint "An error occurred: Python 3.12 is not installed on the remote server";
           EvExec "command -v python3.12" (Ok r);
           EvPrint "Verifying Python version...";
           EvOpenSftp (Ok tt);
           EvConnect (host args) (user args) pw (Ok tt);
           EvPrint "Establishing SSH connection...";
           EvPrint "Initializing deployment manager...";
           EvGetpass "Enter server password: " (Ok pw) ]).
Proof.
  intros w args lines pw r Hpw Hconn Hsftp Hcmd Hrc.
  rewrite main_run, Hpw.
  unfold try_finally, main_try, try_except, main_body, main_finally, call, connect,
    verify_python_version, run_remote_command, cleanup.
  mred. cbn [init server_host server_user server_password set_ssh].
  rewrite Hconn. mred. rewrite Hsftp. mred.
  cbn [init set_ssh set_sftp ssh sftp]. rewrite Hcmd. mred.
  assert (Hnz : nonzero r = true).
  { unfold nonzero. apply negb_true_iff, Z.eqb_neq. exact Hrc. }
  rewrite Hnz. mred. reflexivity.
Qed.

Lemma main_without_remote_python_witness :
  fst (main world_without_python example_args (initial []))
  = Raise (PyExc "RuntimeError" "Python 3.12 is not installed on the remote server").
Proof.
  rewrite (@main_without_remote_python world_without_python example_args [] "hunter2"
             (failed 1 EmptyString) eq_refl (fun _ => eq_refl) (fun _ => eq_refl)
             (fun _ => eq_refl) ltac:(vm_compute; discriminate)).
  reflexivity.
Defined.

Lemma main_try_run w args pw ms :
  main_try w args pw ms =
  match main_body w args pw ms with
  | (Ok a, ms1) => (Ok a, ms1)
  | (Raise e, ms1) =>
      (Raise e, record_event (EvPrint ("An error occurred: " ++ str_exn e)%string) ms1)
  end.
Proof.
  unfold main_try, try_except. destruct (main_body w args pw ms) as [[a|e] ms1];
    reflexivity.
Qed.

(** X14: every exception that ends [main] after the password prompt has
    been reported: the line [An error occurred: <message>] has been printed
    (before [cleanup] ran), and the exception that [main] raises is the one
    that left the [try] block, not a replacement.  The exceptions are the
    instances of [Exception], the only ones the operations of the embedding
    raise. *)
Theorem main_reports_every_exception :
  forall (w : World) (args : Args) (lines : list string) (pw : string) (e : exn),
    getpass_getpass w [] "Enter server password: " = Ok pw ->
    fst (main w args (initial lines)) = Raise e ->
    fst (main_body w args pw
           (mkState None lines [EvGetpass "Enter server password: " (Ok pw)]))
      = Raise e /\
    In (EvPrint ("An error occurred: " ++ str_exn e)%string)
       (trace (snd (main w args (initial lines)))).
Proof.
  intros w args lines pw e Hpw Hret.
  rewrite main_run, Hpw in *. unfold try_finally in *.
  destruct (main_try_constructs w args pw
              (mkState None lines [EvGetpass "Enter server password: " (Ok pw)]))
    as (me & Hme).
  rewrite main_try_run in *.
  destruct (main_body w args pw _) as [[a|e'] ms1]; cbn [fst snd self] in *.
  - destruct (main_finally_run w ms1 Hme) as (evs & Hrun & _).
    rewrite Hrun in Hret. discriminate.
  - match goal with
    | |- context [main_finally w ?ms] =>
        destruct (@main_finally_run w ms me Hme) as (evs & Hrun & _)
    end.
    rewrite Hrun in *. cbn [fst snd trace record_event] in *.
    injection Hret as ->. split; [ reflexivity | ].
    apply in_or_app. right. left. reflexivity.
Qed.

Lemma main_reports_every_exception_witness :
  In (EvPrint "An error occurred: Python 3.12 is not installed on the remote server")
     (trace (snd (main world_without_python example_args (initial [])))).
Proof.
  exact (proj2 (@main_reports_every_exception world_without_python example_args []
                  "hunter2"
                  (PyExc "RuntimeError" "Python 3.12 is not installed on the remote server")
                  eq_refl eq_refl)).
Defined.

(** X15: [main] returns normally in two cases only.  In both the
    password was read, the connection established, both commands of the
    runtime check returned zero and the repository was cloned.  Then either
    [main.py] is in the root of the clone and [deploy_script], called on the
    clone under the name derived from the URL, returned [True]; or
    [main.py] is missing and the listing was printed.  Only [cleanup]
    follows.  So a deployment that returns [False] never ends in a normal
    return. *)
Theorem main_returns_normally_only_if :
  forall (w : World) (args : Args) (lines : list string),
    fst (main w args (initial lines)) = Ok tt ->
    exists pw r1 r2 repo_path after,
      let st := checking_state w args lines pw r1 r2 repo_path in
      let name := repo_name_of (repo_url args) in
      getpass_getpass w [] "Enter server password: " = Ok pw /\
      returncode r1 = 0%Z /\ returncode r2 = 0%Z /\
      tempfile_mkdtemp w (cloning_history args pw r1 r2) = Ok repo_path /\
      Forall cleanup_event after /\
      if os_path_exists w (trace st) (OsPath.join repo_path "main.py") then
        let called :=
          extend [EvPrint ("Found main.py in repository root. Using repo name: "
                           ++ name)%string] st in
        fst (deploy_script w repo_path name called) = Ok true /\
        trace (snd (main w args (initial lines)))
          = after ++ trace (snd (deploy_script w repo_path name called))
      else
        let announced :=
          EvPrint "Repository structure:"
          :: EvPrint "No main.py found in repository root!" :: trace st in
        trace (snd (main w args (initial lines)))
          = after
            ++ rev (map EvPrint
                      (flat_map (listing_lines repo_path)
                                (os_walk w announced repo_path)))
            ++ announced.
Proof.
  intros w args lines Hret.
  remember (main w args (initial lines)) as run eqn:Hrun.
  rewrite main_run in Hrun.
  destruct (getpass_getpass w [] "Enter server password: ") as [pw|e] eqn:Hpw;
    [ | subst run; discriminate Hret ].
  unfold try_finally, main_try, try_except, main_body in Hrun.
  unfold call, connect, verify_python_version, clone_repo, run_remote_command in Hrun.
  mred. reduce_in Hrun.
  step_in Hrun; [ | finally_in Hrun; subst run; discriminate Hret ].
  step_in Hrun; [ | finally_in Hrun; subst run; discriminate Hret ].
  step_in Hrun; [ | finally_in Hrun; subst run; discriminate Hret ].
  destruct (nonzero a1) eqn:Hnz1; reduce_in Hrun;
    [ finally_in Hrun; subst run; discriminate Hret | ].
  step_in Hrun; [ | finally_in Hrun; subst run; discriminate Hret ].
  destruct (nonzero a2) eqn:Hnz2; reduce_in Hrun;
    [ finally_in Hrun; subst run; discriminate Hret | ].
  step_in Hrun; [ | finally_in Hrun; subst run; discriminate Hret ].
  step_in Hrun; [ | finally_in Hrun; subst run; discriminate Hret ].
  apply nonzero_false in Hnz1, Hnz2.
  destruct a, a0, a4.
  match type of Hrun with
  | context [os_path_exists ?w ?T ?p] => destruct (os_path_exists w T p) eqn:Hex
  end; reduce_in Hrun.
  - match type of Hrun with
    | context [deploy_script ?w ?sp ?n ?S] =>
        destruct (deploy_script w sp n S) as [r sd] eqn:Hd
    end.
    reduce_in Hrun.
    destruct r as [[|]|x]; reduce_in Hrun; finally_in Hrun; subst run;
      try discriminate Hret.
    exists pw, a1, a2, a3, evs. cbv zeta.
    unfold checking_state, cloning_history, extend, repo_name_of, clone_argv.
    cbn [trace self stdin app snd].
    split; [ reflexivity | ]. repeat (split; [ assumption | ]).
    rewrite Hex. split.
    + exact (f_equal fst Hd).
    + exact (f_equal (fun p => evs ++ trace (snd p)) (eq_sym Hd)).
  - rewrite print_all_run in Hrun. reduce_in Hrun. finally_in Hrun. subst run.
    exists pw, a1, a2, a3, evs. cbv zeta.
    unfold checking_state, cloning_history, extend, repo_name_of, clone_argv.
    cbn [trace self stdin app snd].
    split; [ reflexivity | ]. repeat (split; [ assumption | ]).
    rewrite Hex, print_walk_entry_lines. reflexivity.
Qed.

Lemma main_returns_normally_only_if_witness :
  exists r1 r2 after,
    let called :=
      extend [EvPrint "Found main.py in repository root. Using repo name: lightningStrikes"]
             (checking_state world_with_cron example_args ["n"%string] "hunter2" r1 r2
                repo_dir) in
    fst (deploy_script world_with_cron repo_dir target called) = Ok true /\
    trace (snd (main world_with_cron example_args (initial ["n"%string])))
      = after ++ trace (snd (deploy_script world_with_cron repo_dir target called)).
Proof.
  destruct (@main_returns_normally_only_if world_with_cron example_args ["n"%string]
              eq_refl)
    as (pw & r1 & r2 & repo_path & after & Hpw & _ & _ & Hdir & _ & H).
  change (Ok "hunter2"%string = Ok pw) in Hpw. injection Hpw as <-.
  change (Ok repo_dir = Ok repo_path) in Hdir. injection Hdir as <-.
  exists r1, r2, after. exact H.
Defined.

(** ** The name of the deployment (line 301) *)

Lemma last_char_rev_onto t :
  forall acc,
    last_char (Py.rev_onto t acc) =
    match last_char acc with Some d => Some d | None => first_char t end.
Proof.
  induction t as [|c r IH]; intros acc; cbn [Py.rev_onto first_char].
  - destruct (last_char acc); reflexivity.
  - rewrite IH. cbn [last_char]. destruct (last_char acc); reflexivity.
Qed.

Lemma last_char_reverse t : last_char (Py.reverse t) = first_char t.
Proof. unfold Py.reverse. rewrite last_char_rev_onto. reflexivity. Qed.

Lemma rev_onto_rev_onto s :
  forall a b, Py.rev_onto (Py.rev_onto s a) b = Py.rev_onto a (s ++ b)%string.
Proof.
  induction s as [|c r IH]; intros a b; cbn [Py.rev_onto String.append].
  - reflexivity.
  - rewrite IH. reflexivity.
Qed.

Lemma reverse_involutive s : Py.reverse (Py.reverse s) = s.
Proof.
  unfold Py.reverse. rewrite rev_onto_rev_onto. cbn [Py.rev_onto].
  induction s as [|c r IH]; cbn [String.append]; [ | rewrite IH ]; reflexivity.
Qed.

Lemma first_char_reverse s : first_char (Py.reverse s) = last_char s.
Proof. rewrite <- (reverse_involutive s) at 2. symmetry. apply last_char_reverse. Qed.

Lemma first_char_lstrip_by p t c :
  first_char (Py.lstrip_by p t) = Some c -> p c = false.
Proof.
  induction t as [|d r IH]; cbn [Py.lstrip_by first_char]; [ discriminate | ].
  destruct (p d) eqn:Hd; [ exact IH | ].
  cbn [first_char]. intros H. injection H as <-. exact Hd.
Qed.

Lemma last_char_rstrip_by p s c :
  last_char (Py.rstrip_by p s) = Some c -> p c = false.
Proof.
  unfold Py.rstrip_by. rewrite last_char_reverse. apply first_char_lstrip_by.
Qed.

Lemma rsplit_without_head r :
  fst (OsPath.rsplit r) = EmptyString -> snd (OsPath.rsplit r) = r.
Proof.
  induction r as [|c r IH]; cbn [OsPath.rsplit]; [ reflexivity | ].
  destruct (OsPath.rsplit r) as [[|h0 h] t]; cbn [fst snd] in *.
  - destruct (OsPath.is_sep c); cbn [fst snd]; [ discriminate | ].
    intros _. rewrite IH; reflexivity.
  - discriminate.
Qed.

Lemma last_char_basename s c :
  last_char (OsPath.basename s) = Some c -> last_char s = Some c.
Proof.
  unfold OsPath.basename. revert c.
  induction s as [|d r IH]; intros c; cbn [OsPath.rsplit]; [ auto | ].
  pose proof (rsplit_without_head r) as Hno.
  destruct (OsPath.rsplit r) as [[|h0 h] t]; cbn [fst snd] in *.
  - rewrite Hno in * by reflexivity.
    destruct (OsPath.is_sep d); cbn [snd last_char]; intros H.
    + rewrite H. reflexivity.
    + exact H.
  - intros H. cbn [last_char]. rewrite (IH c H). reflexivity.
Qed.

(** X16: the name under which [main] deploys a repository never ends in
    one of the characters [.], [g], [i], [t]: line 301 strips that set of
    characters from the end of the URL, not the suffix [.git], so a
    repository whose own name ends in one of them is deployed under a
    shortened name, and under the empty name when nothing else is left
    after the last separator. *)
Theorem repo_name_never_ends_in_dot_g_i_t :
  forall (url : string) (c : ascii),
    last_char (repo_name_of url) = Some c ->
    c <> "."%char /\ c <> "g"%char /\ c <> "i"%char /\ c <> "t"%char.
Proof.
  intros url c H. unfold repo_name_of, Py.rstrip_chars in H.
  apply last_char_basename, last_char_rstrip_by in H.
  cbn [Py.mem_char] in H.
  repeat (apply orb_false_iff in H; destruct H as [? H]).
  repeat split; intros ->; discriminate.
Qed.

Lemma repo_name_never_ends_in_dot_g_i_t_witness :
  "s"%char <> "."%char /\ "s"%char <> "g"%char /\ "s"%char <> "i"%char
  /\ "s"%char <> "t"%char.
Proof.
  exact (@repo_name_never_ends_in_dot_g_i_t
           "https://github.com/WB-TFS-SCADA1/lightningStrikes.git" "s"%char eq_refl).
Defined.

(** A repository named [digit] is deployed as [d]. *)
Example repo_name_of_digit :
  repo_name_of "https://example.org/team/digit.git" = "d"%string.
Proof. reflexivity. Qed.

Lemma lstrip_by_rev_onto p suffix :
  forall acc,
    all_chars p suffix = true ->
    Py.lstrip_by p (Py.rev_onto suffix acc) = Py.lstrip_by p acc.
Proof.
  induction suffix as [|c r IH]; intros acc; cbn [all_chars Py.rev_onto]; [ auto | ].
  intros H. apply andb_true_iff in H. destruct H as [Hc Hr].
  rewrite IH by exact Hr. cbn [Py.lstrip_by]. rewrite Hc. reflexivity.
Qed.

Lemma rev_onto_append a b :
  forall acc, Py.rev_onto (a ++ b)%string acc = Py.rev_onto b (Py.rev_onto a acc).
Proof.
  induction a as [|c a IH]; intros acc; cbn [String.append Py.rev_onto];
    [ reflexivity | apply IH ].
Qed.

Lemma rstrip_by_suffix p s suffix :
  all_chars p suffix = true ->
  Py.rstrip_by p (s ++ suffix)%string = Py.rstrip_by p s.
Proof.
  intros H. unfold Py.rstrip_by, Py.reverse at 2.
  rewrite rev_onto_append, lstrip_by_rev_onto by exact H. reflexivity.
Qed.

Lemma rstrip_by_kept p s c :
  last_char s = Some c -> p c = false -> Py.rstrip_by p s = s.
Proof.
  intros Hlast Hc. unfold Py.rstrip_by.
  pose proof (first_char_reverse s) as Hf. rewrite Hlast in Hf.
  destruct (Py.reverse s) as [|d r] eqn:Hrev; [ discriminate | ].
  cbn [first_char] in Hf. injection Hf as ->.
  cbn [Py.lstrip_by]. rewrite Hc, <- Hrev. apply reverse_involutive.
Qed.

Lemma rsplit_component name :
  no_sep name = true -> OsPath.rsplit name = (EmptyString, name).
Proof.
  unfold no_sep. induction name as [|c r IH]; cbn [all_chars OsPath.rsplit];
    [ reflexivity | ].
  intros H. apply andb_true_iff in H. destruct H as [Hc Hr].
  rewrite (IH Hr). apply negb_true_iff in Hc. rewrite Hc. reflexivity.
Qed.

Lemma basename_of_joined base name :
  no_sep name = true ->
  OsPath.basename (base ++ String OsPath.sep name)%string = name.
Proof.
  intros Hname. unfold OsPath.basename.
  assert (H : exists h0 h,
             OsPath.rsplit (base ++ String OsPath.sep name)%string = (String h0 h, name)).
  { induction base as [|c r IH]; cbn [String.append OsPath.rsplit].
    - rewrite (rsplit_component _ Hname). cbn. eauto.
    - destruct IH as (h0 & h & ->). eauto. }
  destruct H as (h0 & h & ->). reflexivity.
Qed.

(** X17: for a URL [<base>/<name><suffix>] whose last component [name]
    does not end in one of the characters [.], [g], [i], [t], and whose
    [suffix] is made of those characters ([.git], or nothing), the name
    under which [main] deploys the repository is [name]. *)
Theorem repo_name_of_a_plain_url :
  forall (base name suffix : string) (c : ascii),
    no_sep name = true ->
    last_char name = Some c ->
    Py.mem_char c ".git" = false ->
    all_chars (fun d => Py.mem_char d ".git") suffix = true ->
    repo_name_of (base ++ "/" ++ name ++ suffix)%string = name.
Proof.
  intros base name suffix c Hname Hlast Hc Hsuffix. unfold repo_name_of, Py.rstrip_chars.
  replace (base ++ "/" ++ name ++ suffix)%string
    with ((base ++ String OsPath.sep name) ++ suffix)%string
    by (rewrite string_app_assoc; reflexivity).
  rewrite rstrip_by_suffix by exact Hsuffix.
  rewrite (@rstrip_by_kept _ _ c).
  - apply basename_of_joined, Hname.
  - rewrite last_char_append; [ | discriminate ].
    cbn [last_char]. rewrite Hlast. reflexivity.
  - exact Hc.
Qed.

Lemma repo_name_of_a_plain_url_witness :
  repo_name_of "https://github.com/WB-TFS-SCADA1/lightningStrikes.git"
  = "lightningStrikes"%string.
Proof.
  exact (@repo_name_of_a_plain_url "https://github.com/WB-TFS-SCADA1" "lightningStrikes"
           ".git" "s"%char eq_refl eq_refl eq_refl eq_refl).
Defined.

(** ** The dependency setup and the runner script (lines 144-206) *)

Lemma configure_frame w me io n :
  frame me io (configure_event me n)
        (run_setup_commands w [chmod_cmd n; dos2unix_cmd n]).
Proof.
  cbn [run_setup_commands].
  apply frame_and_then; [ | apply frame_and_then; [ | apply frame_ret ] ].
  all: unfold run_remote_command; frame_go;
       first [ apply CfgPrint | apply CfgChmod | apply CfgDos2unix | apply CfgInstall ].
Qed.

Lemma upload_run_exec l r s b up c res :
  upload_run l r s b up -> In (EvExec c res) up -> c = mkdir_parent r.
Proof.
  intros H Hin. destruct H; cbn [In] in Hin; unfold upload_failed in Hin;
    repeat (destruct Hin as [Hin|Hin]; [ try discriminate Hin | ]);
    try contradiction; injection Hin as <- _; reflexivity.
Qed.

Lemma upload_run_no_write l r s b up p nl c res :
  upload_run l r s b up -> ~ In (EvWrite p nl c res) up.
Proof.
  intros H Hin. destruct H; cbn [In] in Hin; unfold upload_failed in Hin;
    repeat (destruct Hin as [Hin|Hin]; [ discriminate Hin | ]); contradiction.
Qed.

(** Two commands of the runtime step that differ in their first
    characters. *)
Ltac absurd_runtime_cmd H :=
  exfalso;
  cbv beta delta [venv_setup_cmd chmod_cmd dos2unix_cmd install_cmd mkdir_parent
                    Py.join] in H;
  cbn [String.append String.concat] in H; discriminate H.

(** X18: the steps of the runtime setup happen in order, and each one
    only after the one before it succeeded.  A virtual-environment command
    that returns a non-zero exit code ends the step with [False], and its
    message is all that follows.  The only file written is the runner script
    (to [run_script.sh] in the source tree, with [newline] set to a line
    feed), and only after the virtual-environment command returned zero.  The
    commands that configure the runner on the host ([chmod], [dos2unix] and
    the installation of [dos2unix]) are run only after the runner script has
    been transferred. *)
Theorem setup_runtime_steps_in_order :
  forall (w : World) (sp n : string) (s : State) (evs : list event),
    trace (snd (setup_runtime w sp n s)) = evs ++ trace s ->
    (forall r, In (EvExec (venv_setup_cmd n) (Ok r)) evs -> returncode r <> 0%Z ->
               fst (setup_runtime w sp n s) = Ok false /\
               evs = [ EvPrint ("Failed to set up virtual environment: "
                                ++ stderr r)%string;
                       EvExec (venv_setup_cmd n) (Ok r) ]) /\
    (forall p nl c res, In (EvWrite p nl c res) evs ->
       p = runner_path_of sp /\ nl = Some Py.newline /\ c = runner_script n /\
       exists r, In (EvExec (venv_setup_cmd n) (Ok r)) evs /\ returncode r = 0%Z) /\
    (forall c res, In (EvExec c res) evs -> configure_cmd (self s) n c ->
       In (EvPut (runner_path_of sp) (remote_runner_path n) (Ok tt)) evs).
Proof.
  intros w sp n s evs Htrace.
  unfold setup_runtime, run_remote_command in *. mred.
  destruct (os_path_exists w (trace s) (OsPath.join sp "requirements.txt")).
  2: { mred. name_events Htrace. repeat split; try contradiction;
       intros; contradiction. }
  mred.
  assert (Hcfg : forall c, configure_cmd (self s) n c -> c <> venv_setup_cmd n).
  { intros c [H|[H|H]] E; rewrite H in E; absurd_runtime_cmd E. }
  assert (Hmk : forall c r, configure_cmd (self s) n c -> c <> mkdir_parent r).
  { intros c r [H|[H|H]] E; rewrite H in E; absurd_runtime_cmd E. }
  destruct (ssh (self s)) eqn:Hssh; mred.
  1: { name_events Htrace. split; [ | split ]; intros; contradiction. }
  all: case_oracle_in Htrace; mred.
  all: try (name_events Htrace; split; [ | split ];
            [ intros r H Hrc; pick_event H
            | intros p nl c res H; pick_event H
            | intros c res H Hc; pick_event H; exfalso; exact (Hcfg _ Hc eq_refl) ]).
  all: destruct (nonzero a) eqn:Hnz; mred.
  all: try (name_events Htrace; split; [ | split ];
            [ intros r H Hrc; pick_event H; split; reflexivity
            | intros p nl c res H; pick_event H
            | intros c res H Hc; pick_event H; exfalso; exact (Hcfg _ Hc eq_refl) ]).
  all: apply nonzero_false in Hnz.
  all: case_oracle_in Htrace; mred.
  all: try (name_events Htrace; split; [ | split ];
            [ intros r H Hrc; pick_event H; congruence
            | intros p nl c res H; split_in H; try discriminate H;
              injection H as <- <- <- <-;
              repeat (split; [ reflexivity | ]); exists a; split; [ | exact Hnz ];
              right; left; reflexivity
            | intros c res H Hc; pick_event H; exfalso; exact (Hcfg _ Hc eq_refl) ]).
  all: match type of Htrace with
       | context [upload_file ?w ?l ?r ?s1] =>
           destruct (upload_file_run w l r s1) as (b & up & Hup & Heq);
           rewrite Heq in *; clear Heq
       end; mred.
  all: destruct b; mred.
  all: try (unfold extend in *; cbn [trace self stdin] in *; name_events_deep Htrace;
            split; [ | split ];
            [ intros r H Hrc; split_in H;
              [ eapply upload_run_exec in H; [ | exact Hup ]; absurd_runtime_cmd H
              | discriminate H
              | injection H as <-; congruence ]
            | intros p nl c res H; split_in H;
              [ exfalso; eapply upload_run_no_write; [ exact Hup | exact H ]
              | injection H as <- <- <- <-;
                repeat (split; [ reflexivity | ]); exists a; split; [ | exact Hnz ];
                apply in_or_app; right; right; left; reflexivity
              | discriminate H ]
            | intros c res H Hc; exfalso; split_in H;
              [ eapply upload_run_exec in H; [ | exact Hup ]; exact (Hmk _ _ Hc H)
              | discriminate H
              | injection H as <- _; exact (Hcfg _ Hc eq_refl) ] ]).
  all: match type of Htrace with
       | context [run_setup_commands ?w ?cmds ?S] =>
           destruct (@configure_frame w (self s) true n S eq_refl)
             as (cfg & F & _ & T & _)
       end.
  all: rewrite T in Htrace; unfold extend in *; cbn [trace self stdin] in *;
       name_events_deep Htrace; rewrite Forall_forall in F.
  all: assert (Hdone : In (EvPut (runner_path_of sp) (remote_runner_path n) (Ok tt)) up)
         by (inversion Hup; left; reflexivity).
  all: split; [ | split ];
       [ intros r H Hrc; split_in H;
         [ apply F in H; inversion H as [ | res' E' | res' E' | res' E' ];
           absurd_runtime_cmd E'
         | eapply upload_run_exec in H; [ | exact Hup ]; absurd_runtime_cmd H
         | discriminate H
         | injection H as <-; congruence ]
       | intros p nl c res H; split_in H;
         [ apply F in H; inversion H
         | exfalso; eapply upload_run_no_write; [ exact Hup | exact H ]
         | injection H as <- <- <- <-;
           repeat (split; [ reflexivity | ]); exists a; split; [ | exact Hnz ];
           apply in_or_app; right; apply in_or_app; right; right; left; reflexivity
         | discriminate H ]
       | intros c res H Hc; apply in_or_app; right; apply in_or_app; left; exact Hdone ].
Qed.

Lemma setup_runtime_steps_in_order_witness :
  fst (setup_runtime world_venv_fails repo_dir target (connected [])) = Ok false.
Proof.
  refine (proj1 (proj1
    (@setup_runtime_steps_in_order world_venv_fails repo_dir target (connected [])
       (trace (snd (setup_runtime world_venv_fails repo_dir target (connected []))))
       _)
    (failed 1 "Error: Command '[...]' returned non-zero exit status 1.") _ _)).
  - symmetry. apply app_nil_r.
  - vm_compute. right. left. reflexivity.
  - vm_compute. discriminate.
Defined.

(** With a manifest and a host on which every command succeeds, the
    runtime setup writes the runner, transfers it and configures it. *)
Example setup_runtime_on_a_good_host :
  fst (setup_runtime world_with_manifest repo_dir target (connected [])) = Ok true /\
  exec_commands (trace (snd (setup_runtime world_with_manifest repo_dir target
                               (connected []))))
  = [ venv_setup_cmd target; "mkdir -p /opt/lightningStrikes";
      chmod_cmd target; dos2unix_cmd target ]%string.
Proof. split; vm_compute; reflexivity. Qed.

(** ** The listing of the repository (lines 309-315) *)

Lemma remove_from_skips old x :
  forall rest, Py.remove_from old (String.length x) (x ++ rest)%string
               = Py.remove_from old 0 rest.
Proof.
  induction x as [|c x IH]; intros rest; cbn [String.length String.append].
  - reflexivity.
  - cbn [Py.remove_from]. apply IH.
Qed.

Lemma remove_all_absent old s :
  Py.contains old s = false -> Py.remove_all old s = s.
Proof.
  unfold Py.remove_all. induction s as [|c r IH]; cbn [Py.contains Py.remove_from];
    [ reflexivity | ].
  intros H. apply orb_false_iff in H. destruct H as [Hp Hr].
  rewrite Hp, andb_false_r, (IH Hr). reflexivity.
Qed.

Lemma remove_all_prefix_of old rest :
  old <> EmptyString ->
  Py.remove_all old (old ++ rest)%string = Py.remove_all old rest.
Proof.
  intros Hne. unfold Py.remove_all.
  destruct old as [|c o]; [ contradiction | ].
  cbn [String.append Py.remove_from].
  change (String c (o ++ rest))%string with (String c o ++ rest)%string.
  rewrite prefix_append. cbn [String.eqb negb andb String.length Nat.sub].
  rewrite Nat.sub_0_r. apply remove_from_skips.
Qed.

(** X19: in the listing that [main] prints when [main.py] is missing, a
    directory of the walk is indented by four spaces for each separator in
    its path below the clone, and its files by four more: the clone itself
    is printed at the margin.  This holds when the path of the clone does
    not occur again in the path below it. *)
Theorem listing_indents_by_depth :
  forall (repo_path rel : string) (dirs files : list string),
    repo_path <> EmptyString ->
    Py.contains repo_path rel = false ->
    let depth := Py.count_char OsPath.sep rel in
    print_walk_entry repo_path ((repo_path ++ rel)%string, dirs, files) =
      (Py.repeat_str " " (4 * depth) ++ OsPath.basename (repo_path ++ rel) ++ "/")%string
      :: map (fun f => (Py.repeat_str " " (4 * (depth + 1)) ++ f)%string) files.
Proof.
  intros repo_path rel dirs files Hne Habsent depth. subst depth.
  unfold print_walk_entry.
  rewrite (remove_all_prefix_of _ Hne), (remove_all_absent _ _ Habsent).
  reflexivity.
Qed.

Lemma listing_indents_by_depth_witness :
  print_walk_entry "/tmp/tmpk3" ("/tmp/tmpk3/docs/api"%string, [], ["index.md"%string])
  = [ "        api/"; "            index.md" ]%string.
Proof.
  exact (@listing_indents_by_depth "/tmp/tmpk3" "/docs/api" [] ["index.md"%string]
           ltac:(discriminate) eq_refl).
Defined.
